(** * The history-processing engine of rotkehlchen/accounting/accountant.py

    A shallow embedding of [Accountant]: the per-run state is a record that is
    threaded through a state-and-exception monad (a Python exception leaves
    the mutations made before it in place), the collaborators that are not
    part of the accountant ([TaxableEvents] with the [CSVExporter] it shares,
    [PriceHistorian], the asset resolution helpers, the database handle) are
    interfaces the development is parameterised over.

    [FVal] wraps [decimal.Decimal]: an amount is a sign, a coefficient and
    an exponent, and its arithmetic rounds to the precision of the decimal
    context, so that no law of exact arithmetic is taken for granted.  The
    engine is parameterised over the four operations it uses; they are
    instantiated with the arithmetic of the default context (28 significant
    digits, round half even) where the engine is run on concrete histories.
    The module logger ([log.debug], [log.info], [log.error]) is not user
    visible and is left out; user-visible text goes through
    [msg_aggregator]. *)

From Stdlib Require Import ZArith NArith QArith List String Bool Lia.
From Stdlib Require Import DecimalString.
From Stdlib Require Import Sorting.Sorted Sorting.Permutation.
Import ListNotations.

Open Scope string_scope.
Open Scope list_scope.
Open Scope Z_scope.

(** ** Data model *)

Definition Timestamp := Z.
Definition Location := string.

(** [FVal]: the finite [decimal.Decimal] it wraps, as [as_tuple()] shows it.
    The value is the signed coefficient times ten to the exponent; the same
    value has several representations, which differ in how they print.
    Infinities and NaNs, which the engine never constructs, are left out. *)
Record FVal := mkFVal {
  num_sign : bool;
  num_coefficient : N;
  num_exponent : Z
}.

(** [FVal(n)] for a Python integer: exact, whatever the number of digits. *)
Definition FVal_of_Z (n : Z) : FVal := mkFVal (n <? 0) (Z.abs_N n) 0.

(** [FVal.__add__], [__sub__], [__mul__] and [__truediv__] hand over to
    [Decimal] under the context of the thread: each operation rounds its
    exact result.  The engine is written against the operations alone. *)
Class FValOps := mkFValOps {
  fval_add : FVal -> FVal -> FVal;
  fval_sub : FVal -> FVal -> FVal;
  fval_mul : FVal -> FVal -> FVal;
  fval_truediv : FVal -> FVal -> FVal
}.

Declare Scope fval_scope.
Delimit Scope fval_scope with F.
Bind Scope fval_scope with FVal.
Notation "a + b" := (fval_add a b) : fval_scope.
Notation "a - b" := (fval_sub a b) : fval_scope.
Notation "a * b" := (fval_mul a b) : fval_scope.
Notation "a / b" := (fval_truediv a b) : fval_scope.

Record Asset := mkAsset { identifier : string }.

Definition A_BTC : Asset := mkAsset "BTC".
Definition A_ETH : Asset := mkAsset "ETH".

Definition asset_eqb (a b : Asset) : bool :=
  String.eqb (identifier a) (identifier b).

(** What [action_get_assets] hands back: a known [Asset], or an
    [UnknownEthereumToken] (a class of its own, tested with [isinstance]). *)
Inductive ResolvedAsset :=
| KnownAsset (a : Asset)
| UnknownEthereumToken (address : string).

Inductive TradeType := BUY | SELL | SETTLEMENT_BUY | SETTLEMENT_SELL.

Record Trade := mkTrade {
  trade_timestamp : Timestamp;
  trade_location : Location;
  trade_base_asset : Asset;
  trade_quote_asset : Asset;
  trade_type : TradeType;
  trade_amount : FVal;
  trade_rate : FVal;
  trade_fee : FVal;
  trade_fee_currency : Asset
}.

Record Loan := mkLoan {
  loan_location : Location;
  loan_open_time : Timestamp;
  loan_close_time : Timestamp;
  loan_currency : Asset;
  loan_fee : FVal;
  loan_earned : FVal;
  loan_amount_lent : FVal
}.

Record AssetMovement := mkAssetMovement {
  movement_location : Location;
  movement_category : string;
  movement_timestamp : Timestamp;
  movement_asset : Asset;
  movement_fee_asset : Asset;
  movement_fee : FVal
}.

Record EthereumTransaction := mkEthereumTransaction {
  tx_hash : string;
  tx_timestamp : Timestamp;
  tx_gas_used : Z;
  tx_gas_price : Z
}.

(** Margin positions and DeFi events are handed to the ledger whole; the
    accountant reads nothing of them but their time. *)
Record MarginPosition := mkMarginPosition {
  margin_close_time : Timestamp;
  margin_profit_loss : FVal;
  margin_pl_currency : Asset
}.

Record DefiEvent := mkDefiEvent {
  defi_timestamp : Timestamp;
  defi_asset : Asset;
  defi_amount : FVal
}.

Inductive TaxableAction :=
| ActTrade (t : Trade)
| ActLoan (l : Loan)
| ActAssetMovement (m : AssetMovement)
| ActEthereumTransaction (tx : EthereumTransaction)
| ActMarginPosition (m : MarginPosition)
| ActDefiEvent (d : DefiEvent).

(** Modelled from the spec: utils.accounting.action_get_timestamp is not part
    of the sources at hand.  Every variant exposes a timestamp; loans and
    margin positions are placed at their closing time. *)
Definition action_get_timestamp (action : TaxableAction) : Timestamp :=
  match action with
  | ActTrade t => trade_timestamp t
  | ActLoan l => loan_close_time l
  | ActAssetMovement m => movement_timestamp m
  | ActEthereumTransaction tx => tx_timestamp tx
  | ActMarginPosition m => margin_close_time m
  | ActDefiEvent d => defi_timestamp d
  end.

(** Entries of [trade_history]: trades (AMM trades are accounted as trades)
    and margin positions. *)
Inductive TradeHistoryEntry :=
| HistTrade (t : Trade)
| HistMargin (m : MarginPosition).

Definition history_entry_action (e : TradeHistoryEntry) : TaxableAction :=
  match e with
  | HistTrade t => ActTrade t
  | HistMargin m => ActMarginPosition m
  end.

(** ** Exceptions *)

Inductive exn :=
| PriceQueryUnsupportedAsset (msg : string)
| NoPriceForGivenTimestamp (msg : string)
| RemoteError (msg : string)
| UnknownAsset (asset_name : string)
| UnsupportedAsset (asset_name : string)
| DeserializationError (msg : string)
| AssertionError (msg : string)
| OtherException (msg : string).

Definition exn_str (e : exn) : string :=
  match e with
  | PriceQueryUnsupportedAsset m | NoPriceForGivenTimestamp m | RemoteError m
  | UnknownAsset m | UnsupportedAsset m | DeserializationError m
  | AssertionError m | OtherException m => m
  end.

Inductive outcome (A : Type) :=
| Ret (a : A)
| Raise (e : exn).
Arguments Ret {A} a.
Arguments Raise {A} e.

(** ** State and exceptions

    A computation over a mutable object of type [S] returns or raises, and in
    both cases leaves the object as it was at that moment. *)
Definition M (S A : Type) : Type := S -> outcome A * S.

Definition ret {S A} (a : A) : M S A := fun s => (Ret a, s).
Definition raise {S A} (e : exn) : M S A := fun s => (Raise e, s).
Definition bind {S A B} (c : M S A) (k : A -> M S B) : M S B :=
  fun s => match c s with
           | (Ret a, s1) => k a s1
           | (Raise e, s1) => (Raise e, s1)
           end.
Definition get {S} : M S S := fun s => (Ret s, s).
Definition modify {S} (f : S -> S) : M S unit := fun s => (Ret tt, f s).
(** A pure call that may raise. *)
Definition call {S A} (r : outcome A) : M S A := fun s => (r, s).

Declare Scope monad_scope.
Delimit Scope monad_scope with monad.
Notation "x <- c ;; k" := (bind c (fun x => k))
  (at level 61, c at next level, right associativity) : monad_scope.
Notation "c ;; k" := (bind c (fun _ => k))
  (at level 61, right associativity) : monad_scope.
Open Scope monad_scope.

(** ** Messages shown to the user *)

Inductive message :=
| Warning (text : string)
| Error (text : string).

Definition message_text (m : message) : string :=
  match m with Warning t | Error t => t end.

(** ** Settings and the database handle *)

Record DBSettings := mkDBSettings {
  s_include_crypto2crypto : option bool;
  s_taxfree_after_period : option Z;
  s_main_currency : Asset;
  s_account_for_assets_movements : option bool;
  s_include_gas_costs : bool
}.

Record DBHandler := mkDBHandler {
  db_settings : DBSettings;
  db_ignored_assets : list Asset
}.

Definition get_settings (db : DBHandler) : DBSettings := db_settings db.
Definition get_ignored_assets (db : DBHandler) : list Asset := db_ignored_assets db.

(** [asset in ignored_assets]; [None in ignored_assets] is false. *)
Definition asset_in (a : Asset) (l : list Asset) : bool := existsb (asset_eqb a) l.

Definition resolved_in (r : ResolvedAsset) (l : list Asset) : bool :=
  match r with
  | KnownAsset a => asset_in a l
  | UnknownEthereumToken _ => false
  end.

Definition opt_resolved_in (r : option ResolvedAsset) (l : list Asset) : bool :=
  match r with
  | Some x => resolved_in x l
  | None => false
  end.

Definition is_unknown_token (r : ResolvedAsset) : bool :=
  match r with
  | UnknownEthereumToken _ => true
  | KnownAsset _ => false
  end.

Definition opt_is_unknown_token (r : option ResolvedAsset) : bool :=
  match r with
  | Some x => is_unknown_token x
  | None => false
  end.

(** ** Calls into the ledger (keyword arguments as record fields) *)

Record LoanGain := mkLoanGain {
  lg_location : Location;
  lg_gained_asset : Asset;
  lg_lent_amount : FVal;
  lg_gained_amount : FVal;
  lg_fee_in_asset : FVal;
  lg_open_time : Timestamp;
  lg_close_time : Timestamp
}.

Record BuyEvent := mkBuyEvent {
  be_location : Location;
  be_bought_asset : Asset;
  be_bought_amount : FVal;
  be_paid_with_asset : Asset;
  be_trade_rate : FVal;
  be_fee_in_profit_currency : FVal;
  be_fee_currency : Asset;
  be_timestamp : Timestamp
}.

Record SellEvent := mkSellEvent {
  se_location : Location;
  se_selling_asset : Asset;
  se_selling_amount : FVal;
  se_receiving_asset : option Asset;
  se_receiving_amount : option FVal;
  se_gain_in_profit_currency : FVal;
  se_total_fee_in_profit_currency : FVal;
  se_trade_rate : FVal;
  se_rate_in_profit_currency : FVal;
  se_timestamp : Timestamp;
  (* [None]: the keyword is not passed and the callee's default applies *)
  se_loan_settlement : option bool;
  se_is_virtual : option bool
}.

Record MovementRow := mkMovementRow {
  mr_exchange : Location;
  mr_category : string;
  mr_asset : Asset;
  mr_fee : FVal;
  mr_rate : FVal;
  mr_timestamp : Timestamp
}.

Record GasCostRow := mkGasCostRow {
  gr_transaction_hash : string;
  gr_eth_burned_as_gas : FVal;
  gr_rate : FVal;
  gr_timestamp : Timestamp
}.

(** [TaxableEvents] and the [CSVExporter] object it shares with the
    accountant, as one store of type [B]: what the ledger writes to the
    exporter and what the accountant writes to it land in the same object. *)
Record TaxableEventsOps (B : Type) := mkTaxableEventsOps {
  reset : Timestamp -> Timestamp -> B -> B;
  set_include_crypto2crypto : bool -> B -> B;
  set_taxfree_after_period : option Z -> B -> B;
  set_profit_currency : Asset -> B -> B;
  set_account_for_assets_movements : bool -> B -> B;
  account_for_assets_movements : B -> bool;
  (* reads the ledger's profit currency and asks the price oracle, whose
     answers are taken to be fixed for the run *)
  get_rate_in_profit_currency : B -> Asset -> Timestamp -> outcome FVal;
  add_loan_gain : LoanGain -> M B unit;
  add_margin_position : MarginPosition -> M B unit;
  add_defi_event : DefiEvent -> M B unit;
  add_buy_and_corresponding_sell : BuyEvent -> M B unit;
  add_sell_and_corresponding_buy : SellEvent -> M B unit;
  add_sell : SellEvent -> M B unit;
  calculate_asset_details : M B unit;
  general_trade_profit_loss : B -> FVal;
  taxable_trade_profit_loss : B -> FVal;
  margin_positions_profit_loss : B -> FVal;
  defi_profit_loss : B -> FVal;
  loan_profit : B -> FVal;
  settlement_losses : B -> FVal;
  csv_set_profit_currency : Asset -> B -> B;
  csv_reset_csv_lists : B -> B;
  csv_add_asset_movement : MovementRow -> B -> B;
  csv_add_tx_gas_cost : GasCostRow -> B -> B;
  csv_all_events : B -> list (list (string * string))
}.

(** What is reached through module-level singletons and helpers. *)
Record Externals := mkExternals {
  (* PriceHistorian().query_historical_price(from_asset, to_asset, timestamp) *)
  query_historical_price : Asset -> Asset -> Timestamp -> outcome FVal;
  (* utils.accounting.action_get_assets *)
  action_get_assets : TaxableAction -> outcome (ResolvedAsset * option ResolvedAsset);
  (* timestamp_to_date(ts, formatstr="%d/%m/%Y, %H:%M:%S") *)
  timestamp_to_date : Timestamp -> string;
  (* str() of an FVal *)
  fval_str : FVal -> string;
  (* what the other greenlets do to the database while the run sleeps *)
  gevent_sleep : DBHandler -> DBHandler;
  (* Inquirer().save_historical_forex_data() *)
  save_historical_forex_data : outcome unit
}.

(** ** The accountant *)

Record Accountant (B : Type) := mkAccountant {
  db : DBHandler;
  events : B;
  msg_aggregator : list message;
  profit_currency : Asset;
  asset_movement_fees : FVal;
  eth_transactions_gas_costs : FVal;
  last_gas_price : Z;
  start_ts : Timestamp;
  started_processing_timestamp : Timestamp;
  currently_processing_timestamp : Timestamp
}.
Arguments mkAccountant {B}.
Arguments db {B}.
Arguments events {B}.
Arguments msg_aggregator {B}.
Arguments profit_currency {B}.
Arguments asset_movement_fees {B}.
Arguments eth_transactions_gas_costs {B}.
Arguments last_gas_price {B}.
Arguments start_ts {B}.
Arguments started_processing_timestamp {B}.
Arguments currently_processing_timestamp {B}.

Record Overview := mkOverview {
  o_defi_profit_loss : string;
  o_loan_profit : string;
  o_margin_positions_profit_loss : string;
  o_settlement_losses : string;
  o_ethereum_transaction_gas_costs : string;
  o_asset_movement_fees : string;
  o_general_trade_profit_loss : string;
  o_taxable_trade_profit_loss : string;
  o_total_taxable_profit_loss : string;
  o_total_profit_loss : string
}.

Record Report := mkReport {
  overview : Overview;
  all_events : list (list (string * string))
}.

(** Attribute writes on [self]. *)
Section Setters.
Context {B : Type}.

Definition set_db (d : DBHandler) (s : Accountant B) : Accountant B :=
  mkAccountant d (events s) (msg_aggregator s) (profit_currency s)
    (asset_movement_fees s) (eth_transactions_gas_costs s) (last_gas_price s)
    (start_ts s) (started_processing_timestamp s) (currently_processing_timestamp s).

Definition set_events (b : B) (s : Accountant B) : Accountant B :=
  mkAccountant (db s) b (msg_aggregator s) (profit_currency s)
    (asset_movement_fees s) (eth_transactions_gas_costs s) (last_gas_price s)
    (start_ts s) (started_processing_timestamp s) (currently_processing_timestamp s).

Definition set_msg_aggregator (m : list message) (s : Accountant B) : Accountant B :=
  mkAccountant (db s) (events s) m (profit_currency s)
    (asset_movement_fees s) (eth_transactions_gas_costs s) (last_gas_price s)
    (start_ts s) (started_processing_timestamp s) (currently_processing_timestamp s).

Definition set_acc_profit_currency (a : Asset) (s : Accountant B) : Accountant B :=
  mkAccountant (db s) (events s) (msg_aggregator s) a
    (asset_movement_fees s) (eth_transactions_gas_costs s) (last_gas_price s)
    (start_ts s) (started_processing_timestamp s) (currently_processing_timestamp s).

Definition set_asset_movement_fees (v : FVal) (s : Accountant B) : Accountant B :=
  mkAccountant (db s) (events s) (msg_aggregator s) (profit_currency s)
    v (eth_transactions_gas_costs s) (last_gas_price s)
    (start_ts s) (started_processing_timestamp s) (currently_processing_timestamp s).

Definition set_eth_transactions_gas_costs (v : FVal) (s : Accountant B) : Accountant B :=
  mkAccountant (db s) (events s) (msg_aggregator s) (profit_currency s)
    (asset_movement_fees s) v (last_gas_price s)
    (start_ts s) (started_processing_timestamp s) (currently_processing_timestamp s).

Definition set_last_gas_price (g : Z) (s : Accountant B) : Accountant B :=
  mkAccountant (db s) (events s) (msg_aggregator s) (profit_currency s)
    (asset_movement_fees s) (eth_transactions_gas_costs s) g
    (start_ts s) (started_processing_timestamp s) (currently_processing_timestamp s).

Definition set_start_ts (t : Timestamp) (s : Accountant B) : Accountant B :=
  mkAccountant (db s) (events s) (msg_aggregator s) (profit_currency s)
    (asset_movement_fees s) (eth_transactions_gas_costs s) (last_gas_price s)
    t (started_processing_timestamp s) (currently_processing_timestamp s).

Definition set_started_processing_timestamp (t : Timestamp) (s : Accountant B)
  : Accountant B :=
  mkAccountant (db s) (events s) (msg_aggregator s) (profit_currency s)
    (asset_movement_fees s) (eth_transactions_gas_costs s) (last_gas_price s)
    (start_ts s) t (currently_processing_timestamp s).

Definition set_currently_processing_timestamp (t : Timestamp) (s : Accountant B)
  : Accountant B :=
  mkAccountant (db s) (events s) (msg_aggregator s) (profit_currency s)
    (asset_movement_fees s) (eth_transactions_gas_costs s) (last_gas_price s)
    (start_ts s) (started_processing_timestamp s) t.

(** msg_aggregator.add_warning / add_error *)
Definition add_warning (text : string) : M (Accountant B) unit :=
  modify (fun s => set_msg_aggregator (msg_aggregator s ++ [Warning text]) s).

Definition add_error (text : string) : M (Accountant B) unit :=
  modify (fun s => set_msg_aggregator (msg_aggregator s ++ [Error text]) s).

(** A method of [self.events] run on the accountant's ledger. *)
Definition on_events {A} (c : M B A) : M (Accountant B) A :=
  fun s => let (r, b) := c (events s) in (r, set_events b s).

Definition update_events (f : B -> B) : M (Accountant B) unit :=
  modify (fun s => set_events (f (events s)) s).
End Setters.

(** ** The engine *)
Section Engine.
Context {arith : FValOps} {B : Type}.
Variable E : TaxableEventsOps B.
Variable X : Externals.

Definition _customize (settings : DBSettings) : M (Accountant B) unit :=
  match s_include_crypto2crypto settings with
  | Some v => update_events (set_include_crypto2crypto B E v)
  | None => ret tt
  end ;;
  match s_taxfree_after_period settings with
  | Some given =>
      let given_taxfree_after_period :=
        if given =? -1 then None else Some given in
      update_events (set_taxfree_after_period B E given_taxfree_after_period)
  | None => ret tt
  end ;;
  modify (set_acc_profit_currency (s_main_currency settings)) ;;
  update_events (set_profit_currency B E (s_main_currency settings)) ;;
  update_events (csv_set_profit_currency B E (s_main_currency settings)) ;;
  match s_account_for_assets_movements settings with
  | Some v => update_events (set_account_for_assets_movements B E v)
  | None => ret tt
  end.

Definition get_fee_in_profit_currency (trade : Trade) : M (Accountant B) FVal :=
  self <- get ;;
  fee_rate <- call (query_historical_price X (trade_fee_currency trade)
                      (profit_currency self) (trade_timestamp trade)) ;;
  ret (fee_rate * trade_fee trade)%F.

Definition add_asset_movement_to_events (movement : AssetMovement) : M (Accountant B) unit :=
  self <- get ;;
  let timestamp := movement_timestamp movement in
  if timestamp <? start_ts self then ret tt
  else if String.eqb (identifier (movement_asset movement)) "KFEE"
          || negb (account_for_assets_movements B E (events self))
  then ret tt
  else
    fee_rate <- call (get_rate_in_profit_currency B E (events self)
                        (movement_fee_asset movement) timestamp) ;;
    let cost := (movement_fee movement * fee_rate)%F in
    modify (fun s => set_asset_movement_fees (asset_movement_fees s + cost)%F s) ;;
    update_events (csv_add_asset_movement B E
      (mkMovementRow (movement_location movement) (movement_category movement)
         (movement_asset movement) (movement_fee movement) fee_rate timestamp)).

Definition account_for_gas_costs (transaction : EthereumTransaction)
    (include_gas_costs : bool) : M (Accountant B) unit :=
  if negb include_gas_costs then ret tt
  else
    self <- get ;;
    if tx_timestamp transaction <? start_ts self then ret tt
    else
      gas_price <-
        (if tx_gas_price transaction =? -1
         then ret (last_gas_price self)
         else
           modify (set_last_gas_price (tx_gas_price transaction)) ;;
           ret (tx_gas_price transaction)) ;;
      self <- get ;;
      rate <- call (get_rate_in_profit_currency B E (events self) A_ETH
                      (tx_timestamp transaction)) ;;
      let eth_burned_as_gas :=
        (FVal_of_Z (tx_gas_used transaction * gas_price) / FVal_of_Z (10 ^ 18))%F in
      let cost := (eth_burned_as_gas * rate)%F in
      modify (fun s =>
        set_eth_transactions_gas_costs (eth_transactions_gas_costs s + cost)%F s) ;;
      update_events (csv_add_tx_gas_cost B E
        (mkGasCostRow (tx_hash transaction) eth_burned_as_gas rate
           (tx_timestamp transaction))).

Definition trade_add_to_sell_events (trade : Trade) (loan_settlement : bool)
  : M (Accountant B) unit :=
  self <- get ;;
  let selling_asset := trade_base_asset trade in
  let receiving_asset := trade_quote_asset trade in
  receiving_asset_rate <- call (get_rate_in_profit_currency B E (events self)
                                  receiving_asset (trade_timestamp trade)) ;;
  let selling_rate := (receiving_asset_rate * trade_rate trade)%F in
  fee_in_profit_currency <- get_fee_in_profit_currency trade ;;
  let gain_in_profit_currency := (selling_rate * trade_amount trade)%F in
  if negb loan_settlement then
    on_events (add_sell_and_corresponding_buy B E
      (mkSellEvent (trade_location trade) selling_asset (trade_amount trade)
         (Some receiving_asset) (Some (trade_amount trade * trade_rate trade)%F)
         gain_in_profit_currency fee_in_profit_currency (trade_rate trade)
         selling_rate (trade_timestamp trade) None None))
  else
    on_events (add_sell B E
      (mkSellEvent (trade_location trade) selling_asset (trade_amount trade)
         None None
         gain_in_profit_currency fee_in_profit_currency (trade_rate trade)
         selling_rate (trade_timestamp trade) (Some true) (Some false))).

(** [process_action] below its first statement, with the local
    [ignored_assets] as an argument.  The dispatch on
    [action_get_type(action)] and the [cast] that follows it are the match
    on the variant. *)
Definition process_action_body (ignored_assets : list Asset)
    (action : TaxableAction) (end_ts prev_time : Timestamp)
    (db_settings : DBSettings) : M (Accountant B) (bool * Timestamp) :=
  (* Assert we are sorted in ascending time order. *)
  let timestamp := action_get_timestamp action in
  if negb (timestamp >=? prev_time) then
    raise (AssertionError
      "During history processing the trades/loans are not in ascending order")
  else
  let prev_time := timestamp in
  if timestamp >? end_ts then ret (false, prev_time)
  else
  modify (set_currently_processing_timestamp timestamp) ;;
  match action_get_assets X action with
  | Raise (UnknownAsset asset_name) =>
      add_warning ("At history processing found trade with unknown asset "
                   ++ asset_name ++ ". Ignoring the trade.")%string ;;
      ret (true, prev_time)
  | Raise (UnsupportedAsset asset_name) =>
      add_warning ("At history processing found trade with unsupported asset "
                   ++ asset_name ++ ". Ignoring the trade.")%string ;;
      ret (true, prev_time)
  | Raise (DeserializationError _) =>
      add_error ("At history processing found trade with non string asset type. "
                 ++ "Ignoring the trade.")%string ;;
      ret (true, prev_time)
  | Raise e => raise e
  | Ret (asset1, asset2) =>
      if is_unknown_token asset1 || opt_is_unknown_token asset2 then
        ret (true, prev_time)
      else if resolved_in asset1 ignored_assets
              || opt_resolved_in asset2 ignored_assets then
        ret (true, prev_time)
      else
      match action with
      | ActLoan loan =>
          on_events (add_loan_gain B E
            (mkLoanGain (loan_location loan) (loan_currency loan)
               (loan_amount_lent loan) (loan_earned loan) (loan_fee loan)
               (loan_open_time loan) timestamp)) ;;
          ret (true, prev_time)
      | ActAssetMovement movement =>
          add_asset_movement_to_events movement ;;
          ret (true, prev_time)
      | ActMarginPosition margin =>
          on_events (add_margin_position B E margin) ;;
          ret (true, prev_time)
      | ActEthereumTransaction transaction =>
          account_for_gas_costs transaction (s_include_gas_costs db_settings) ;;
          ret (true, prev_time)
      | ActDefiEvent event =>
          on_events (add_defi_event B E event) ;;
          ret (true, prev_time)
      | ActTrade trade =>
          (* the closing [else] of the source raises on an unknown trade
             type; TradeType has these four members and no other *)
          match trade_type trade with
          | BUY =>
              fee <- get_fee_in_profit_currency trade ;;
              on_events (add_buy_and_corresponding_sell B E
                (mkBuyEvent (trade_location trade) (trade_base_asset trade)
                   (trade_amount trade) (trade_quote_asset trade)
                   (trade_rate trade) fee (trade_fee_currency trade)
                   (trade_timestamp trade)))
          | SELL => trade_add_to_sell_events trade false
          | SETTLEMENT_SELL => trade_add_to_sell_events trade true
          | SETTLEMENT_BUY =>
              self <- get ;;
              let selling_asset := A_BTC in
              selling_asset_rate <-
                call (get_rate_in_profit_currency B E (events self)
                        selling_asset (trade_timestamp trade)) ;;
              let selling_rate := (selling_asset_rate * trade_rate trade)%F in
              fee_in_profit_currency <- get_fee_in_profit_currency trade ;;
              let gain_in_profit_currency :=
                (selling_rate * trade_amount trade)%F in
              let selling_amount := (trade_rate trade * trade_amount trade)%F in
              on_events (add_sell B E
                (mkSellEvent (trade_location trade) selling_asset selling_amount
                   None None
                   gain_in_profit_currency fee_in_profit_currency
                   (trade_rate trade) selling_asset_rate
                   (trade_timestamp trade) (Some true) None))
          end ;;
          ret (true, prev_time)
      end
  end.

Definition process_action (action : TaxableAction) (end_ts prev_time : Timestamp)
    (db_settings : DBSettings) : M (Accountant B) (bool * Timestamp) :=
  self <- get ;;
  let ignored_assets := get_ignored_assets (db self) in
  process_action_body ignored_assets action end_ts prev_time db_settings.

(** The text of the message for a price error caught in the loop. *)
Definition skip_message (action : TaxableAction) (e : exn) : option string :=
  let ts := action_get_timestamp action in
  let at_date :=
    ("Skipping action at " ++ " " ++ timestamp_to_date X ts ++ " ")%string in
  match e with
  | PriceQueryUnsupportedAsset _ =>
      Some (at_date
            ++ "during history processing due to an asset unknown to "
            ++ "cryptocompare being involved. Check logs for details")%string
  | NoPriceForGivenTimestamp _ =>
      Some (at_date
            ++ "during history processing due to inability to find a price "
            ++ "at that point in time: " ++ exn_str e
            ++ ". Check the logs for more details")%string
  | RemoteError _ =>
      Some (at_date
            ++ "during history processing due to inability to reach an external "
            ++ "service at that point in time: " ++ exn_str e
            ++ ". Check the logs for more details")%string
  | _ => None
  end.

(** [if count % 500 == 0: gevent.sleep(0.5)]: the run yields to the other
    greenlets, which may write to the database meanwhile. *)
Definition cooperative_yield (count : Z) : M (Accountant B) unit :=
  if count mod 500 =? 0
  then modify (fun s => set_db (gevent_sleep X (db s)) s)
  else ret tt.

(** The [for action in actions] loop of [process_history], with its three
    [except] clauses, the [break] and the cooperative yield. *)
Fixpoint process_actions (actions : list TaxableAction) (end_ts prev_time : Timestamp)
    (count : Z) (db_settings : DBSettings) : M (Accountant B) unit :=
  match actions with
  | [] => ret tt
  | action :: rest =>
      fun self =>
      match process_action action end_ts prev_time db_settings self with
      | (Raise e, self1) =>
          match skip_message action e with
          | Some text =>
              (add_error text ;;
               process_actions rest end_ts prev_time count db_settings) self1
          | None => (Raise e, self1)
          end
      | (Ret (should_continue, prev_time1), self1) =>
          if negb should_continue then (Ret tt, self1)
          else
            (cooperative_yield count ;;
             process_actions rest end_ts prev_time1 (count + 1) db_settings) self1
      end
  end.

(** [actions.sort(key=action_get_timestamp)]: Python's sort is stable, and
    a stable sort by key has one result; insertion from the right, placing
    an action before the first one that is not earlier, computes it. *)
Fixpoint insert_by_timestamp (a : TaxableAction) (l : list TaxableAction)
  : list TaxableAction :=
  match l with
  | [] => [a]
  | b :: l' =>
      if action_get_timestamp a <=? action_get_timestamp b
      then a :: b :: l'
      else b :: insert_by_timestamp a l'
  end.

Definition sort_actions (l : list TaxableAction) : list TaxableAction :=
  fold_right insert_by_timestamp [] l.

Definition extend {A} (actions : list TaxableAction) (inj : A -> TaxableAction)
    (more : list A) : list TaxableAction :=
  if (List.length more =? 0)%nat then actions else actions ++ map inj more.

(** The merged and sorted stream the loop runs over. *)
Definition merge_actions (trade_history : list TradeHistoryEntry)
    (loan_history : list Loan) (asset_movements : list AssetMovement)
    (eth_transactions : list EthereumTransaction) (defi_events : list DefiEvent)
  : list TaxableAction :=
  let actions := map history_entry_action trade_history in
  let actions := extend actions ActLoan loan_history in
  let actions := extend actions ActAssetMovement asset_movements in
  let actions := extend actions ActEthereumTransaction eth_transactions in
  let actions := extend actions ActDefiEvent defi_events in
  sort_actions actions.

(** The resets at the top of [process_history], up to the settings. *)
Definition start_run (start_ts end_ts : Timestamp) : M (Accountant B) DBSettings :=
  update_events (reset B E start_ts end_ts) ;;
  modify (set_last_gas_price 2000000000) ;;
  modify (set_start_ts start_ts) ;;
  modify (set_eth_transactions_gas_costs (FVal_of_Z 0)) ;;
  modify (set_asset_movement_fees (FVal_of_Z 0)) ;;
  update_events (csv_reset_csv_lists B E) ;;
  (* Ask the DB for the settings once at the start of processing so we got
     the same settings through the entire task *)
  self <- get ;;
  let db_settings := get_settings (db self) in
  _customize db_settings ;;
  ret db_settings.

Definition sum_other_actions (self : Accountant B) : FVal :=
  (margin_positions_profit_loss B E (events self)
   + defi_profit_loss B E (events self)
   + loan_profit B E (events self)
   - settlement_losses B E (events self)
   - asset_movement_fees self
   - eth_transactions_gas_costs self)%F.

Definition total_taxable_pl (self : Accountant B) : FVal :=
  (taxable_trade_profit_loss B E (events self) + sum_other_actions self)%F.

(** The dictionary [process_history] returns. *)
Definition build_report (self : Accountant B) : Report :=
  let str := fval_str X in
  mkReport
    (mkOverview
       (str (defi_profit_loss B E (events self)))
       (str (loan_profit B E (events self)))
       (str (margin_positions_profit_loss B E (events self)))
       (str (settlement_losses B E (events self)))
       (str (eth_transactions_gas_costs self))
       (str (asset_movement_fees self))
       (str (general_trade_profit_loss B E (events self)))
       (str (taxable_trade_profit_loss B E (events self)))
       (str (total_taxable_pl self))
       (str (general_trade_profit_loss B E (events self)
             + sum_other_actions self)%F))
    (csv_all_events B E (events self)).

(** What follows the loop. *)
Definition finish_run : M (Accountant B) Report :=
  on_events (calculate_asset_details B E) ;;
  call (save_historical_forex_data X) ;;
  self <- get ;;
  ret (build_report self).

Definition process_history (start_ts end_ts : Timestamp)
    (trade_history : list TradeHistoryEntry) (loan_history : list Loan)
    (asset_movements : list AssetMovement)
    (eth_transactions : list EthereumTransaction) (defi_events : list DefiEvent)
  : M (Accountant B) Report :=
  db_settings <- start_run start_ts end_ts ;;
  let actions := merge_actions trade_history loan_history asset_movements
                   eth_transactions defi_events in
  (* The first ts is the ts of the first action we have in history or 0 for
     empty history *)
  let first_ts :=
    match actions with
    | [] => 0
    | a :: _ => action_get_timestamp a
    end in
  modify (set_currently_processing_timestamp first_ts) ;;
  modify (set_started_processing_timestamp first_ts) ;;
  let prev_time := 0 in
  let count := 0 in
  process_actions actions end_ts prev_time count db_settings ;;
  finish_run.
End Engine.


(** ** The run as the specification words it: the ignored assets read once

    The specification lists the ignored-assets registry as "consumed, read
    once per run".  These two definitions follow those words: the set is
    taken from the database next to the settings and every action is checked
    against that one set.  They are compared with [process_history] below. *)
Section ReadOnce.
Context {arith : FValOps} {B : Type}.
Variable E : TaxableEventsOps B.
Variable X : Externals.

Fixpoint process_actions_read_once (ignored_assets : list Asset)
    (actions : list TaxableAction) (end_ts prev_time : Timestamp)
    (count : Z) (db_settings : DBSettings) : M (Accountant B) unit :=
  match actions with
  | [] => ret tt
  | action :: rest =>
      fun self =>
      match process_action_body E X ignored_assets action end_ts prev_time
              db_settings self with
      | (Raise e, self1) =>
          match skip_message X action e with
          | Some text =>
              (add_error text ;;
               process_actions_read_once ignored_assets rest end_ts prev_time
                 count db_settings) self1
          | None => (Raise e, self1)
          end
      | (Ret (should_continue, prev_time1), self1) =>
          if negb should_continue then (Ret tt, self1)
          else
            (cooperative_yield X count ;;
             process_actions_read_once ignored_assets rest end_ts prev_time1
               (count + 1) db_settings) self1
      end
  end.

Definition process_history_read_once (start_ts end_ts : Timestamp)
    (trade_history : list TradeHistoryEntry) (loan_history : list Loan)
    (asset_movements : list AssetMovement)
    (eth_transactions : list EthereumTransaction) (defi_events : list DefiEvent)
  : M (Accountant B) Report :=
  db_settings <- start_run E start_ts end_ts ;;
  self <- get ;;
  let ignored_assets := get_ignored_assets (db self) in
  let actions := merge_actions trade_history loan_history asset_movements
                   eth_transactions defi_events in
  let first_ts :=
    match actions with
    | [] => 0
    | a :: _ => action_get_timestamp a
    end in
  modify (set_currently_processing_timestamp first_ts) ;;
  modify (set_started_processing_timestamp first_ts) ;;
  process_actions_read_once ignored_assets actions end_ts 0 0 db_settings ;;
  finish_run E X.
End ReadOnce.


(** ** Notions the properties are stated with *)

(** Whatever [c] returns satisfies [P]. *)
Definition returns_only {St A : Type} (P : A -> Prop) (c : M St A) : Prop :=
  forall s a s', c s = (Ret a, s') -> P a.

Section Notions.
Context {arith : FValOps} {B : Type}.
Variable E : TaxableEventsOps B.
Variable X : Externals.

(** The three price errors the loop recovers from. *)
Definition recoverable (e : exn) : Prop :=
  (exists m, e = PriceQueryUnsupportedAsset m) \/
  (exists m, e = NoPriceForGivenTimestamp m) \/
  (exists m, e = RemoteError m).

(** The three ways asset resolution fails. *)
Definition resolution_error (e : exn) : Prop :=
  (exists n, e = UnknownAsset n) \/
  (exists n, e = UnsupportedAsset n) \/
  (exists m, e = DeserializationError m).

(** The accountant as the loop finds it. *)
Definition loop_entry (start_ts end_ts : Timestamp) (actions : list TaxableAction)
    (self : Accountant B) : Accountant B :=
  let first_ts := match actions with
                  | [] => 0
                  | a :: _ => action_get_timestamp a
                  end in
  set_started_processing_timestamp first_ts
    (set_currently_processing_timestamp first_ts
       (snd (start_run E start_ts end_ts self))).

(** What an action must get through before it is dispatched: the ordering
    assertion, the end of the window, asset resolution, the check for
    unknown tokens and the ignore list. *)
Definition dispatched (action : TaxableAction) (end_ts prev_time : Timestamp)
    (self : Accountant B) : Prop :=
  prev_time <= action_get_timestamp action /\
  action_get_timestamp action <= end_ts /\
  exists asset1 asset2,
    action_get_assets X action = Ret (asset1, asset2) /\
    is_unknown_token asset1 || opt_is_unknown_token asset2 = false /\
    resolved_in asset1 (get_ignored_assets (db self))
    || opt_resolved_in asset2 (get_ignored_assets (db self)) = false.

(** The cost of the gas burnt by a transaction, in the profit currency. *)
Definition gas_cost (gas_used gas_price : Z) (rate : FVal) : FVal :=
  (FVal_of_Z (gas_used * gas_price) / FVal_of_Z (10 ^ 18) * rate)%F.

(** The gas price the specification has a transaction without one use: the
    one of the most recent earlier transaction of the stream that carried a
    real gas price, or the default. *)
Definition most_recent_real_gas_price (default : Z) (earlier : list TaxableAction) : Z :=
  fold_left
    (fun g a =>
       match a with
       | ActEthereumTransaction tx =>
           if tx_gas_price tx =? -1 then g else tx_gas_price tx
       | _ => g
       end)
    earlier default.

(** What a run that starts at [start] carries after the action [a] when it
    carried [g] before: the gas price of [a] if [a] is a transaction with a
    real one and not earlier than [start]. *)
Definition in_window_gas_price (start : Timestamp) (g : Z) (a : TaxableAction) : Z :=
  match a with
  | ActEthereumTransaction tx =>
      if (start <=? tx_timestamp tx) && negb (tx_gas_price tx =? -1)
      then tx_gas_price tx
      else g
  | _ => g
  end.

(** The carried gas price after the actions [earlier], worked out from the
    stream alone: the latest real gas price not earlier than [start]. *)
Definition carried_gas_price (start : Timestamp) (default : Z)
    (earlier : list TaxableAction) : Z :=
  fold_left (in_window_gas_price start) earlier default.

(** The order of the sorted stream. *)
Definition timestamp_le (a b : TaxableAction) : Prop :=
  action_get_timestamp a <= action_get_timestamp b.
End Notions.


(** ** The arithmetic of the default decimal context

    [getcontext()] as the interpreter starts it: [prec=28],
    [rounding=ROUND_HALF_EVEN].  The operations follow [Decimal.__add__],
    [__sub__], [__mul__], [__truediv__] and [__str__] on finite numbers with
    exponents far from [Emin] and [Emax]: the exact result, rounded to 28
    significant digits by [_fix]. *)
Module Decimal28.

Definition prec : Z := 28.

(** [len(self._int)] *)
Definition digits (n : N) : Z := Z.of_nat (Decimal.nb_digits (N.to_uint n)).

Definition pow10 (k : Z) : N := Z.to_N (10 ^ k).

(** [Decimal._fix]: the coefficient cut to [prec] digits, the digits dropped
    deciding the last one kept (a half goes to the even neighbour); a carry
    into one more digit drops a zero. *)
Definition _fix (s : bool) (coeff : N) (exp : Z) : FVal :=
  let d := digits coeff in
  if d <=? prec then mkFVal s coeff exp
  else
    let k := d - prec in
    let q := (coeff / pow10 k)%N in
    let r := (coeff mod pow10 k)%N in
    let half := (5 * pow10 (k - 1))%N in
    let q' := if (half <? r)%N || ((r =? half)%N && N.odd q) then (q + 1)%N else q in
    if digits q' <=? prec then mkFVal s q' (exp + k)
    else mkFVal s (q' / 10)%N (exp + k + 1).

(** The coefficient with its sign. *)
Definition signed (v : FVal) : Z :=
  if num_sign v then - Z.of_N (num_coefficient v) else Z.of_N (num_coefficient v).

(** [__add__]: both operands at the lower exponent; a zero sum is negative
    only if both operands are negative zeros. *)
Definition add (a b : FVal) : FVal :=
  let exp := Z.min (num_exponent a) (num_exponent b) in
  let c := signed a * 10 ^ (num_exponent a - exp)
           + signed b * 10 ^ (num_exponent b - exp) in
  let s :=
    if c =? 0
    then (num_coefficient a =? 0)%N && (num_coefficient b =? 0)%N
         && num_sign a && num_sign b
    else c <? 0 in
  _fix s (Z.abs_N c) exp.

Definition copy_negate (a : FVal) : FVal :=
  mkFVal (negb (num_sign a)) (num_coefficient a) (num_exponent a).

Definition sub (a b : FVal) : FVal := add a (copy_negate b).

Definition mul (a b : FVal) : FVal :=
  _fix (xorb (num_sign a) (num_sign b))
    (num_coefficient a * num_coefficient b)%N
    (num_exponent a + num_exponent b).

(** An exact quotient is brought as close to the ideal exponent as its
    trailing zeros allow. *)
Fixpoint strip (fuel : nat) (coeff : N) (exp ideal_exp : Z) : N * Z :=
  match fuel with
  | O => (coeff, exp)
  | S fuel' =>
      if (exp <? ideal_exp) && (coeff mod 10 =? 0)%N
      then strip fuel' (coeff / 10)%N (exp + 1) ideal_exp
      else (coeff, exp)
  end.

(** [__truediv__].  Python raises [DivisionByZero] on a zero divisor; the
    engine divides by [FVal(10 ** 18)] alone, and a zero is returned here. *)
Definition truediv (a b : FVal) : FVal :=
  let s := xorb (num_sign a) (num_sign b) in
  if (num_coefficient b =? 0)%N then mkFVal s 0 0
  else if (num_coefficient a =? 0)%N
  then _fix s 0 (num_exponent a - num_exponent b)
  else
    let shift := digits (num_coefficient b) - digits (num_coefficient a) + prec + 1 in
    let exp := num_exponent a - num_exponent b - shift in
    let n := if 0 <=? shift then (num_coefficient a * pow10 shift)%N
             else num_coefficient a in
    let d := if 0 <=? shift then num_coefficient b
             else (num_coefficient b * pow10 (- shift))%N in
    let coeff := (n / d)%N in
    let remainder := (n mod d)%N in
    if negb (remainder =? 0)%N then
      _fix s (if (coeff mod 5 =? 0)%N then coeff + 1 else coeff)%N exp
    else
      let ideal_exp := num_exponent a - num_exponent b in
      let '(coeff, exp) := strip (Z.to_nat (ideal_exp - exp)) coeff exp ideal_exp in
      _fix s coeff exp.

#[global] Instance arithmetic : FValOps :=
  {| fval_add := add; fval_sub := sub; fval_mul := mul; fval_truediv := truediv |}.

Definition digits_str (n : N) : string := NilEmpty.string_of_uint (N.to_uint n).

Fixpoint zeros (n : nat) : string :=
  match n with O => "" | S n' => ("0" ++ zeros n')%string end.

Definition signed_str (z : Z) : string :=
  ((if (z <? 0)%Z then "-" else "+") ++ digits_str (Z.abs_N z))%string.

(** [Decimal.__str__]: plain digits when the exponent is not positive and
    the number not too small, scientific notation otherwise. *)
Definition str (v : FVal) : string :=
  let s := if num_sign v then "-" else "" in
  let int := digits_str (num_coefficient v) in
  let len := Z.of_nat (String.length int) in
  let leftdigits := num_exponent v + len in
  let dotplace :=
    if (num_exponent v <=? 0) && (-6 <? leftdigits) then leftdigits else 1 in
  let intpart :=
    if dotplace <=? 0 then "0"
    else if len <=? dotplace then (int ++ zeros (Z.to_nat (dotplace - len)))%string
    else substring 0 (Z.to_nat dotplace) int in
  let fracpart :=
    if dotplace <=? 0 then ("." ++ zeros (Z.to_nat (- dotplace)) ++ int)%string
    else if len <=? dotplace then ""
    else ("." ++ substring (Z.to_nat dotplace) (Z.to_nat (len - dotplace)) int)%string in
  let exp :=
    if leftdigits =? dotplace then ""
    else ("E" ++ signed_str (leftdigits - dotplace))%string in
  (s ++ intpart ++ fracpart ++ exp)%string.

(** The value of a number as a rational. *)
Definition value (v : FVal) : Q :=
  if 0 <=? num_exponent v
  then inject_Z (signed v * 10 ^ num_exponent v)
  else Qmake (signed v) (Z.to_pos (10 ^ (- num_exponent v))).

End Decimal28.

(** ** A small ledger and environment to run the engine on

    A test double: prices are a fixed table, the ledger adds up what it is
    handed, amounts are added, multiplied and printed the way the default
    decimal context does.  It serves to evaluate the engine on concrete
    histories. *)
Module Demo.

Record Books := mkBooks {
  b_account_for_assets_movements : bool;
  b_general : FVal;
  b_taxable : FVal;
  b_margin : FVal;
  b_defi : FVal;
  b_loan : FVal;
  b_settlement : FVal;
  b_buys : list BuyEvent;
  b_sells : list SellEvent;
  b_gas_rows : list GasCostRow;
  b_movement_rows : list MovementRow
}.

Definition empty_books : Books :=
  mkBooks true (FVal_of_Z 0) (FVal_of_Z 0) (FVal_of_Z 0) (FVal_of_Z 0) (FVal_of_Z 0)
    (FVal_of_Z 0) [] [] [] [].

(** The price table: EUR is the profit currency. *)
Definition price (a : Asset) (ts : Timestamp) : outcome FVal :=
  let i := identifier a in
  if String.eqb i "EUR" then Ret (FVal_of_Z 1)
  else if String.eqb i "BTC" then Ret (FVal_of_Z 5000)
  else if String.eqb i "ETH" then
    (if ts =? 77 then Raise (RemoteError "timeout") else Ret (FVal_of_Z 200))
  else if String.eqb i "XMR" then Ret (FVal_of_Z 50)
  else if String.eqb i "NOPRICE" then Raise (NoPriceForGivenTimestamp "no price")
  else if String.eqb i "BROKEN" then Raise (OtherException "broken oracle")
  else Raise (PriceQueryUnsupportedAsset i).

Definition ops : TaxableEventsOps Books :=
  mkTaxableEventsOps Books
    (fun _ _ b => mkBooks (b_account_for_assets_movements b)
                    (FVal_of_Z 0) (FVal_of_Z 0) (FVal_of_Z 0) (FVal_of_Z 0)
                    (FVal_of_Z 0) (FVal_of_Z 0) [] [] (b_gas_rows b)
                    (b_movement_rows b))
    (fun _ b => b)
    (fun _ b => b)
    (fun _ b => b)
    (fun v b => mkBooks v (b_general b) (b_taxable b) (b_margin b) (b_defi b)
                  (b_loan b) (b_settlement b) (b_buys b) (b_sells b)
                  (b_gas_rows b) (b_movement_rows b))
    b_account_for_assets_movements
    (fun _ a ts => price a ts)
    (fun g b => (Ret tt,
       mkBooks (b_account_for_assets_movements b) (b_general b) (b_taxable b)
         (b_margin b) (b_defi b) (b_loan b + lg_gained_amount g)%F
         (b_settlement b) (b_buys b) (b_sells b) (b_gas_rows b)
         (b_movement_rows b)))
    (fun m b => (Ret tt,
       mkBooks (b_account_for_assets_movements b) (b_general b) (b_taxable b)
         (b_margin b + margin_profit_loss m)%F (b_defi b) (b_loan b)
         (b_settlement b) (b_buys b) (b_sells b) (b_gas_rows b)
         (b_movement_rows b)))
    (fun d b => (Ret tt,
       mkBooks (b_account_for_assets_movements b) (b_general b) (b_taxable b)
         (b_margin b) (b_defi b + defi_amount d)%F (b_loan b)
         (b_settlement b) (b_buys b) (b_sells b) (b_gas_rows b)
         (b_movement_rows b)))
    (fun e b => (Ret tt,
       mkBooks (b_account_for_assets_movements b) (b_general b) (b_taxable b)
         (b_margin b) (b_defi b) (b_loan b)
         (b_settlement b) (b_buys b ++ [e]) (b_sells b) (b_gas_rows b)
         (b_movement_rows b)))
    (fun e b => (Ret tt,
       mkBooks (b_account_for_assets_movements b)
         (b_general b + se_gain_in_profit_currency e)%F
         (b_taxable b + se_gain_in_profit_currency e)%F
         (b_margin b) (b_defi b) (b_loan b)
         (b_settlement b) (b_buys b) (b_sells b ++ [e]) (b_gas_rows b)
         (b_movement_rows b)))
    (fun e b => (Ret tt,
       mkBooks (b_account_for_assets_movements b) (b_general b) (b_taxable b)
         (b_margin b) (b_defi b) (b_loan b)
         (b_settlement b + se_gain_in_profit_currency e)%F
         (b_buys b) (b_sells b ++ [e]) (b_gas_rows b) (b_movement_rows b)))
    (fun b => (Ret tt, b))
    b_general b_taxable b_margin b_defi b_loan b_settlement
    (fun _ b => b)
    (fun b => mkBooks (b_account_for_assets_movements b) (b_general b)
                (b_taxable b) (b_margin b) (b_defi b) (b_loan b)
                (b_settlement b) (b_buys b) (b_sells b) [] [])
    (fun r b => mkBooks (b_account_for_assets_movements b) (b_general b)
                  (b_taxable b) (b_margin b) (b_defi b) (b_loan b)
                  (b_settlement b) (b_buys b) (b_sells b) (b_gas_rows b)
                  (b_movement_rows b ++ [r]))
    (fun r b => mkBooks (b_account_for_assets_movements b) (b_general b)
                  (b_taxable b) (b_margin b) (b_defi b) (b_loan b)
                  (b_settlement b) (b_buys b) (b_sells b) (b_gas_rows b ++ [r])
                  (b_movement_rows b))
    (fun _ => []).

(** Asset resolution: every action resolves to its own assets, except that
    the identifiers UNKNOWN, UNSUPPORTED and MALFORMED fail the way the
    three resolution errors do and TOKEN is an unknown ethereum token. *)
Definition resolve (a : Asset) : outcome ResolvedAsset :=
  let i := identifier a in
  if String.eqb i "UNKNOWN" then Raise (UnknownAsset i)
  else if String.eqb i "UNSUPPORTED" then Raise (UnsupportedAsset i)
  else if String.eqb i "MALFORMED" then Raise (DeserializationError i)
  else if String.eqb i "TOKEN" then Ret (UnknownEthereumToken "0x0")
  else Ret (KnownAsset a).

Definition get_assets (action : TaxableAction)
  : outcome (ResolvedAsset * option ResolvedAsset) :=
  match action with
  | ActTrade t =>
      match resolve (trade_base_asset t) with
      | Raise e => Raise e
      | Ret a1 =>
          match resolve (trade_quote_asset t) with
          | Raise e => Raise e
          | Ret a2 => Ret (a1, Some a2)
          end
      end
  | ActLoan l =>
      match resolve (loan_currency l) with
      | Raise e => Raise e
      | Ret a => Ret (a, None)
      end
  | ActAssetMovement m =>
      match resolve (movement_asset m) with
      | Raise e => Raise e
      | Ret a => Ret (a, None)
      end
  | ActEthereumTransaction _ => Ret (KnownAsset A_ETH, None)
  | ActMarginPosition m =>
      match resolve (margin_pl_currency m) with
      | Raise e => Raise e
      | Ret a => Ret (a, None)
      end
  | ActDefiEvent d =>
      match resolve (defi_asset d) with
      | Raise e => Raise e
      | Ret a => Ret (a, None)
      end
  end.

Definition date (ts : Timestamp) : string :=
  if ts =? 77 then "77" else if ts =? 20 then "20" else "some day".

Definition render (v : FVal) : string := Decimal28.str v.

(** A database nobody else writes to while the run sleeps. *)
Definition quiet : Externals :=
  mkExternals (fun from _ ts => price from ts) get_assets date render
    (fun d => d) (Ret tt).

(** A database in which another task puts XMR on the ignore list as soon
    as the run yields. *)
Definition busy : Externals :=
  mkExternals (fun from _ ts => price from ts) get_assets date render
    (fun d => mkDBHandler (db_settings d) (mkAsset "XMR" :: db_ignored_assets d))
    (Ret tt).

Definition EUR : Asset := mkAsset "EUR".

Definition settings : DBSettings := mkDBSettings None None EUR None true.

Definition fresh (ignored : list Asset) : Accountant Books :=
  mkAccountant (mkDBHandler settings ignored) empty_books [] EUR
    (FVal_of_Z 0) (FVal_of_Z 0) 0 (-1) (-1) (-1).

(** Histories to run. *)

Definition XMR : Asset := mkAsset "XMR".

Definition loan_at (close : Timestamp) : Loan :=
  mkLoan "poloniex" 1 close XMR (FVal_of_Z 0) (FVal_of_Z 3) (FVal_of_Z 10).

Definition stuck_movement : AssetMovement :=
  mkAssetMovement "kraken" "deposit" 20 XMR (mkAsset "NOPRICE") (FVal_of_Z 1).

Definition early_tx : EthereumTransaction := mkEthereumTransaction "0xa" 5 21000 100.
Definition late_tx : EthereumTransaction := mkEthereumTransaction "0xb" 20 21000 (-1).
Definition failing_tx : EthereumTransaction := mkEthereumTransaction "0xc" 77 21000 300.
Definition mid_tx : EthereumTransaction := mkEthereumTransaction "0xd" 12 21000 150.

Definition early_buy : Trade :=
  mkTrade 5 "kraken" XMR EUR BUY (FVal_of_Z 2) (FVal_of_Z 50) (FVal_of_Z 0) EUR.

Definition settlement : Trade :=
  mkTrade 20 "poloniex" XMR A_BTC SETTLEMENT_BUY (FVal_of_Z 4) (mkFVal false 1 (-2))
    (FVal_of_Z 0) A_BTC.

(** A sale that brings in 1000000000 EUR, and a margin position and a DeFi
    event that bring in 0.0000000000000000004 EUR each: together more
    digits than the decimal context keeps. *)
Definition big_sell : Trade :=
  mkTrade 5 "kraken" XMR EUR SELL (FVal_of_Z 1000000) (FVal_of_Z 1000)
    (FVal_of_Z 0) EUR.

Definition small_margin : MarginPosition :=
  mkMarginPosition 6 (mkFVal false 4 (-19)) EUR.

Definition small_defi : DefiEvent := mkDefiEvent 7 EUR (mkFVal false 4 (-19)).

(** An accountant in the middle of a run that started at [start]. *)
Definition running (start : Timestamp) (ignored : list Asset) : Accountant Books :=
  set_start_ts start (set_last_gas_price 2000000000 (fresh ignored)).

End Demo.

(** ** The rest of the accountant *)

(** [get_calculated_asset_amount]: [self.events.events] is the ledger's
    dictionary from an asset to the events kept for it, of which the method
    reads the [buys]; the dictionary and the amount of a buy event belong to
    the ledger and are taken as they are. *)
Section AssetAmounts.
Context {arith : FValOps} {B Lot : Type}.
(* [self.events.events[asset].buys], [None] when the asset is no key *)
Variable asset_buys : B -> Asset -> option (list Lot).
(* [buy_event.amount] *)
Variable lot_amount : Lot -> FVal.

End AssetAmounts.

(** ** Further notions *)

(** The five histories handed to [process_history], in the order in which
    they are put together before sorting. *)
Definition all_actions (trade_history : list TradeHistoryEntry)
    (loan_history : list Loan) (asset_movements : list AssetMovement)
    (eth_transactions : list EthereumTransaction) (defi_events : list DefiEvent)
  : list TaxableAction :=
  map history_entry_action trade_history ++ map ActLoan loan_history
  ++ map ActAssetMovement asset_movements
  ++ map ActEthereumTransaction eth_transactions ++ map ActDefiEvent defi_events.

(** The actions that happen at [t]. *)
Definition at_time (t : Timestamp) (a : TaxableAction) : bool :=
  action_get_timestamp a =? t.

(** The same environment with nobody else writing to the database. *)
Definition no_other_tasks (X : Externals) : Externals :=
  mkExternals (query_historical_price X) (action_get_assets X)
    (timestamp_to_date X) (fval_str X) (fun d => d)
    (save_historical_forex_data X).

(** An amount that is not negative: it carries no minus sign, or is a zero. *)
Definition not_negative (v : FVal) : Prop :=
  num_sign v = false \/ num_coefficient v = 0%N.

(** Figures that are not negative: gas used and real gas prices of a
    transaction, the fee of an asset movement. *)
Definition plain_figures (a : TaxableAction) : Prop :=
  match a with
  | ActEthereumTransaction tx =>
      0 <= tx_gas_used tx /\ (tx_gas_price tx = -1 \/ 0 <= tx_gas_price tx)
  | ActAssetMovement m => not_negative (movement_fee m)
  | _ => True
  end.

(** The asset whose rate a trade is valued with before the ledger is
    called, if there is one: the quote asset for the two kinds of sell, BTC
    for a settlement buy. *)
Definition valuation_asset (trade : Trade) : option Asset :=
  match trade_type trade with
  | BUY => None
  | SELL | SETTLEMENT_SELL => Some (trade_quote_asset trade)
  | SETTLEMENT_BUY => Some A_BTC
  end.

(** More histories and environments to run. *)
Module Cases.
Import Demo.

(** A database in which another task switches the gas costs off and changes
    the main currency as soon as the run yields; the ignored assets stay. *)
Definition meddling : Externals :=
  mkExternals (fun from _ ts => price from ts) get_assets date render
    (fun d => mkDBHandler (mkDBSettings None None XMR None false)
                (db_ignored_assets d))
    (Ret tt).

Definition kfee_movement : AssetMovement :=
  mkAssetMovement "kraken" "deposit" 20 (mkAsset "KFEE") (mkAsset "NOPRICE")
    (FVal_of_Z 1).

Definition paid_movement : AssetMovement :=
  mkAssetMovement "kraken" "withdrawal" 20 XMR XMR (mkFVal false 1 (-1)).

Definition token_trade : Trade :=
  mkTrade 20 "uniswap" (mkAsset "TOKEN") XMR BUY (FVal_of_Z 2) (FVal_of_Z 50)
    (FVal_of_Z 0) EUR.

Definition unpriced_fee_buy : Trade :=
  mkTrade 20 "kraken" XMR EUR BUY (FVal_of_Z 2) (FVal_of_Z 50) (FVal_of_Z 1)
    (mkAsset "NOPRICE").

Definition plain_sell : Trade :=
  mkTrade 20 "kraken" XMR A_BTC SELL (FVal_of_Z 4) (mkFVal false 1 (-2)) (FVal_of_Z 0) A_BTC.

(** Settings with the gas costs off, and an accountant over a database
    that holds them. *)
Definition gas_off : DBSettings := mkDBSettings None None EUR None false.

Definition fresh_gas_off : Accountant Books :=
  mkAccountant (mkDBHandler gas_off []) empty_books [] EUR
    (FVal_of_Z 0) (FVal_of_Z 0) 0 (-1) (-1) (-1).

(** An accountant an earlier run has left its figures in. *)
Definition used : Accountant Books :=
  mkAccountant (mkDBHandler settings []) empty_books [] XMR
    (FVal_of_Z 9) (FVal_of_Z 7) 123 40 60 80.

(** A ledger entry per asset: the list of the amounts bought. *)
Definition bought (b : Books) (a : Asset) : option (list FVal) :=
  if asset_eqb a XMR then Some (map be_bought_amount (b_buys b)) else None.

End Cases.

(** * Properties *)

(** ** Reasoning about computations *)

Section Returns.
Context {St A : Type}.
Variable P : A -> Prop.

Lemma returns_ret (a : A) : P a -> returns_only P (@ret St A a).
Proof. intros H s a' s' Heq. inversion Heq; subst. exact H. Qed.

Lemma returns_raise (e : exn) : returns_only P (@raise St A e).
Proof. intros s a s' Heq. discriminate Heq. Qed.

Lemma returns_bind {C} (c : M St C) (k : C -> M St A) :
  (forall x, returns_only P (k x)) -> returns_only P (bind c k).
Proof.
  intros Hk s a s' Heq. unfold bind in Heq.
  destruct (c s) as [[x | e] s1]; [eapply Hk; exact Heq | discriminate Heq].
Qed.
End Returns.

Lemma bind_ret_inv {S A C} (c : M S A) (k : A -> M S C) s r s' :
  bind c k s = (Ret r, s') ->
  exists a s1, c s = (Ret a, s1) /\ k a s1 = (Ret r, s').
Proof.
  unfold bind. destruct (c s) as [[a | e] s1]; intros H.
  - exists a, s1. split; [reflexivity | exact H].
  - discriminate H.
Qed.

Lemma bind_raise_eq {S A C} (c : M S A) (k : A -> M S C) s e s1 :
  c s = (Raise e, s1) -> bind c k s = (Raise e, s1).
Proof. intros H. unfold bind. rewrite H. reflexivity. Qed.

Lemma string_app_assoc (a b c : string) :
  ((a ++ b) ++ c)%string = (a ++ (b ++ c))%string.
Proof. induction a as [| ch a IH]; simpl; [reflexivity | now rewrite IH]. Qed.

Section EngineFacts.
Context {arith : FValOps} {B : Type}.
Variable E : TaxableEventsOps B.
Variable X : Externals.

Lemma skip_message_recoverable action e :
  recoverable e ->
  exists before after,
    skip_message X action e =
    Some (before ++ timestamp_to_date X (action_get_timestamp action) ++ after)%string.
Proof.
  intros [[m ->] | [[m ->] | [m ->]]]; simpl;
    exists ("Skipping action at " ++ " ")%string; eexists;
    rewrite !string_app_assoc; reflexivity.
Qed.

Lemma skip_message_other action e :
  ~ recoverable e -> skip_message X action e = None.
Proof.
  intros H. destruct e; try reflexivity; exfalso; apply H; unfold recoverable; eauto.
Qed.

(** *** The start of a run *)

Lemma _customize_returns settings self :
  exists self1, _customize E settings self = (Ret tt, self1).
Proof.
  unfold _customize.
  destruct (s_include_crypto2crypto settings);
    destruct (s_taxfree_after_period settings);
    destruct (s_account_for_assets_movements settings);
    unfold bind, ret, modify, update_events; simpl; eexists; reflexivity.
Qed.

Lemma start_run_returns start_ts end_ts self :
  fst (start_run E start_ts end_ts self) = Ret (get_settings (db self)).
Proof.
  unfold start_run. unfold bind at 1 2 3 4 5 6 7. unfold update_events, modify, get. simpl.
  unfold bind.
  match goal with |- context [_customize E ?s ?st] =>
    destruct (_customize_returns s st) as [self1 ->] end.
  reflexivity.
Qed.

Lemma process_history_unfold start_ts end_ts th lh am et de self :
  let actions := merge_actions th lh am et de in
  process_history E X start_ts end_ts th lh am et de self =
  (process_actions E X actions end_ts 0 0 (get_settings (db self)) ;;
   finish_run E X) (loop_entry E start_ts end_ts actions self).
Proof.
  intros actions. unfold process_history, loop_entry. fold actions.
  unfold bind at 1.
  pose proof (start_run_returns start_ts end_ts self) as Hs.
  destruct (start_run E start_ts end_ts self) as [r self0]. simpl in Hs. subst r.
  reflexivity.
Qed.

(** *** One action *)

(** Case analysis on the innermost scrutinee, until none is left. *)
Ltac branch :=
  match goal with
  | |- context [match ?x with _ => _ end] =>
      lazymatch x with
      | context [match _ with _ => _ end] => fail
      | _ => destruct x eqn:?; simpl
      end
  end.
Ltac branches := repeat branch.

Lemma process_action_returns_timestamp action end_ts prev_time settings self c p self1 :
  process_action E X action end_ts prev_time settings self = (Ret (c, p), self1) ->
  p = action_get_timestamp action.
Proof.
  intros H.
  enough (Hr : returns_only (fun r : bool * Timestamp => snd r = action_get_timestamp action)
                 (process_action E X action end_ts prev_time settings))
    by exact (Hr _ _ _ H).
  clear. unfold process_action. apply returns_bind. intros self.
  unfold process_action_body.
  repeat first
    [ apply returns_raise
    | apply returns_ret; reflexivity
    | apply returns_bind; intros
    | progress branches ].
Qed.

Lemma process_action_descending action end_ts prev_time settings self :
  action_get_timestamp action < prev_time ->
  process_action E X action end_ts prev_time settings self =
  (Raise (AssertionError
     "During history processing the trades/loans are not in ascending order"),
   self).
Proof.
  intros H. unfold process_action, process_action_body, bind, get, raise.
  destruct (Z.geb_spec (action_get_timestamp action) prev_time); [lia | reflexivity].
Qed.

Lemma process_action_past_end action end_ts prev_time settings self :
  prev_time <= action_get_timestamp action ->
  end_ts < action_get_timestamp action ->
  process_action E X action end_ts prev_time settings self =
  (Ret (false, action_get_timestamp action), self).
Proof.
  intros H1 H2. unfold process_action, process_action_body, bind, get, ret.
  destruct (Z.geb_spec (action_get_timestamp action) prev_time); [| lia].
  simpl. destruct (Z.gtb_spec (action_get_timestamp action) end_ts); [reflexivity | lia].
Qed.

Lemma process_action_within_window action end_ts end_ts' prev_time settings self :
  action_get_timestamp action <= end_ts ->
  action_get_timestamp action <= end_ts' ->
  process_action E X action end_ts prev_time settings self =
  process_action E X action end_ts' prev_time settings self.
Proof.
  intros H1 H2. unfold process_action, process_action_body, bind, get.
  destruct (action_get_timestamp action >=? prev_time); [| reflexivity].
  simpl.
  destruct (Z.gtb_spec (action_get_timestamp action) end_ts); [lia |].
  destruct (Z.gtb_spec (action_get_timestamp action) end_ts'); [lia |].
  reflexivity.
Qed.

(** *** Price errors in the loop *)

(** C1: when processing an action raises one of the three price errors
    (unsupported asset, no price at the timestamp, remote error), the loop
    adds one error message that contains the date of the action's
    timestamp and goes on with the next action, previous time and yield
    counter untouched; any other exception leaves the loop at once, and an
    exception that leaves the loop leaves [process_history]. *)
Theorem process_history_recovers_from_price_errors
    (action : TaxableAction) (rest : list TaxableAction)
    (end_ts prev_time : Timestamp) (count : Z) (settings : DBSettings)
    (self self1 : Accountant B) (e : exn) :
  process_action E X action end_ts prev_time settings self = (Raise e, self1) ->
  (recoverable e ->
   exists before after,
     process_actions E X (action :: rest) end_ts prev_time count settings self =
     process_actions E X rest end_ts prev_time count settings
       (set_msg_aggregator
          (msg_aggregator self1 ++
           [Error (before ++ timestamp_to_date X (action_get_timestamp action)
                   ++ after)%string])
          self1))
  /\ (~ recoverable e ->
      process_actions E X (action :: rest) end_ts prev_time count settings self =
      (Raise e, self1))
  /\ (forall start_ts th lh am et de self0 e' self',
        process_actions E X (merge_actions th lh am et de) end_ts 0 0
          (get_settings (db self0))
          (loop_entry E start_ts end_ts (merge_actions th lh am et de) self0)
        = (Raise e', self') ->
        process_history E X start_ts end_ts th lh am et de self0 = (Raise e', self')).
Proof.
  intros Hstep. split; [| split].
  - intros Hrec.
    destruct (skip_message_recoverable action e Hrec) as (before & after & Hmsg).
    exists before, after. simpl. rewrite Hstep, Hmsg. reflexivity.
  - intros Hother. simpl. rewrite Hstep, (skip_message_other action e Hother).
    reflexivity.
  - intros start_ts th lh am et de self0 e' self' Hloop.
    rewrite process_history_unfold. apply bind_raise_eq. exact Hloop.
Qed.

(** *** The end of the window *)

Lemma cooperative_yield_returns count (self : Accountant B) :
  exists self1, cooperative_yield X count self = (Ret tt, self1).
Proof.
  unfold cooperative_yield. destruct (count mod 500 =? 0); eexists; reflexivity.
Qed.

Lemma process_actions_cut pre a post end_ts :
  Forall (fun x => action_get_timestamp x <= end_ts) pre ->
  end_ts < action_get_timestamp a ->
  forall prev_time count settings self,
    prev_time <= action_get_timestamp a ->
    process_actions E X (pre ++ a :: post) end_ts prev_time count settings self =
    process_actions E X pre end_ts prev_time count settings self.
Proof.
  intros Hpre Ha. induction Hpre as [| x pre Hx Hpre IH];
    intros prev_time count settings self Hprev.
  - simpl. rewrite process_action_past_end by assumption. reflexivity.
  - simpl.
    destruct (process_action E X x end_ts prev_time settings self)
      as [[[c p] | e] self1] eqn:Hstep.
    + apply process_action_returns_timestamp in Hstep. subst p.
      destruct c; simpl; [| reflexivity].
      unfold bind.
      destruct (cooperative_yield_returns count self1) as [self2 ->].
      apply IH. lia.
    + destruct (skip_message X x e); [| reflexivity].
      unfold bind, add_error, modify. apply IH. exact Hprev.
Qed.

Lemma process_actions_window pre end_ts end_ts' :
  Forall (fun x => action_get_timestamp x <= end_ts) pre ->
  end_ts <= end_ts' ->
  forall prev_time count settings self,
    process_actions E X pre end_ts' prev_time count settings self =
    process_actions E X pre end_ts prev_time count settings self.
Proof.
  intros Hpre Hle. induction Hpre as [| x pre Hx Hpre IH];
    intros prev_time count settings self; [reflexivity |].
  simpl.
  rewrite (process_action_within_window x end_ts' end_ts) by lia.
  destruct (process_action E X x end_ts prev_time settings self)
    as [[[c p] | e] self1].
  - destruct c; simpl; [| reflexivity].
    unfold bind. destruct (cooperative_yield_returns count self1) as [self2 ->].
    apply IH.
  - destruct (skip_message X x e); [| reflexivity].
    unfold bind, add_error, modify. apply IH.
Qed.

(** C2: in a stream whose first action later than [end_ts] is [a] (all
    of [pre] is within the window, and [a] is not earlier than the previous
    time the loop carries, as in a sorted stream), the loop ends at [a]:
    the run is the run over [pre] alone, whatever follows [a]; and the
    actions of [pre] are processed as they would be under any later
    [end_ts], so none of them is cut off. *)
Theorem process_history_stops_after_end_ts
    (pre : list TaxableAction) (a : TaxableAction) (post : list TaxableAction)
    (end_ts prev_time : Timestamp) (count : Z) (settings : DBSettings)
    (self : Accountant B) :
  Forall (fun x => action_get_timestamp x <= end_ts) pre ->
  end_ts < action_get_timestamp a ->
  prev_time <= action_get_timestamp a ->
  process_actions E X (pre ++ a :: post) end_ts prev_time count settings self =
  process_actions E X pre end_ts prev_time count settings self
  /\ (forall end_ts', end_ts <= end_ts' ->
      process_actions E X pre end_ts' prev_time count settings self =
      process_actions E X pre end_ts prev_time count settings self).
Proof.
  intros Hpre Ha Hprev. split.
  - apply process_actions_cut; assumption.
  - intros end_ts' Hle. apply process_actions_window; assumption.
Qed.

(** *** The report *)

Lemma finish_run_report self rep self' :
  finish_run E X self = (Ret rep, self') -> rep = build_report E X self'.
Proof.
  unfold finish_run, bind, on_events, call, get, ret.
  destruct (calculate_asset_details B E (events self)) as [[[] | e] b];
    [| discriminate].
  destruct (save_historical_forex_data X) as [[] | e]; [| discriminate].
  intros H. inversion H; subst. reflexivity.
Qed.

(** C3: in the report of every run that returns one, the total taxable
    profit/loss is the rendering of taxable trade profit/loss plus the sum of
    the other actions, and the total profit/loss that of general trade
    profit/loss plus that same sum.  The sum of the other actions is worked
    out first and on its own: margin positions + DeFi + loan profit
    - settlement losses - asset movement fees - gas costs, from left to
    right.  Every sum and difference is an operation of [FVal], which
    rounds, so the report holds the result of the operations in this very
    order and grouping; the other entries render the figures the totals are
    made of. *)
Theorem report_totals
    (start_ts end_ts : Timestamp) (th : list TradeHistoryEntry) (lh : list Loan)
    (am : list AssetMovement) (et : list EthereumTransaction) (de : list DefiEvent)
    (self self' : Accountant B) (rep : Report) :
  process_history E X start_ts end_ts th lh am et de self = (Ret rep, self') ->
  let ev := events self' in
  let str := fval_str X in
  let taxable := taxable_trade_profit_loss B E ev in
  let general := general_trade_profit_loss B E ev in
  let margin := margin_positions_profit_loss B E ev in
  let defi := defi_profit_loss B E ev in
  let loans := loan_profit B E ev in
  let settlement := settlement_losses B E ev in
  let fees := asset_movement_fees self' in
  let gas := eth_transactions_gas_costs self' in
  let other :=
    fval_sub (fval_sub (fval_sub (fval_add (fval_add margin defi) loans)
                          settlement) fees) gas in
  overview rep =
  mkOverview (str defi) (str loans) (str margin) (str settlement) (str gas) (str fees)
    (str general) (str taxable)
    (str (fval_add taxable other)) (str (fval_add general other))
  /\ sum_other_actions E self' = other
  /\ total_taxable_pl E self' = fval_add taxable other.
Proof.
  intros H ev str taxable general margin defi loans settlement fees gas other.
  rewrite process_history_unfold in H.
  apply bind_ret_inv in H. destruct H as ([] & self1 & _ & Hfin).
  apply finish_run_report in Hfin. subst rep.
  split; [reflexivity | split; reflexivity].
Qed.

(** *** The start of the window *)

Ltac unfold_engine :=
  unfold process_action, process_action_body, add_asset_movement_to_events,
    account_for_gas_costs, trade_add_to_sell_events, get_fee_in_profit_currency,
    add_warning, add_error, on_events, update_events,
    bind, ret, raise, get, modify, call; simpl.




(** *** The carried gas price *)

Lemma _customize_last_gas_price settings self :
  last_gas_price (snd (_customize E settings self)) = last_gas_price self.
Proof.
  unfold _customize.
  destruct (s_include_crypto2crypto settings);
    destruct (s_taxfree_after_period settings);
    destruct (s_account_for_assets_movements settings);
    reflexivity.
Qed.

Lemma start_run_last_gas_price start_ts end_ts self :
  last_gas_price (snd (start_run E start_ts end_ts self)) = 2000000000.
Proof.
  unfold start_run. unfold bind at 1 2 3 4 5 6 7. unfold update_events, modify, get.
  simpl. unfold bind.
  match goal with |- context [_customize E ?s ?st] =>
    pose proof (_customize_last_gas_price s st) as Hc;
    destruct (_customize_returns s st) as [self1 Heq]; rewrite Heq in Hc |- *
  end.
  simpl in *. exact Hc.
Qed.

Lemma process_action_start_ts action end_ts prev_time settings self :
  start_ts (snd (process_action E X action end_ts prev_time settings self)) =
  start_ts self.
Proof.
  destruct action; unfold_engine; branches; reflexivity.
Qed.

(** Only an ethereum transaction with a real gas price that gets as far as
    the gas accounting moves the carried gas price. *)
Lemma process_action_last_gas_price action end_ts prev_time settings self :
  let self' := snd (process_action E X action end_ts prev_time settings self) in
  last_gas_price self' = last_gas_price self \/
  exists tx,
    action = ActEthereumTransaction tx /\ tx_gas_price tx <> -1 /\
    s_include_gas_costs settings = true /\ start_ts self <= tx_timestamp tx /\
    last_gas_price self' = tx_gas_price tx.
Proof.
  destruct action as [trade | loan | m | tx | margin | d];
    unfold_engine; branches; simpl; try (left; reflexivity);
    right; exists tx;
    repeat match goal with
           | H : (_ <? _) = false |- _ => apply Z.ltb_ge in H
           | H : (_ =? _) = false |- _ => apply Z.eqb_neq in H
           | H : negb _ = false |- _ => apply negb_false_iff in H
           end;
    simpl in *; repeat split; auto.
Qed.

Ltac enter_dispatch H :=
  let H1 := fresh in let H2 := fresh in let a1 := fresh "asset1" in
  let a2 := fresh "asset2" in let Hr := fresh in let Hu := fresh in
  let Hi := fresh in
  destruct H as (H1 & H2 & a1 & a2 & Hr & Hu & Hi);
  unfold process_action, process_action_body;
  unfold bind at 1; unfold get at 1; cbv beta iota;
  apply Z.geb_le in H1; rewrite H1; simpl negb; cbv iota;
  match goal with
  | |- context [?a >? ?b] => destruct (Z.gtb_spec a b) as [? | _]; [lia |]
  end;
  unfold bind at 1; unfold modify at 1; cbv beta iota;
  rewrite Hr, Hu; simpl db; rewrite Hi.

Lemma process_action_gas tx end_ts prev_time settings self rate :
  dispatched X (ActEthereumTransaction tx) end_ts prev_time self ->
  s_include_gas_costs settings = true ->
  start_ts self <= tx_timestamp tx ->
  get_rate_in_profit_currency B E (events self) A_ETH (tx_timestamp tx) = Ret rate ->
  let g := if tx_gas_price tx =? -1 then last_gas_price self else tx_gas_price tx in
  exists self',
    process_action E X (ActEthereumTransaction tx) end_ts prev_time settings self =
    (Ret (true, tx_timestamp tx), self') /\
    eth_transactions_gas_costs self' =
    (eth_transactions_gas_costs self + gas_cost (tx_gas_used tx) g rate)%F /\
    last_gas_price self' = g.
Proof.
  intros Hd Hinc Hwin Hrate g.
  enter_dispatch Hd.
  unfold account_for_gas_costs. rewrite Hinc. simpl negb. cbv iota.
  unfold bind, get, modify, ret, call, update_events. simpl.
  destruct (Z.ltb_spec (tx_timestamp tx) (start_ts self)); [lia |].
  subst g. unfold gas_cost.
  destruct (tx_gas_price tx =? -1); simpl; rewrite Hrate;
    eexists; repeat split.
Qed.

Lemma process_action_db action end_ts prev_time settings self :
  db (snd (process_action E X action end_ts prev_time settings self)) = db self.
Proof.
  destruct action; unfold_engine; branches; reflexivity.
Qed.

Lemma process_action_continues action end_ts prev_time settings self c p self1 :
  action_get_timestamp action <= end_ts ->
  process_action E X action end_ts prev_time settings self = (Ret (c, p), self1) ->
  c = true.
Proof.
  intros Hend H.
  enough (Hr : returns_only (fun r : bool * Timestamp =>
                    fst r = true \/ end_ts < action_get_timestamp action)
                 (process_action E X action end_ts prev_time settings)).
  { destruct (Hr _ _ _ H) as [Hc | Hlt]; [exact Hc | lia]. }
  clear. unfold process_action. apply returns_bind. intros self.
  unfold process_action_body.
  repeat first
    [ apply returns_raise
    | apply returns_ret; left; reflexivity
    | apply returns_ret; right;
      match goal with
      | Hgt : (_ >? _) = true |- _ => apply Z.gtb_lt in Hgt; exact Hgt
      end
    | apply returns_bind; intros
    | progress branches ].
Qed.

(** With gas costs enabled and ETH resolving and off the ignore list, an
    action that passes the ordering assertion and the end of the window
    leaves the carried gas price as the stream alone says. *)
Lemma process_action_gas_price_step action end_ts prev_time settings self :
  s_include_gas_costs settings = true ->
  (forall tx, action_get_assets X (ActEthereumTransaction tx) =
              Ret (KnownAsset A_ETH, None)) ->
  asset_in A_ETH (get_ignored_assets (db self)) = false ->
  prev_time <= action_get_timestamp action ->
  action_get_timestamp action <= end_ts ->
  last_gas_price (snd (process_action E X action end_ts prev_time settings self)) =
  in_window_gas_price (start_ts self) (last_gas_price self) action.
Proof.
  intros Hinc Hres Heth Hprev Hend.
  destruct action as [trade | loan | m | tx | margin | d];
    try (match goal with
         | |- context [process_action E X ?a _ _ _ _] =>
             pose proof (process_action_last_gas_price a end_ts prev_time settings self)
               as H
         end;
         cbv zeta in H; destruct H as [H | (tx0 & Habs & _)];
         [exact H | discriminate Habs]).
  assert (Hd : dispatched X (ActEthereumTransaction tx) end_ts prev_time self).
  { split; [exact Hprev | split; [exact Hend |]].
    exists (KnownAsset A_ETH), None. split; [apply Hres |].
    split; [reflexivity |]. simpl. rewrite Heth. reflexivity. }
  enter_dispatch Hd.
  unfold account_for_gas_costs. rewrite Hinc. simpl negb. cbv iota.
  unfold bind, get, modify, ret, call, update_events. simpl.
  destruct (Z.ltb_spec (tx_timestamp tx) (start_ts self)) as [Hlt | Hge].
  - destruct (Z.leb_spec (start_ts self) (tx_timestamp tx)); [lia | reflexivity].
  - destruct (Z.leb_spec (start_ts self) (tx_timestamp tx)); [| lia].
    destruct (tx_gas_price tx =? -1); simpl;
      destruct (get_rate_in_profit_currency B E (events self) A_ETH (tx_timestamp tx));
      reflexivity.
Qed.

Lemma process_actions_gas_price settings :
  s_include_gas_costs settings = true ->
  (forall tx, action_get_assets X (ActEthereumTransaction tx) =
              Ret (KnownAsset A_ETH, None)) ->
  (forall d, asset_in A_ETH (get_ignored_assets d) = false ->
             asset_in A_ETH (get_ignored_assets (gevent_sleep X d)) = false) ->
  forall actions end_ts prev_time count self self',
    asset_in A_ETH (get_ignored_assets (db self)) = false ->
    Forall (fun a => action_get_timestamp a <= end_ts) actions ->
    process_actions E X actions end_ts prev_time count settings self = (Ret tt, self') ->
    last_gas_price self' =
    carried_gas_price (start_ts self) (last_gas_price self) actions.
Proof.
  intros Hinc Hres Hsleep actions.
  induction actions as [| a rest IH];
    intros end_ts prev_time count self self' Heth Hwin Hrun.
  - inversion Hrun; subst. reflexivity.
  - inversion Hwin as [| ? ? Ha Hrest]; subst.
    simpl in Hrun. unfold carried_gas_price. simpl fold_left.
    destruct (Z.ltb_spec (action_get_timestamp a) prev_time) as [Hlt | Hge].
    { rewrite process_action_descending in Hrun by exact Hlt.
      simpl in Hrun. discriminate Hrun. }
    pose proof (process_action_gas_price_step a end_ts prev_time settings self
                  Hinc Hres Heth Hge Ha) as Hg.
    pose proof (process_action_start_ts a end_ts prev_time settings self) as Hs.
    pose proof (process_action_db a end_ts prev_time settings self) as Hdb.
    destruct (process_action E X a end_ts prev_time settings self)
      as [[[c p] | e] self1] eqn:Hstep; simpl in Hg, Hs, Hdb.
    + apply process_action_continues in Hstep; [subst c | exact Ha].
      simpl in Hrun. unfold bind, cooperative_yield in Hrun.
      rewrite <- Hg, <- Hs.
      destruct (count mod 500 =? 0); unfold modify, ret in Hrun;
        apply IH in Hrun; try exact Hrest; try exact Hrun.
      * simpl. apply Hsleep. rewrite Hdb. exact Heth.
      * rewrite Hdb. exact Heth.
    + destruct (skip_message X a e); [| discriminate Hrun].
      unfold bind, add_error, modify in Hrun.
      rewrite <- Hg, <- Hs.
      apply IH in Hrun; try exact Hrest; try exact Hrun.
      simpl. rewrite Hdb. exact Heth.
Qed.

(** A transaction with a real gas price that reaches the gas accounting
    leaves its gas price behind, whether or not its cost can be priced. *)
Lemma process_action_records_gas_price tx end_ts prev_time settings self :
  dispatched X (ActEthereumTransaction tx) end_ts prev_time self ->
  s_include_gas_costs settings = true ->
  start_ts self <= tx_timestamp tx ->
  tx_gas_price tx <> -1 ->
  last_gas_price
    (snd (process_action E X (ActEthereumTransaction tx) end_ts prev_time settings self))
  = tx_gas_price tx.
Proof.
  intros Hd Hinc Hwin Hreal.
  enter_dispatch Hd.
  unfold account_for_gas_costs. rewrite Hinc. simpl negb. cbv iota.
  unfold bind, get, modify, ret, call, update_events. simpl.
  destruct (Z.ltb_spec (tx_timestamp tx) (start_ts self)); [lia |].
  destruct (Z.eqb_spec (tx_gas_price tx) (-1)); [contradiction |].
  simpl.
  destruct (get_rate_in_profit_currency B E (events self) A_ETH (tx_timestamp tx));
    reflexivity.
Qed.

(** In every other case the carried gas price stays. *)
Lemma process_action_keeps_gas_price action end_ts prev_time settings self :
  let self' := snd (process_action E X action end_ts prev_time settings self) in
  last_gas_price self' = last_gas_price self \/
  exists tx,
    action = ActEthereumTransaction tx /\ tx_gas_price tx <> -1 /\
    dispatched X action end_ts prev_time self /\
    s_include_gas_costs settings = true /\ start_ts self <= tx_timestamp tx /\
    last_gas_price self' = tx_gas_price tx.
Proof.
  destruct action as [trade | loan | m | tx | margin | d];
    unfold_engine; branches; simpl; try (left; reflexivity);
    right; exists tx;
    repeat match goal with
           | H : (_ <? _) = false |- _ => apply Z.ltb_ge in H
           | H : (_ =? _) = false |- _ => apply Z.eqb_neq in H
           | H : negb _ = false |- _ => apply negb_false_iff in H
           | H : (_ >=? _) = true |- _ => apply Z.geb_le in H
           | H : (_ >? _) = false |- _ =>
               rewrite Z.gtb_ltb in H; apply Z.ltb_ge in H
           end;
    simpl in *.
  all: split; [reflexivity |].
  all: split; [assumption |].
  all: split; [| split; [assumption | split; [assumption | reflexivity]]].
  all: split; [assumption | split; [assumption |]].
  all: eexists _, _; split; [eassumption | split; assumption].
Qed.
(** A loop that has run over a stream inside the window to its end goes on
    with what follows from the state it has reached. *)
Lemma process_actions_resume earlier :
  forall end_ts prev_time count settings (self self' : Accountant B),
    Forall (fun a => action_get_timestamp a <= end_ts) earlier ->
    process_actions E X earlier end_ts prev_time count settings self = (Ret tt, self') ->
    exists prev_time' count',
      forall rest,
        process_actions E X (earlier ++ rest) end_ts prev_time count settings self =
        process_actions E X rest end_ts prev_time' count' settings self'.
Proof.
  induction earlier as [| a earlier IH];
    intros end_ts prev_time count settings self self' Hwin Hrun.
  - inversion Hrun; subst. exists prev_time, count. intros rest. reflexivity.
  - inversion Hwin as [| ? ? Ha Hrest]; subst.
    simpl in Hrun.
    destruct (process_action E X a end_ts prev_time settings self)
      as [[[c p] | e] self1] eqn:Hstep.
    + pose proof (process_action_continues a end_ts prev_time settings self c p self1
                    Ha Hstep) as Hc.
      subst c. simpl in Hrun. unfold bind in Hrun.
      destruct (cooperative_yield X count self1) as [[[] | e] self2] eqn:Hy;
        [| discriminate Hrun].
      destruct (IH end_ts p (count + 1) settings self2 self' Hrest Hrun)
        as (p' & c' & Hgo).
      exists p', c'. intros rest. simpl. rewrite Hstep. simpl. unfold bind.
      rewrite Hy. apply Hgo.
    + destruct (skip_message X a e) as [text |] eqn:Hmsg; [| discriminate Hrun].
      unfold bind in Hrun.
      destruct (add_error text self1) as [[[] | e'] self2] eqn:Herr;
        [| discriminate Hrun].
      destruct (IH end_ts prev_time count settings self2 self' Hrest Hrun)
        as (p' & c' & Hgo).
      exists p', c'. intros rest. simpl. rewrite Hstep, Hmsg. unfold bind.
      rewrite Herr. apply Hgo.
Qed.
(** C5, as the code has it: an ethereum transaction that reaches the gas
    accounting (it is dispatched, gas costs are enabled and it is not
    earlier than [start_ts]) and whose ETH rate is found is charged
    gas_used * g / 10^18 * rate, where g is its own gas price when it has
    one and the carried [last_gas_price] when it has the sentinel -1, and g
    is the carried value afterwards.  The carried value is 2000000000 when
    the run starts.  A call of [process_action], under whatever settings,
    sets it to the gas price of its transaction whenever that transaction
    has a real gas price and reaches the gas accounting, and leaves it alone
    in every other case: a transaction that is earlier than [start_ts], is
    skipped on the ignore list or does not resolve leaves no gas price
    behind.  Where every
    transaction is dispatched, that is, ETH resolves and is neither on the
    ignore list when the loop starts nor put there while the run yields, a
    stream that ran to its end inside the window leaves as carried value
    the real gas price of its most recent transaction that is not earlier
    than [start_ts], or what was carried before when there is none, and
    whatever follows in the stream is processed from there. *)
Theorem gas_price_carried_forward
    (tx : EthereumTransaction) (end_ts prev_time : Timestamp)
    (settings : DBSettings) (self : Accountant B) (rate : FVal) :
  dispatched X (ActEthereumTransaction tx) end_ts prev_time self ->
  s_include_gas_costs settings = true ->
  start_ts self <= tx_timestamp tx ->
  get_rate_in_profit_currency B E (events self) A_ETH (tx_timestamp tx) = Ret rate ->
  let g := if tx_gas_price tx =? -1 then last_gas_price self else tx_gas_price tx in
  (exists self',
     process_action E X (ActEthereumTransaction tx) end_ts prev_time settings self =
     (Ret (true, tx_timestamp tx), self') /\
     eth_transactions_gas_costs self' =
     (eth_transactions_gas_costs self + gas_cost (tx_gas_used tx) g rate)%F /\
     last_gas_price self' = g)
  /\ (forall start_ts0 end_ts0 self0,
        last_gas_price (snd (start_run E start_ts0 end_ts0 self0)) = 2000000000)
  /\ (forall action end_ts0 prev_time0 settings0 self0,
        let self' :=
          snd (process_action E X action end_ts0 prev_time0 settings0 self0) in
        (forall tx0,
           action = ActEthereumTransaction tx0 ->
           dispatched X action end_ts0 prev_time0 self0 ->
           s_include_gas_costs settings0 = true ->
           start_ts self0 <= tx_timestamp tx0 ->
           tx_gas_price tx0 <> -1 ->
           last_gas_price self' = tx_gas_price tx0)
        /\ (last_gas_price self' = last_gas_price self0 \/
            exists tx0,
              action = ActEthereumTransaction tx0 /\ tx_gas_price tx0 <> -1 /\
              dispatched X action end_ts0 prev_time0 self0 /\
              s_include_gas_costs settings0 = true /\
              start_ts self0 <= tx_timestamp tx0 /\
              last_gas_price self' = tx_gas_price tx0))
  /\ (forall earlier end_ts0 prev_time0 count self0 self',
        (forall tx0, action_get_assets X (ActEthereumTransaction tx0) =
                     Ret (KnownAsset A_ETH, None)) ->
        (forall d, asset_in A_ETH (get_ignored_assets d) = false ->
                   asset_in A_ETH (get_ignored_assets (gevent_sleep X d)) = false) ->
        asset_in A_ETH (get_ignored_assets (db self0)) = false ->
        Forall (fun a => action_get_timestamp a <= end_ts0) earlier ->
        process_actions E X earlier end_ts0 prev_time0 count settings self0
        = (Ret tt, self') ->
        last_gas_price self' =
        carried_gas_price (start_ts self0) (last_gas_price self0) earlier
        /\ exists prev_time' count',
             forall rest,
               process_actions E X (earlier ++ rest) end_ts0 prev_time0 count
                 settings self0 =
               process_actions E X rest end_ts0 prev_time' count' settings self').
Proof.
  intros Hd Hinc Hwin Hrate g. split; [| split; [| split]].
  - apply process_action_gas; assumption.
  - apply start_run_last_gas_price.
  - intros action end_ts0 prev_time0 settings0 self0 self'. split.
    + intros tx0 Ha Hd0 Hinc0 Hwin0 Hreal. subst action self'.
      apply process_action_records_gas_price; assumption.
    + destruct (process_action_keeps_gas_price action end_ts0 prev_time0 settings0 self0)
        as [H | H]; [left; exact H | right; exact H].
  - intros earlier end_ts0 prev_time0 count self0 self' Hres Hsleep Heth Hin Hrun.
    split; [eapply process_actions_gas_price; eassumption |].
    eapply process_actions_resume; eassumption.
Qed.

(** *** A failed rate lookup *)

(** C10: when the gas accounting of a transaction with a real gas price
    fails on the ETH price lookup, the gas costs are what they were and the
    carried gas price is already that of the transaction; if the error is
    one of the three price errors the loop skips the action with a message
    and goes on from that state. *)
Theorem gas_price_advances_when_rate_lookup_fails
    (tx : EthereumTransaction) (rest : list TaxableAction)
    (end_ts prev_time : Timestamp) (count : Z) (settings : DBSettings)
    (self : Accountant B) (e : exn) :
  start_ts self <= tx_timestamp tx ->
  tx_gas_price tx <> -1 ->
  get_rate_in_profit_currency B E (events self) A_ETH (tx_timestamp tx) = Raise e ->
  let r := account_for_gas_costs E tx true self in
  r = (Raise e, set_last_gas_price (tx_gas_price tx) self)
  /\ eth_transactions_gas_costs (snd r) = eth_transactions_gas_costs self
  /\ last_gas_price (snd r) = tx_gas_price tx
  /\ (dispatched X (ActEthereumTransaction tx) end_ts prev_time self ->
      s_include_gas_costs settings = true ->
      recoverable e ->
      exists text,
        process_actions E X (ActEthereumTransaction tx :: rest) end_ts prev_time
          count settings self =
        process_actions E X rest end_ts prev_time count settings
          (set_msg_aggregator (msg_aggregator self ++ [Error text])
             (set_last_gas_price (tx_gas_price tx)
                (set_currently_processing_timestamp (tx_timestamp tx) self)))).
Proof.
  intros Hwin Hreal Hrate r.
  assert (Hr : r = (Raise e, set_last_gas_price (tx_gas_price tx) self)).
  { subst r. unfold account_for_gas_costs, bind, get, modify, ret, call. simpl.
    destruct (Z.ltb_spec (tx_timestamp tx) (start_ts self)); [lia |].
    destruct (Z.eqb_spec (tx_gas_price tx) (-1)); [contradiction |].
    simpl. rewrite Hrate. reflexivity. }
  rewrite Hr. simpl. repeat split.
  intros Hd Hinc Hrec.
  destruct (skip_message_recoverable (ActEthereumTransaction tx) e Hrec)
    as (before & after & Hmsg).
  eexists.
  assert (Hstep :
    process_action E X (ActEthereumTransaction tx) end_ts prev_time settings self =
    (Raise e, set_last_gas_price (tx_gas_price tx)
                (set_currently_processing_timestamp (tx_timestamp tx) self))).
  { enter_dispatch Hd.
    unfold account_for_gas_costs. rewrite Hinc. simpl negb. cbv iota.
    unfold bind, get, modify, ret, call. simpl.
    destruct (Z.ltb_spec (tx_timestamp tx) (start_ts self)); [lia |].
    destruct (Z.eqb_spec (tx_gas_price tx) (-1)); [contradiction |].
    simpl. rewrite Hrate. reflexivity. }
  simpl process_actions. rewrite Hstep, Hmsg. reflexivity.
Qed.

(** *** Asset resolution and the ignore list *)

Lemma process_actions_continue action rest end_ts prev_time count settings self p self1 :
  process_action E X action end_ts prev_time settings self = (Ret (true, p), self1) ->
  process_actions E X (action :: rest) end_ts prev_time count settings self =
  (cooperative_yield X count ;;
   process_actions E X rest end_ts p (count + 1) settings) self1.
Proof. intros H. simpl. rewrite H. reflexivity. Qed.

(** C7: for an action inside the window, asset resolution comes first:
    when it fails as unknown, unsupported or malformed, the action is
    skipped with exactly one message added for the user, whatever the
    ignore list holds, and the loop goes on; when the assets resolve and
    one of them is on the ignore list, the action is skipped with no
    message and no change to the books, and the loop goes on. *)
Theorem resolution_precedes_ignore_check
    (action : TaxableAction) (rest : list TaxableAction)
    (end_ts prev_time : Timestamp) (count : Z) (settings : DBSettings)
    (self : Accountant B) :
  prev_time <= action_get_timestamp action ->
  action_get_timestamp action <= end_ts ->
  let ts := action_get_timestamp action in
  let seen := set_currently_processing_timestamp ts self in
  (forall e,
      action_get_assets X action = Raise e -> resolution_error e ->
      exists m,
        let skipped := set_msg_aggregator (msg_aggregator self ++ [m]) seen in
        process_action E X action end_ts prev_time settings self =
        (Ret (true, ts), skipped) /\
        process_actions E X (action :: rest) end_ts prev_time count settings self =
        (cooperative_yield X count ;;
         process_actions E X rest end_ts ts (count + 1) settings) skipped)
  /\ (forall asset1 asset2,
        action_get_assets X action = Ret (asset1, asset2) ->
        is_unknown_token asset1 || opt_is_unknown_token asset2 = false ->
        resolved_in asset1 (get_ignored_assets (db self))
        || opt_resolved_in asset2 (get_ignored_assets (db self)) = true ->
        process_action E X action end_ts prev_time settings self =
        (Ret (true, ts), seen) /\
        process_actions E X (action :: rest) end_ts prev_time count settings self =
        (cooperative_yield X count ;;
         process_actions E X rest end_ts ts (count + 1) settings) seen).
Proof.
  intros Hprev Hend ts seen. subst ts seen.
  apply Z.geb_le in Hprev.
  split.
  - intros e Hres Herr.
    assert (Hstep : exists m,
      process_action E X action end_ts prev_time settings self =
      (Ret (true, action_get_timestamp action),
       set_msg_aggregator (msg_aggregator self ++ [m])
         (set_currently_processing_timestamp (action_get_timestamp action) self))).
    { unfold process_action, process_action_body, bind, get, modify, add_warning,
        add_error, ret.
      rewrite Hprev. simpl negb. cbv iota.
      destruct (Z.gtb_spec (action_get_timestamp action) end_ts) as [? | _]; [lia |].
      rewrite Hres.
      destruct Herr as [[n ->] | [[n ->] | [m ->]]]; eexists; reflexivity. }
    destruct Hstep as [m Hstep]. exists m. split; [exact Hstep |].
    apply process_actions_continue. exact Hstep.
  - intros asset1 asset2 Hres Htok Hign.
    assert (Hstep :
      process_action E X action end_ts prev_time settings self =
      (Ret (true, action_get_timestamp action),
       set_currently_processing_timestamp (action_get_timestamp action) self)).
    { unfold process_action, process_action_body, bind, get, modify, ret.
      rewrite Hprev. simpl negb. cbv iota.
      destruct (Z.gtb_spec (action_get_timestamp action) end_ts) as [? | _]; [lia |].
      rewrite Hres, Htok. simpl db. rewrite Hign. reflexivity. }
    split; [exact Hstep |].
    apply process_actions_continue. exact Hstep.
Qed.

(** *** Settlement buys *)

(** C8: a dispatched SETTLEMENT_BUY trade whose two price lookups succeed
    makes one call to the ledger, [add_sell]: the asset sold is BTC, the
    amount sold is trade rate * trade amount, the gain is BTC's rate in
    the profit currency at the trade's timestamp * trade rate * trade
    amount, that BTC rate is the rate handed over, and no receiving asset
    or amount goes with it, so nothing is bought. *)
Theorem settlement_buy_sells_btc
    (trade : Trade) (end_ts prev_time : Timestamp) (settings : DBSettings)
    (self : Accountant B) (btc_rate fee_rate : FVal) :
  trade_type trade = SETTLEMENT_BUY ->
  dispatched X (ActTrade trade) end_ts prev_time self ->
  get_rate_in_profit_currency B E (events self) A_BTC (trade_timestamp trade)
  = Ret btc_rate ->
  query_historical_price X (trade_fee_currency trade) (profit_currency self)
    (trade_timestamp trade) = Ret fee_rate ->
  let sale :=
    {| se_location := trade_location trade;
       se_selling_asset := A_BTC;
       se_selling_amount := (trade_rate trade * trade_amount trade)%F;
       se_receiving_asset := None;
       se_receiving_amount := None;
       se_gain_in_profit_currency :=
         (btc_rate * trade_rate trade * trade_amount trade)%F;
       se_total_fee_in_profit_currency := (fee_rate * trade_fee trade)%F;
       se_trade_rate := trade_rate trade;
       se_rate_in_profit_currency := btc_rate;
       se_timestamp := trade_timestamp trade;
       se_loan_settlement := Some true;
       se_is_virtual := None |} in
  let sold := add_sell B E sale (events self) in
  process_action E X (ActTrade trade) end_ts prev_time settings self =
  (match fst sold with
   | Ret _ => Ret (true, trade_timestamp trade)
   | Raise e => Raise e
   end,
   set_events (snd sold)
     (set_currently_processing_timestamp (trade_timestamp trade) self)).
Proof.
  intros Htype Hd Hbtc Hfee sale sold.
  enter_dispatch Hd.
  rewrite Htype.
  unfold get_fee_in_profit_currency, on_events, bind, get, call, ret. simpl.
  rewrite Hbtc, Hfee. subst sold sale. simpl.
  destruct (add_sell B E _ (events self)) as [[[] | e] books]; reflexivity.
Qed.

(** *** Ascending time *)

Lemma insert_by_timestamp_Forall (P : TaxableAction -> Prop) a l :
  P a -> Forall P l -> Forall P (insert_by_timestamp a l).
Proof.
  intros Ha Hl. induction Hl as [| b l Hb Hl IH]; simpl.
  - constructor; [exact Ha | constructor].
  - destruct (action_get_timestamp a <=? action_get_timestamp b);
      repeat (constructor; try assumption).
Qed.

Lemma insert_by_timestamp_sorted a l :
  StronglySorted timestamp_le l ->
  StronglySorted timestamp_le (insert_by_timestamp a l).
Proof.
  intros Hl. induction Hl as [| b l Hl IH Hb]; simpl.
  - constructor; constructor.
  - destruct (Z.leb_spec (action_get_timestamp a) (action_get_timestamp b)) as [Hle | Hlt].
    + constructor; [constructor; assumption |].
      constructor; [exact Hle |].
      eapply Forall_impl; [| exact Hb].
      intros c Hc. unfold timestamp_le in *. lia.
    + constructor; [exact IH |].
      apply insert_by_timestamp_Forall; [| exact Hb].
      unfold timestamp_le. lia.
Qed.

Lemma sort_actions_sorted l : StronglySorted timestamp_le (sort_actions l).
Proof.
  induction l as [| a l IH]; simpl; [constructor |].
  apply insert_by_timestamp_sorted. exact IH.
Qed.

Lemma merge_actions_sorted th lh am et de :
  StronglySorted timestamp_le (merge_actions th lh am et de).
Proof. unfold merge_actions. apply sort_actions_sorted. Qed.

(** One action leaves the time being processed alone or moves it to its
    own timestamp. *)
Lemma process_action_current action end_ts prev_time settings self :
  let self' := snd (process_action E X action end_ts prev_time settings self) in
  currently_processing_timestamp self' = currently_processing_timestamp self \/
  currently_processing_timestamp self' = action_get_timestamp action.
Proof.
  destruct action; unfold_engine; branches; simpl; auto.
Qed.

Lemma process_actions_current_le actions :
  StronglySorted timestamp_le actions ->
  forall end_ts prev_time count settings self,
    Forall (fun a => currently_processing_timestamp self <= action_get_timestamp a)
      actions ->
    currently_processing_timestamp self <=
    currently_processing_timestamp
      (snd (process_actions E X actions end_ts prev_time count settings self)).
Proof.
  intros Hs. induction Hs as [| a rest Hs IH Ha];
    intros end_ts prev_time count settings self Hlow; [simpl; lia |].
  inversion Hlow as [| ? ? Hlow_a Hlow_rest]; subst.
  simpl.
  pose proof (process_action_current a end_ts prev_time settings self) as Hc.
  destruct (process_action E X a end_ts prev_time settings self)
    as [[[c p] | e] self1]; simpl in Hc.
  - destruct c; simpl; [| lia].
    unfold bind, cooperative_yield.
    assert (Hrest : Forall (fun b => currently_processing_timestamp self1
                                     <= action_get_timestamp b) rest).
    { rewrite Forall_forall in *. intros b Hb.
      specialize (Ha b Hb). specialize (Hlow_rest b Hb).
      unfold timestamp_le in Ha. lia. }
    destruct (count mod 500 =? 0); unfold modify, ret;
      match goal with
      | |- _ <= currently_processing_timestamp (snd (process_actions _ _ _ _ _ _ _ ?st)) =>
          specialize (IH end_ts p (count + 1) settings st Hrest); simpl in IH; lia
      end.
  - destruct (skip_message X a e); simpl; [| lia].
    unfold bind, add_error, modify.
    assert (Hrest : Forall (fun b => currently_processing_timestamp self1
                                     <= action_get_timestamp b) rest).
    { rewrite Forall_forall in *. intros b Hb.
      specialize (Ha b Hb). specialize (Hlow_rest b Hb).
      unfold timestamp_le in Ha. lia. }
    match goal with
    | |- _ <= currently_processing_timestamp (snd (process_actions _ _ _ _ _ _ _ ?st)) =>
        specialize (IH end_ts prev_time count settings st Hrest); simpl in IH; lia
    end.
Qed.

Lemma lower_bound_step a rest (self self1 : Accountant B) :
  Forall (timestamp_le a) rest ->
  Forall (fun b => currently_processing_timestamp self <= action_get_timestamp b) rest ->
  currently_processing_timestamp self1 = currently_processing_timestamp self \/
  currently_processing_timestamp self1 = action_get_timestamp a ->
  Forall (fun b => currently_processing_timestamp self1 <= action_get_timestamp b) rest.
Proof.
  intros Ha Hlow Hc. rewrite Forall_forall in *. intros b Hb.
  specialize (Ha b Hb). specialize (Hlow b Hb). unfold timestamp_le in Ha. lia.
Qed.

Lemma process_actions_prefix_current l1 l2 :
  StronglySorted timestamp_le (l1 ++ l2) ->
  forall end_ts prev_time count settings self,
    Forall (fun a => currently_processing_timestamp self <= action_get_timestamp a)
      (l1 ++ l2) ->
    currently_processing_timestamp
      (snd (process_actions E X l1 end_ts prev_time count settings self)) <=
    currently_processing_timestamp
      (snd (process_actions E X (l1 ++ l2) end_ts prev_time count settings self)).
Proof.
  induction l1 as [| a l1 IH]; intros Hs end_ts prev_time count settings self Hlow.
  - simpl. apply process_actions_current_le; assumption.
  - simpl in Hs, Hlow. inversion Hs as [| ? ? Hs' Ha]; subst.
    inversion Hlow as [| ? ? Hlow_a Hlow_rest]; subst.
    simpl.
    pose proof (process_action_current a end_ts prev_time settings self) as Hc.
    destruct (process_action E X a end_ts prev_time settings self)
      as [[[c p] | e] self1]; simpl in Hc.
    + destruct c; simpl; [| lia].
      pose proof (lower_bound_step a _ self self1 Ha Hlow_rest Hc) as Hrest.
      unfold bind, cooperative_yield.
      destruct (count mod 500 =? 0); unfold modify, ret; apply IH; assumption.
    + destruct (skip_message X a e); simpl; [| lia].
      pose proof (lower_bound_step a _ self self1 Ha Hlow_rest Hc) as Hrest.
      unfold bind, add_error, modify. apply IH; assumption.
Qed.

Lemma StronglySorted_prefix (l1 l2 : list TaxableAction) :
  StronglySorted timestamp_le (l1 ++ l2) -> StronglySorted timestamp_le l1.
Proof.
  induction l1 as [| a l1 IH]; intros Hs; [constructor |].
  simpl in Hs. inversion Hs as [| ? ? Hs' Ha]; subst.
  constructor; [apply IH; exact Hs' |].
  apply Forall_app in Ha. apply Ha.
Qed.

Lemma sorted_first_is_least (l : list TaxableAction) :
  StronglySorted timestamp_le l ->
  Forall (fun a => match l with
                   | [] => 0
                   | b :: _ => action_get_timestamp b
                   end <= action_get_timestamp a) l.
Proof.
  intros Hs. destruct Hs as [| b l Hs Hb]; constructor; [lia | exact Hb].
Qed.

(** X17: over the merged and sorted stream the time being processed never
    goes down: it is at least the time the loop was entered with after any
    prefix of the stream, and at least what it was after that prefix once
    more of the stream has been processed.  An action earlier than the
    previous time the loop carries fails the ordering assertion: the loop
    ends there with the assertion error, which is not one of the errors it
    recovers from, and the accountant (its messages included) is as it was
    before the action.  In particular an action that follows a processed
    action with a later timestamp ends the run that way. *)
Theorem timestamps_never_decrease
    (th : list TradeHistoryEntry) (lh : list Loan) (am : list AssetMovement)
    (et : list EthereumTransaction) (de : list DefiEvent)
    (l1 l2 : list TaxableAction) (start_ts end_ts : Timestamp)
    (self0 : Accountant B) :
  merge_actions th lh am et de = l1 ++ l2 ->
  let settings := get_settings (db self0) in
  let self := loop_entry E start_ts end_ts (l1 ++ l2) self0 in
  let after l := snd (process_actions E X l end_ts 0 0 settings self) in
  currently_processing_timestamp self <= currently_processing_timestamp (after l1)
  /\ currently_processing_timestamp (after l1) <=
     currently_processing_timestamp (after (l1 ++ l2))
  /\ (forall action rest prev_time count st,
        action_get_timestamp action < prev_time ->
        let failure :=
          AssertionError
            "During history processing the trades/loans are not in ascending order" in
        process_actions E X (action :: rest) end_ts prev_time count settings st =
        (Raise failure, st)
        /\ ~ recoverable failure)
  /\ (forall a b rest prev_time count st p st1,
        process_action E X a end_ts prev_time settings st = (Ret (true, p), st1) ->
        action_get_timestamp b < action_get_timestamp a ->
        exists st2,
          cooperative_yield X count st1 = (Ret tt, st2) /\
          process_actions E X (a :: b :: rest) end_ts prev_time count settings st =
          (Raise
             (AssertionError
                "During history processing the trades/loans are not in ascending order"),
           st2)).
Proof.
  intros Hmerge settings self after.
  pose proof (merge_actions_sorted th lh am et de) as Hs. rewrite Hmerge in Hs.
  pose proof (sorted_first_is_least _ Hs) as Hlow.
  assert (Hlow' : Forall (fun a => currently_processing_timestamp self
                                   <= action_get_timestamp a) (l1 ++ l2))
    by exact Hlow.
  split; [| split; [| split]].
  - subst after. apply process_actions_current_le.
    + eapply StronglySorted_prefix. exact Hs.
    + apply Forall_app in Hlow'. apply Hlow'.
  - subst after. apply process_actions_prefix_current; assumption.
  - intros action rest prev_time count st Hlt failure. split.
    + simpl. rewrite process_action_descending by exact Hlt. reflexivity.
    + intros [[m H] | [[m H] | [m H]]]; discriminate H.
  - intros a b rest prev_time count st p st1 Hstep Hlt.
    destruct (cooperative_yield_returns count st1) as [st2 Hy].
    exists st2. split; [exact Hy |].
    rewrite (process_actions_continue a (b :: rest) end_ts prev_time count settings
               st p st1 Hstep).
    unfold bind. rewrite Hy.
    apply process_action_returns_timestamp in Hstep. subst p.
    simpl. rewrite process_action_descending by exact Hlt. reflexivity.
Qed.

(** *** Reading the ignored assets *)

Lemma process_action_body_db ignored action end_ts prev_time settings self :
  db (snd (process_action_body E X ignored action end_ts prev_time settings self))
  = db self.
Proof.
  destruct action; unfold_engine; branches; reflexivity.
Qed.

Lemma start_run_db start_ts end_ts self :
  db (snd (start_run E start_ts end_ts self)) = db self.
Proof.
  unfold start_run, _customize.
  destruct (s_include_crypto2crypto (get_settings (db self))) eqn:H1;
    destruct (s_taxfree_after_period (get_settings (db self))) eqn:H2;
    destruct (s_account_for_assets_movements (get_settings (db self))) eqn:H3;
    unfold bind, update_events, modify, get, ret; simpl;
    rewrite ?H1, ?H2, ?H3; reflexivity.
Qed.

Lemma process_actions_read_once_agree :
  (forall d, get_ignored_assets (gevent_sleep X d) = get_ignored_assets d) ->
  forall actions ignored end_ts prev_time count settings self,
    get_ignored_assets (db self) = ignored ->
    process_actions E X actions end_ts prev_time count settings self =
    process_actions_read_once E X ignored actions end_ts prev_time count settings self.
Proof.
  intros Hquiet actions.
  induction actions as [| a rest IH];
    intros ignored end_ts prev_time count settings self Hign; [reflexivity |].
  simpl.
  assert (Hstep :
    process_action E X a end_ts prev_time settings self =
    process_action_body E X ignored a end_ts prev_time settings self).
  { unfold process_action, bind, get. rewrite Hign. reflexivity. }
  rewrite Hstep.
  pose proof (process_action_body_db ignored a end_ts prev_time settings self) as Hdb.
  destruct (process_action_body E X ignored a end_ts prev_time settings self)
    as [[[c p] | e] self1]; simpl in Hdb.
  - destruct c; simpl; [| reflexivity].
    unfold bind, cooperative_yield.
    destruct (count mod 500 =? 0); unfold modify, ret; apply IH; simpl;
      rewrite ?Hquiet, Hdb; exact Hign.
  - destruct (skip_message X a e); [| reflexivity].
    unfold bind, add_error, modify. apply IH. simpl. rewrite Hdb. exact Hign.
Qed.

Lemma process_history_read_once_unfold start_ts end_ts th lh am et de self :
  let actions := merge_actions th lh am et de in
  process_history_read_once E X start_ts end_ts th lh am et de self =
  (process_actions_read_once E X (get_ignored_assets (db self)) actions end_ts 0 0
     (get_settings (db self)) ;;
   finish_run E X) (loop_entry E start_ts end_ts actions self).
Proof.
  intros actions. unfold process_history_read_once, loop_entry. fold actions.
  unfold bind at 1.
  pose proof (start_run_returns start_ts end_ts self) as Hs.
  pose proof (start_run_db start_ts end_ts self) as Hdb.
  destruct (start_run E start_ts end_ts self) as [r self0]. simpl in Hs, Hdb. subst r.
  unfold bind at 1. unfold get at 1. cbv beta iota. rewrite Hdb.
  reflexivity.
Qed.

(** C9, as the code has it: the ignored assets are read from the database
    at the start of every [process_action] call, once per action, and the
    action is checked against what the database holds then; when what the
    other tasks do to the database while the run yields leaves the ignored
    assets alone, the run is the run that reads them once after the
    settings and checks every action against that one set. *)
Theorem ignored_assets_read_for_every_action
    (start_ts end_ts : Timestamp) (th : list TradeHistoryEntry) (lh : list Loan)
    (am : list AssetMovement) (et : list EthereumTransaction) (de : list DefiEvent)
    (self : Accountant B) :
  (forall d, get_ignored_assets (gevent_sleep X d) = get_ignored_assets d) ->
  (forall action end_ts0 prev_time settings st,
      process_action E X action end_ts0 prev_time settings st =
      process_action_body E X (get_ignored_assets (db st)) action end_ts0 prev_time
        settings st)
  /\ process_history E X start_ts end_ts th lh am et de self =
     process_history_read_once E X start_ts end_ts th lh am et de self.
Proof.
  intros Hquiet. split; [reflexivity |].
  rewrite process_history_unfold, process_history_read_once_unfold. cbv zeta.
  unfold bind.
  rewrite (process_actions_read_once_agree Hquiet _ (get_ignored_assets (db self)));
    [reflexivity |].
  unfold loop_entry. simpl. apply f_equal, start_run_db.
Qed.
End EngineFacts.

(** * The engine on concrete histories *)
Module Runs.
Import Demo.

Lemma process_history_recovers_from_price_errors_witness :
  let action := ActAssetMovement stuck_movement in
  let next := ActLoan (loan_at 30) in
  let self := running 0 [] in
  let e := NoPriceForGivenTimestamp "no price" in
  let self1 := set_currently_processing_timestamp 20 self in
  process_action ops quiet action 100 0 settings self = (Raise e, self1)
  /\ exists before after,
       process_actions ops quiet [action; next] 100 0 0 settings self =
       process_actions ops quiet [next] 100 0 0 settings
         (set_msg_aggregator [Error (before ++ "20" ++ after)%string] self1).
Proof.
  intros action next self e self1.
  assert (H : process_action ops quiet action 100 0 settings self = (Raise e, self1))
    by (vm_compute; reflexivity).
  split; [exact H |].
  destruct (proj1 (process_history_recovers_from_price_errors ops quiet action [next]
                     100 0 0 settings self self1 e H))
    as (before & after & Heq).
  - right. left. exists "no price". reflexivity.
  - exists before, after. exact Heq.
Defined.

Lemma process_history_stops_after_end_ts_witness :
  let pre := [ActLoan (loan_at 5); ActLoan (loan_at 10)] in
  let a := ActLoan (loan_at 30) in
  let post := [ActLoan (loan_at 40)] in
  Forall (fun x => action_get_timestamp x <= 20) pre
  /\ 20 < action_get_timestamp a
  /\ 0 <= action_get_timestamp a
  /\ process_actions ops quiet (pre ++ a :: post) 20 0 0 settings (running 0 []) =
     process_actions ops quiet pre 20 0 0 settings (running 0 [])
  /\ b_loan (events (snd (process_actions ops quiet (pre ++ a :: post) 20 0 0
                            settings (running 0 [])))) = FVal_of_Z 6.
Proof.
  intros pre a post.
  assert (H1 : Forall (fun x => action_get_timestamp x <= 20) pre)
    by (repeat constructor; simpl; lia).
  assert (H2 : 20 < action_get_timestamp a) by (simpl; lia).
  assert (H3 : 0 <= action_get_timestamp a) by (simpl; lia).
  split; [exact H1 | split; [exact H2 | split; [exact H3 | split]]].
  - exact (proj1 (process_history_stops_after_end_ts ops quiet pre a post 20 0 0
                    settings (running 0 []) H1 H2 H3)).
  - rewrite (proj1 (process_history_stops_after_end_ts ops quiet pre a post 20 0 0
                      settings (running 0 []) H1 H2 H3)).
    vm_compute. reflexivity.
Defined.

Lemma report_totals_witness :
  exists rep self',
    process_history ops quiet 0 100 [HistTrade early_buy] [loan_at 30] [] [late_tx] []
      (fresh []) = (Ret rep, self')
    /\ overview rep =
       mkOverview "0" "3" "0" "0" "0.008400" "0" "0" "0" "2.991600" "2.991600"
    /\ sum_other_actions ops self' =
       fval_sub (fval_sub (fval_sub (fval_add (fval_add (b_margin (events self'))
                                                 (b_defi (events self')))
                                       (b_loan (events self')))
                             (b_settlement (events self')))
                   (asset_movement_fees self'))
         (eth_transactions_gas_costs self')
    /\ b_loan (events self') = FVal_of_Z 3
    /\ eth_transactions_gas_costs self' = gas_cost 21000 2000000000 (FVal_of_Z 200).
Proof.
  destruct (process_history ops quiet 0 100 [HistTrade early_buy] [loan_at 30] []
              [late_tx] [] (fresh [])) as [[rep | e] self'] eqn:H.
  - exists rep, self'. split; [reflexivity |].
    destruct (report_totals ops quiet 0 100 [HistTrade early_buy] [loan_at 30] []
                [late_tx] [] (fresh []) self' rep H)
      as (Ho & Hs & _).
    split; [rewrite Ho | split; [exact Hs |]];
      vm_compute in H; inversion H; subst; [| split]; vm_compute; reflexivity.
  - vm_compute in H. discriminate H.
Defined.

(** The totals of the report as the specification states them, against the
    code: a sale that brings in 1000000000, and a margin position and a DeFi
    event that bring in 0.0000000000000000004 each.  The code adds the two
    small gains to each other first and the result, 0.0000000000000000008,
    to the trade profit: with 28 digits kept, the total is rounded up to
    1000000000.000000000000000001.  Added to the trade profit one after the
    other, as the sum is written out in the specification, each small gain
    is rounded away and the total is 1000000000.000000000000000000; the sum
    of the figures as exact numbers is neither. *)
Lemma report_total_is_not_the_flat_sum :
  let run := process_history ops quiet 0 100
               [HistTrade big_sell; HistMargin small_margin] [] [] [] [small_defi]
               (fresh []) in
  let self' := snd run in
  let ev := events self' in
  let taxable := b_taxable ev in
  let general := b_general ev in
  let margin := b_margin ev in
  let defi := b_defi ev in
  let loans := b_loan ev in
  let settlement := b_settlement ev in
  let fees := asset_movement_fees self' in
  let gas := eth_transactions_gas_costs self' in
  let exact v := Decimal28.value v in
  map render [taxable; general; margin; defi; loans; settlement; fees; gas] =
  ["1000000000"; "1000000000"; "4E-19"; "4E-19"; "0"; "0"; "0"; "0"]
  /\ (exists rep,
        fst run = Ret rep
        /\ o_total_taxable_profit_loss (overview rep) = "1000000000.000000000000000001"
        /\ o_total_profit_loss (overview rep) = "1000000000.000000000000000001")
  /\ render (taxable + margin + defi + loans - settlement - fees - gas)%F =
     "1000000000.000000000000000000"
  /\ render (general + margin + defi + loans - settlement - fees - gas)%F =
     "1000000000.000000000000000000"
  /\ ~ (exact (total_taxable_pl ops self') ==
        exact taxable + exact margin + exact defi + exact loans - exact settlement
        - exact fees - exact gas)%Q.
Proof.
  intros run self' ev taxable general margin defi loans settlement fees gas exact.
  split; [vm_compute; reflexivity |].
  split; [eexists; split; [vm_compute; reflexivity | split; vm_compute; reflexivity] |].
  split; [vm_compute; reflexivity |].
  split; [vm_compute; reflexivity |].
  intros H. vm_compute in H. discriminate H.
Qed.


(** The gas price of a transaction without one, as the specification states
    it, against the code: [early_tx] carries the real gas price 100 and comes
    first in the sorted stream, but it is earlier than [start_ts] = 10, so
    the gas accounting returns before it would record that price;
    [late_tx], which has the sentinel, is charged at the default
    2000000000 and not at 100. *)
Lemma gas_price_before_start_ts_not_carried :
  let run := process_history ops quiet 10 100 [] [] [] [early_tx; late_tx] []
               (fresh []) in
  merge_actions [] [] [] [early_tx; late_tx] [] =
  [ActEthereumTransaction early_tx; ActEthereumTransaction late_tx]
  /\ tx_gas_price late_tx = -1
  /\ most_recent_real_gas_price 2000000000 [ActEthereumTransaction early_tx] = 100
  /\ carried_gas_price 10 2000000000 [ActEthereumTransaction early_tx] = 2000000000
  /\ eth_transactions_gas_costs (snd run) =
     gas_cost (tx_gas_used late_tx) 2000000000 (FVal_of_Z 200)
  /\ ~ (Decimal28.value (eth_transactions_gas_costs (snd run)) ==
        Decimal28.value
          (gas_cost (tx_gas_used late_tx)
             (most_recent_real_gas_price 2000000000 [ActEthereumTransaction early_tx])
             (FVal_of_Z 200)))%Q.
Proof.
  intros run. repeat split; try (vm_compute; reflexivity).
  intros H. vm_compute in H. discriminate H.
Qed.

Lemma gas_price_carried_forward_witness :
  let earlier := [ActEthereumTransaction early_tx; ActEthereumTransaction mid_tx] in
  let late := ActEthereumTransaction late_tx in
  let self0 := running 10 [] in
  let self := snd (process_actions ops quiet earlier 100 0 0 settings self0) in
  dispatched quiet late 100 12 self
  /\ s_include_gas_costs settings = true
  /\ start_ts self <= tx_timestamp late_tx
  /\ price A_ETH (tx_timestamp late_tx) = Ret (FVal_of_Z 200)
  /\ process_actions ops quiet earlier 100 0 0 settings self0 = (Ret tt, self)
  /\ last_gas_price self = carried_gas_price 10 2000000000 earlier
  /\ carried_gas_price 10 2000000000 earlier = 150
  /\ (exists prev_time count,
        process_actions ops quiet (earlier ++ [late]) 100 0 0 settings self0 =
        process_actions ops quiet [late] 100 prev_time count settings self)
  /\ (exists self',
        process_action ops quiet late 100 12 settings self = (Ret (true, 20), self') /\
        eth_transactions_gas_costs self' =
        (eth_transactions_gas_costs self
         + gas_cost 21000 (last_gas_price self) (FVal_of_Z 200))%F /\
        last_gas_price self' = last_gas_price self)
  /\ eth_transactions_gas_costs
       (snd (process_actions ops quiet (earlier ++ [late]) 100 0 0 settings self0)) =
     (FVal_of_Z 0 + gas_cost 21000 150 (FVal_of_Z 200)
      + gas_cost 21000 150 (FVal_of_Z 200))%F.
Proof.
  intros earlier late self0 self.
  assert (Hd : dispatched quiet late 100 12 self).
  { split; [simpl; lia | split; [simpl; lia |]].
    exists (KnownAsset A_ETH), None.
    split; [reflexivity | split; [reflexivity | vm_compute; reflexivity]]. }
  assert (Hinc : s_include_gas_costs settings = true) by reflexivity.
  assert (Hwin : start_ts self <= tx_timestamp late_tx)
    by (vm_compute; discriminate).
  assert (Hrate : get_rate_in_profit_currency Books ops (events self) A_ETH
                    (tx_timestamp late_tx) = Ret (FVal_of_Z 200)) by reflexivity.
  assert (Hres : forall tx0, action_get_assets quiet (ActEthereumTransaction tx0) =
                             Ret (KnownAsset A_ETH, None)) by (intros tx0; reflexivity).
  assert (Hsleep : forall d, asset_in A_ETH (get_ignored_assets d) = false ->
                             asset_in A_ETH (get_ignored_assets (gevent_sleep quiet d))
                             = false) by (intros d Hx; exact Hx).
  assert (Heth : asset_in A_ETH (get_ignored_assets (db self0)) = false) by reflexivity.
  assert (Hin : Forall (fun a => action_get_timestamp a <= 100) earlier)
    by (repeat constructor; simpl; lia).
  assert (Hrun : process_actions ops quiet earlier 100 0 0 settings self0 = (Ret tt, self))
    by (vm_compute; reflexivity).
  destruct (gas_price_carried_forward ops quiet late_tx 100 12 settings self
              (FVal_of_Z 200) Hd Hinc Hwin Hrate) as (Huse & _ & _ & Hstream).
  destruct (Hstream earlier 100 0 0 self0 self Hres Hsleep Heth Hin Hrun)
    as (Hcarried & prev_time & count & Hgo).
  split; [exact Hd | split; [exact Hinc | split; [exact Hwin | split; [exact Hrate |]]]].
  split; [exact Hrun | split; [exact Hcarried | split; [reflexivity |]]].
  split; [exists prev_time, count; apply Hgo |].
  split; [exact Huse |].
  vm_compute. reflexivity.
Defined.


Lemma timestamps_never_decrease_witness :
  let l1 := [ActLoan (loan_at 5)] in
  let l2 := [ActLoan (loan_at 30)] in
  let self := loop_entry ops 0 100 (l1 ++ l2) (fresh []) in
  let after l := snd (process_actions ops quiet l 100 0 0 settings self) in
  merge_actions [] [loan_at 30; loan_at 5] [] [] [] = l1 ++ l2
  /\ currently_processing_timestamp self <= currently_processing_timestamp (after l1)
  /\ currently_processing_timestamp (after l1) <=
     currently_processing_timestamp (after (l1 ++ l2))
  /\ process_actions ops quiet [ActLoan (loan_at 5)] 100 30 1 settings self =
     (Raise (AssertionError
        "During history processing the trades/loans are not in ascending order"),
      self).
Proof.
  intros l1 l2 self after.
  assert (H : merge_actions [] [loan_at 30; loan_at 5] [] [] [] = l1 ++ l2)
    by (vm_compute; reflexivity).
  destruct (timestamps_never_decrease ops quiet [] [loan_at 30; loan_at 5] [] [] []
              l1 l2 0 100 (fresh []) H) as (H1 & H2 & H3 & _).
  split; [exact H | split; [exact H1 | split; [exact H2 |]]].
  apply (H3 (ActLoan (loan_at 5)) [] 30 1 self). simpl. lia.
Defined.

Lemma resolution_precedes_ignore_check_witness :
  let unknown := ActLoan (mkLoan "poloniex" 1 20 (mkAsset "UNKNOWN") (FVal_of_Z 0)
                            (FVal_of_Z 3) (FVal_of_Z 10)) in
  let ignored := ActLoan (loan_at 20) in
  let self := running 0 [mkAsset "UNKNOWN"; XMR] in
  let seen := set_currently_processing_timestamp 20 self in
  0 <= 20 /\ 20 <= 100
  /\ (exists m,
        process_action ops quiet unknown 100 0 settings self =
        (Ret (true, 20), set_msg_aggregator [m] seen))
  /\ process_action ops quiet ignored 100 0 settings self = (Ret (true, 20), seen).
Proof.
  intros unknown ignored self seen.
  assert (H1 : 0 <= 20) by lia.
  assert (H2 : 20 <= 100) by lia.
  split; [exact H1 | split; [exact H2 | split]].
  - destruct (proj1 (resolution_precedes_ignore_check ops quiet unknown [] 100 0 0
                       settings self H1 H2) (UnknownAsset "UNKNOWN"))
      as (m & Hm & _).
    + reflexivity.
    + left. exists "UNKNOWN". reflexivity.
    + exists m. exact Hm.
  - apply (proj2 (resolution_precedes_ignore_check ops quiet ignored [] 100 0 0
                    settings self H1 H2) (KnownAsset XMR) None); reflexivity.
Defined.

Lemma settlement_buy_sells_btc_witness :
  let self := running 0 [] in
  let r := process_action ops quiet (ActTrade settlement) 100 0 settings self in
  trade_type settlement = SETTLEMENT_BUY
  /\ dispatched quiet (ActTrade settlement) 100 0 self
  /\ fst r = Ret (true, 20)
  /\ b_buys (events (snd r)) = []
  /\ map se_selling_asset (b_sells (events (snd r))) = [A_BTC]
  /\ map se_selling_amount (b_sells (events (snd r))) = [((mkFVal false 1 (-2)) * FVal_of_Z 4)%F].
Proof.
  intros self r.
  assert (Ht : trade_type settlement = SETTLEMENT_BUY) by reflexivity.
  assert (Hd : dispatched quiet (ActTrade settlement) 100 0 self).
  { split; [simpl; lia | split; [simpl; lia |]].
    exists (KnownAsset XMR), (Some (KnownAsset A_BTC)). repeat split; reflexivity. }
  split; [exact Ht | split; [exact Hd |]].
  subst r.
  rewrite (settlement_buy_sells_btc ops quiet settlement 100 0 settings self
             (FVal_of_Z 5000) (FVal_of_Z 5000) Ht Hd eq_refl eq_refl).
  repeat split.
Defined.

(** One set of ignored assets per run, as the specification states it,
    against the code: two identical XMR loans, and a database in which
    XMR is put on the ignore list while the run yields after the first of
    them.  The run accounts the first loan and skips the second; a run that
    read the ignored assets once would treat both alike, and so would a run
    that checked the two against any one set. *)
Lemma ignored_assets_change_within_a_run :
  let run := process_history ops busy 0 100 [] [loan_at 5; loan_at 5] [] [] []
               (fresh []) in
  let once := process_history_read_once ops busy 0 100 [] [loan_at 5; loan_at 5]
                [] [] [] (fresh []) in
  b_loan (events (snd run)) = FVal_of_Z 3
  /\ b_loan (events (snd once)) = FVal_of_Z 6
  /\ run <> once
  /\ (forall ignored,
        b_loan (events (snd (process_actions_read_once ops busy ignored
                               [ActLoan (loan_at 5); ActLoan (loan_at 5)]
                               100 0 0 settings (running 0 [])))) <>
        b_loan (events (snd (process_actions ops busy
                               [ActLoan (loan_at 5); ActLoan (loan_at 5)]
                               100 0 0 settings (running 0 []))))).
Proof.
  intros run once.
  assert (H1 : b_loan (events (snd run)) = FVal_of_Z 3) by (vm_compute; reflexivity).
  assert (H2 : b_loan (events (snd once)) = FVal_of_Z 6) by (vm_compute; reflexivity).
  split; [exact H1 | split; [exact H2 | split]].
  - intros Heq. rewrite Heq, H2 in H1. discriminate H1.
  - intros ignored.
    assert (Hrun : b_loan (events (snd (process_actions ops busy
                     [ActLoan (loan_at 5); ActLoan (loan_at 5)]
                     100 0 0 settings (running 0 [])))) = FVal_of_Z 3)
      by (vm_compute; reflexivity).
    rewrite Hrun. clear Hrun.
    unfold process_actions_read_once, process_action_body, cooperative_yield,
      bind, ret, raise, get, modify, on_events. simpl.
    destruct (asset_in XMR ignored); simpl;
      intros H; vm_compute in H; discriminate H.
Qed.

Lemma ignored_assets_read_for_every_action_witness :
  (forall d, get_ignored_assets (gevent_sleep quiet d) = get_ignored_assets d)
  /\ process_history ops quiet 0 100 [] [loan_at 5; loan_at 5] [] [] [] (fresh [XMR]) =
     process_history_read_once ops quiet 0 100 [] [loan_at 5; loan_at 5] [] [] []
       (fresh [XMR]).
Proof.
  assert (H : forall d, get_ignored_assets (gevent_sleep quiet d) = get_ignored_assets d)
    by (intros d; reflexivity).
  split; [exact H |].
  exact (proj2 (ignored_assets_read_for_every_action ops quiet 0 100 []
                  [loan_at 5; loan_at 5] [] [] [] (fresh [XMR]) H)).
Defined.

Lemma gas_price_advances_when_rate_lookup_fails_witness :
  let self := running 10 [] in
  let r := account_for_gas_costs ops failing_tx true self in
  start_ts self <= tx_timestamp failing_tx
  /\ tx_gas_price failing_tx <> -1
  /\ price A_ETH (tx_timestamp failing_tx) = Raise (RemoteError "timeout")
  /\ fst r = Raise (RemoteError "timeout")
  /\ eth_transactions_gas_costs (snd r) = eth_transactions_gas_costs self
  /\ last_gas_price (snd r) = 300.
Proof.
  intros self r.
  assert (H1 : start_ts self <= tx_timestamp failing_tx) by (simpl; lia).
  assert (H2 : tx_gas_price failing_tx <> -1) by (simpl; lia).
  assert (H3 : get_rate_in_profit_currency Books ops (events self) A_ETH
                 (tx_timestamp failing_tx) = Raise (RemoteError "timeout"))
    by reflexivity.
  destruct (gas_price_advances_when_rate_lookup_fails ops quiet failing_tx [] 100 0 0
              settings self (RemoteError "timeout") H1 H2 H3)
    as (Hr & Hgas & Hlast & _).
  split; [exact H1 | split; [exact H2 | split; [exact H3 | split]]].
  - subst r. rewrite Hr. reflexivity.
  - split; [exact Hgas | exact Hlast].
Defined.
End Runs.

(** * Further properties *)

(** ** Putting the histories together *)

Lemma extend_app {A} actions (inj : A -> TaxableAction) more :
  extend actions inj more = actions ++ map inj more.
Proof.
  unfold extend. destruct more; simpl; [rewrite app_nil_r |]; reflexivity.
Qed.

Lemma merge_actions_sort th lh am et de :
  merge_actions th lh am et de = sort_actions (all_actions th lh am et de).
Proof.
  unfold merge_actions, all_actions. rewrite !extend_app, <- !app_assoc. reflexivity.
Qed.

Lemma insert_by_timestamp_perm a l : Permutation (a :: l) (insert_by_timestamp a l).
Proof.
  induction l as [| b l IH]; simpl; [reflexivity |].
  destruct (action_get_timestamp a <=? action_get_timestamp b); [reflexivity |].
  rewrite perm_swap. constructor. exact IH.
Qed.

Lemma sort_actions_perm l : Permutation l (sort_actions l).
Proof.
  induction l as [| a l IH]; simpl; [constructor |].
  rewrite <- insert_by_timestamp_perm. constructor. exact IH.
Qed.

Lemma insert_by_timestamp_at_time t a l :
  filter (at_time t) (insert_by_timestamp a l) = filter (at_time t) (a :: l).
Proof.
  induction l as [| b l IH]; [reflexivity |].
  simpl insert_by_timestamp.
  destruct (Z.leb_spec (action_get_timestamp a) (action_get_timestamp b)) as [Hle | Hlt];
    [reflexivity |].
  simpl filter in *. rewrite IH. unfold at_time.
  destruct (Z.eqb_spec (action_get_timestamp a) t) as [Ha | Ha];
    destruct (Z.eqb_spec (action_get_timestamp b) t) as [Hb | Hb];
    try reflexivity; lia.
Qed.

Lemma sort_actions_at_time t l :
  filter (at_time t) (sort_actions l) = filter (at_time t) l.
Proof.
  induction l as [| a l IH]; [reflexivity |].
  simpl sort_actions. rewrite insert_by_timestamp_at_time. simpl. rewrite IH.
  reflexivity.
Qed.

(** X1: the stream the loop runs over holds every action of the five
    histories once and nothing else, is in ascending order of timestamp, and
    keeps the actions of one timestamp in the order in which the histories
    were put together (trades and margin positions, loans, asset movements,
    ethereum transactions, DeFi events, each in its own order). *)
Theorem merge_actions_sorts_all_actions
    (th : list TradeHistoryEntry) (lh : list Loan) (am : list AssetMovement)
    (et : list EthereumTransaction) (de : list DefiEvent) :
  Permutation (all_actions th lh am et de) (merge_actions th lh am et de)
  /\ StronglySorted timestamp_le (merge_actions th lh am et de)
  /\ (forall t, filter (at_time t) (merge_actions th lh am et de) =
                filter (at_time t) (all_actions th lh am et de)).
Proof.
  rewrite merge_actions_sort. split; [apply sort_actions_perm | split].
  - apply sort_actions_sorted.
  - intros t. apply sort_actions_at_time.
Qed.

Section MoreFacts.
Context {arith : FValOps} {B : Type}.
Variable E : TaxableEventsOps B.
Variable X : Externals.

Ltac split_case :=
  match goal with
  | |- context [match ?x with _ => _ end] =>
      lazymatch x with
      | context [match _ with _ => _ end] => fail
      | _ => destruct x eqn:?; simpl
      end
  end.
Ltac split_cases := repeat split_case.

Ltac open_engine :=
  unfold process_action, process_action_body, add_asset_movement_to_events,
    account_for_gas_costs, trade_add_to_sell_events, get_fee_in_profit_currency,
    add_warning, add_error, on_events, update_events,
    bind, ret, raise, get, modify, call; simpl.

(** ** What processing leaves alone *)

(** A reading of the accountant that no write to the messages or to the
    database handle changes and that one action leaves as it is, is left as
    it is by the loop. *)
Lemma process_actions_frame {T} (f : Accountant B -> T) settings :
  (forall m s, f (set_msg_aggregator m s) = f s) ->
  (forall d s, f (set_db d s) = f s) ->
  (forall action end_ts prev_time self,
      f (snd (process_action E X action end_ts prev_time settings self)) = f self) ->
  forall actions end_ts prev_time count self,
    f (snd (process_actions E X actions end_ts prev_time count settings self)) = f self.
Proof.
  intros Hmsg Hdb Hstep actions.
  induction actions as [| a rest IH]; intros end_ts prev_time count self;
    [reflexivity |].
  simpl. specialize (Hstep a end_ts prev_time self).
  destruct (process_action E X a end_ts prev_time settings self)
    as [[[c p] | e] self1]; simpl in Hstep.
  - destruct c; simpl; [| exact Hstep].
    unfold bind, cooperative_yield.
    destruct (count mod 500 =? 0); unfold modify, ret; rewrite IH;
      rewrite ?Hdb; exact Hstep.
  - destruct (skip_message X a e); [| exact Hstep].
    unfold bind, add_error, modify. rewrite IH, Hmsg. exact Hstep.
Qed.

Lemma process_action_keeps_window action end_ts prev_time settings self :
  let self' := snd (process_action E X action end_ts prev_time settings self) in
  start_ts self' = start_ts self /\
  profit_currency self' = profit_currency self /\
  started_processing_timestamp self' = started_processing_timestamp self /\
  db self' = db self.
Proof.
  destruct action; open_engine; split_cases; repeat split; reflexivity.
Qed.

Lemma finish_run_frame {T} (f : Accountant B -> T) self :
  (forall b s, f (set_events b s) = f s) ->
  f (snd (finish_run E X self)) = f self.
Proof.
  intros Hev. unfold finish_run, bind, on_events, call, get, ret.
  destruct (calculate_asset_details B E (events self)) as [[[] | e] b]; simpl;
    [| apply Hev].
  destruct (save_historical_forex_data X) as [[] | e]; simpl; apply Hev.
Qed.

(** X2: processing actions never changes the start of the window, the
    profit currency or the time processing started at, and the accountant
    itself never writes to the database handle: after the loop the handle is
    the one before it whenever the other tasks leave it alone. *)
Theorem process_actions_keeps_window
    (actions : list TaxableAction) (end_ts prev_time : Timestamp) (count : Z)
    (settings : DBSettings) (self : Accountant B) :
  let self' := snd (process_actions E X actions end_ts prev_time count settings self) in
  start_ts self' = start_ts self
  /\ profit_currency self' = profit_currency self
  /\ started_processing_timestamp self' = started_processing_timestamp self
  /\ ((forall d, gevent_sleep X d = d) -> db self' = db self).
Proof.
  intros self'. subst self'. repeat split.
  - apply (process_actions_frame start_ts settings); try reflexivity.
    intros. apply process_action_keeps_window.
  - apply (process_actions_frame profit_currency settings); try reflexivity.
    intros. apply process_action_keeps_window.
  - apply (process_actions_frame started_processing_timestamp settings);
      try reflexivity.
    intros. apply process_action_keeps_window.
  - intros Hquiet. revert end_ts prev_time count settings self.
    induction actions as [| a rest IH]; intros end_ts prev_time count settings self;
      [reflexivity |].
    simpl.
    destruct (process_action_keeps_window a end_ts prev_time settings self)
      as (_ & _ & _ & Hdb).
    destruct (process_action E X a end_ts prev_time settings self)
      as [[[c p] | e] self1]; simpl in Hdb.
    + destruct c; simpl; [| exact Hdb].
      unfold bind, cooperative_yield.
      destruct (count mod 500 =? 0); unfold modify, ret; rewrite IH; simpl;
        rewrite ?Hquiet; exact Hdb.
    + destruct (skip_message X a e); [| exact Hdb].
      unfold bind, add_error, modify. rewrite IH. exact Hdb.
Qed.

(** ** Where processing starts *)

Lemma loop_entry_started start_ts end_ts actions self :
  started_processing_timestamp (loop_entry E start_ts end_ts actions self) =
  match actions with
  | [] => 0
  | a :: _ => action_get_timestamp a
  end.
Proof. reflexivity. Qed.

(** X3: whatever the window, a run records as the time processing started
    the earliest timestamp of the whole history, 0 when there is none: it
    is the timestamp of an action of the history and no action is earlier,
    also when [start_ts] is later. *)
Theorem started_processing_timestamp_is_earliest
    (start_ts end_ts : Timestamp) (th : list TradeHistoryEntry) (lh : list Loan)
    (am : list AssetMovement) (et : list EthereumTransaction) (de : list DefiEvent)
    (self : Accountant B) :
  let self' := snd (process_history E X start_ts end_ts th lh am et de self) in
  let started := started_processing_timestamp self' in
  (all_actions th lh am et de = [] -> started = 0)
  /\ (all_actions th lh am et de <> [] ->
      exists a, In a (all_actions th lh am et de) /\ started = action_get_timestamp a)
  /\ (forall a, In a (all_actions th lh am et de) -> started <= action_get_timestamp a).
Proof.
  intros self' started. subst started self'.
  rewrite process_history_unfold. cbv zeta.
  assert (Hstarted :
    started_processing_timestamp
      (snd ((process_actions E X (merge_actions th lh am et de) end_ts 0 0
               (get_settings (db self)) ;; finish_run E X)
              (loop_entry E start_ts end_ts (merge_actions th lh am et de) self))) =
    match merge_actions th lh am et de with
    | [] => 0
    | a :: _ => action_get_timestamp a
    end).
  { rewrite <- (loop_entry_started start_ts end_ts _ self).
    unfold bind.
    pose proof (process_actions_frame started_processing_timestamp
                  (get_settings (db self))
                  (fun _ _ => eq_refl) (fun _ _ => eq_refl)
                  (fun a e p st =>
                     proj1 (proj2 (proj2 (process_action_keeps_window a e p
                                            (get_settings (db self)) st))))
                  (merge_actions th lh am et de) end_ts 0 0
                  (loop_entry E start_ts end_ts (merge_actions th lh am et de) self))
      as Hloop.
    destruct (process_actions E X (merge_actions th lh am et de) end_ts 0 0
                (get_settings (db self))
                (loop_entry E start_ts end_ts (merge_actions th lh am et de) self))
      as [[[] | e] self1]; simpl in Hloop |- *; [| exact Hloop].
    rewrite (finish_run_frame started_processing_timestamp); [exact Hloop |].
    reflexivity. }
  rewrite Hstarted. clear Hstarted.
  pose proof (sort_actions_perm (all_actions th lh am et de)) as Hperm.
  pose proof (sort_actions_sorted (all_actions th lh am et de)) as Hsorted.
  rewrite <- merge_actions_sort in Hperm, Hsorted.
  split; [| split].
  - intros Hnil. rewrite Hnil in Hperm. apply Permutation_nil in Hperm.
    rewrite Hperm. reflexivity.
  - intros Hne.
    destruct (merge_actions th lh am et de) as [| a rest] eqn:Hm.
    + apply Permutation_sym, Permutation_nil in Hperm. contradiction.
    + exists a. split; [| reflexivity].
      eapply Permutation_in; [apply Permutation_sym; exact Hperm | left; reflexivity].
  - intros a Ha. eapply Permutation_in in Ha; [| exact Hperm].
    pose proof (sorted_first_is_least _ Hsorted) as Hleast.
    rewrite Forall_forall in Hleast. apply Hleast. exact Ha.
Qed.

(** ** A run starts afresh *)

(** X4: a run owes nothing to the run before it but the ledger, the
    messages and the database: two accountants that agree on these give the
    same run, whatever fees, gas costs, carried gas price, window, profit
    currency and timestamps an earlier run left in them. *)
Theorem process_history_starts_afresh
    (start_ts end_ts : Timestamp) (th : list TradeHistoryEntry) (lh : list Loan)
    (am : list AssetMovement) (et : list EthereumTransaction) (de : list DefiEvent)
    (self1 self2 : Accountant B) :
  db self1 = db self2 ->
  events self1 = events self2 ->
  msg_aggregator self1 = msg_aggregator self2 ->
  process_history E X start_ts end_ts th lh am et de self1 =
  process_history E X start_ts end_ts th lh am et de self2.
Proof.
  intros Hdb Hev Hmsg.
  rewrite !process_history_unfold. cbv zeta. rewrite Hdb.
  f_equal.
  destruct self1 as [d1 ev1 m1 pc1 f1 g1 l1 s1 st1 c1].
  destruct self2 as [d2 ev2 m2 pc2 f2 g2 l2 s2 st2 c2].
  simpl in Hdb, Hev, Hmsg. subst d1 ev1 m1.
  unfold loop_entry, start_run, _customize, bind, update_events, modify, get, ret,
    get_settings; simpl.
  destruct (s_include_crypto2crypto (db_settings d2));
    destruct (s_taxfree_after_period (db_settings d2));
    destruct (s_account_for_assets_movements (db_settings d2));
    reflexivity.
Qed.

(** ** An empty history *)

(** X5: with no action at all the loop does nothing: the run adds no
    message, processing starts and stays at time 0, and when the closing
    calls of the ledger and of the forex store return, the report states
    asset movement fees and gas costs of zero. *)
Theorem process_history_of_nothing
    (start_ts end_ts : Timestamp) (self : Accountant B) :
  let r := process_history E X start_ts end_ts [] [] [] [] [] self in
  msg_aggregator (snd r) = msg_aggregator self
  /\ currently_processing_timestamp (snd r) = 0
  /\ started_processing_timestamp (snd r) = 0
  /\ (forall rep, fst r = Ret rep ->
        o_asset_movement_fees (overview rep) = fval_str X (FVal_of_Z 0) /\
        o_ethereum_transaction_gas_costs (overview rep) = fval_str X (FVal_of_Z 0)).
Proof.
  intros r.
  assert (Hrun : r = finish_run E X (loop_entry E start_ts end_ts [] self)).
  { subst r. rewrite process_history_unfold. reflexivity. }
  rewrite Hrun. clear Hrun r.
  assert (Hentry : msg_aggregator (loop_entry E start_ts end_ts [] self)
                   = msg_aggregator self /\
                   asset_movement_fees (loop_entry E start_ts end_ts [] self)
                   = FVal_of_Z 0 /\
                   eth_transactions_gas_costs (loop_entry E start_ts end_ts [] self)
                   = FVal_of_Z 0).
  { unfold loop_entry, start_run, _customize, bind, update_events, modify, get, ret,
      get_settings; simpl.
    destruct (s_include_crypto2crypto (db_settings (db self)));
      destruct (s_taxfree_after_period (db_settings (db self)));
      destruct (s_account_for_assets_movements (db_settings (db self)));
      repeat split; reflexivity. }
  destruct Hentry as (Hmsg & Hfees & Hgas).
  split; [| split; [| split]].
  - rewrite (finish_run_frame msg_aggregator); [exact Hmsg | reflexivity].
  - rewrite (finish_run_frame currently_processing_timestamp); reflexivity.
  - rewrite (finish_run_frame started_processing_timestamp); reflexivity.
  - intros rep Hrep.
    destruct (finish_run E X (loop_entry E start_ts end_ts [] self))
      as [o self'] eqn:Hfin.
    simpl in Hrep. subst o.
    pose proof (finish_run_frame asset_movement_fees
                  (loop_entry E start_ts end_ts [] self) (fun _ _ => eq_refl)) as Hf.
    pose proof (finish_run_frame eth_transactions_gas_costs
                  (loop_entry E start_ts end_ts [] self) (fun _ _ => eq_refl)) as Hg.
    rewrite Hfin in Hf, Hg. cbn [snd] in Hf, Hg.
    rewrite Hfees in Hf. rewrite Hgas in Hg.
    apply finish_run_report in Hfin. subst rep. simpl.
    rewrite Hf, Hg. split; reflexivity.
Qed.

(** ** The settings of a run *)

Lemma process_action_body_set_db ignored action end_ts prev_time settings self d :
  process_action_body E X ignored action end_ts prev_time settings (set_db d self) =
  (fst (process_action_body E X ignored action end_ts prev_time settings self),
   set_db d (snd (process_action_body E X ignored action end_ts prev_time settings self))).
Proof.
  destruct action; open_engine; split_cases; reflexivity.
Qed.

Lemma finish_run_set_db self d :
  finish_run E X (set_db d self) =
  (fst (finish_run E X self), set_db d (snd (finish_run E X self))).
Proof.
  unfold finish_run, bind, on_events, call, get, ret. simpl.
  destruct (calculate_asset_details B E (events self)) as [[[] | e] b]; simpl;
    [| reflexivity].
  destruct (save_historical_forex_data X) as [[] | e]; reflexivity.
Qed.

Lemma set_db_same (self : Accountant B) : set_db (db self) self = self.
Proof. destruct self. reflexivity. Qed.

Lemma process_actions_read_once_alone actions ignored :
  forall end_ts prev_time count settings self d,
    let alone := process_actions_read_once E (no_other_tasks X) ignored actions
                   end_ts prev_time count settings self in
    exists d',
      process_actions_read_once E X ignored actions end_ts prev_time count settings
        (set_db d self) = (fst alone, set_db d' (snd alone)).
Proof.
  induction actions as [| a rest IH]; intros end_ts prev_time count settings self d.
  - exists d. reflexivity.
  - cbv zeta. simpl.
    change (process_action_body E (no_other_tasks X)) with (process_action_body E X).
    change (skip_message (no_other_tasks X)) with (skip_message X).
    rewrite process_action_body_set_db.
    destruct (process_action_body E X ignored a end_ts prev_time settings self)
      as [[[c p] | e] self1]; simpl.
    + destruct c; simpl; [| exists d; reflexivity].
      unfold bind, cooperative_yield. simpl.
      destruct (count mod 500 =? 0); unfold modify, ret.
      * apply (IH end_ts p (count + 1) settings (set_db (db self1) self1)
                 (gevent_sleep X d)).
      * apply IH.
    + destruct (skip_message X a e); [| exists d; reflexivity].
      unfold bind, add_error, modify.
      apply (IH end_ts prev_time count settings
               (set_msg_aggregator (msg_aggregator self1 ++ [Error s]) self1) d).
Qed.

(** X6: the settings are read once, before the loop: when what the other
    tasks do to the database while the run yields leaves the ignored assets
    alone, the run returns or raises what it would with nobody else writing
    to the database and leaves the same accountant but for the database
    handle, so that a change to the settings during the run has no effect
    on it. *)
Theorem settings_read_once
    (start_ts end_ts : Timestamp) (th : list TradeHistoryEntry) (lh : list Loan)
    (am : list AssetMovement) (et : list EthereumTransaction) (de : list DefiEvent)
    (self : Accountant B) :
  (forall d, get_ignored_assets (gevent_sleep X d) = get_ignored_assets d) ->
  let run := process_history E X start_ts end_ts th lh am et de self in
  let alone :=
    process_history E (no_other_tasks X) start_ts end_ts th lh am et de self in
  fst run = fst alone /\ exists d, snd run = set_db d (snd alone).
Proof.
  intros Hquiet run alone. subst run alone.
  rewrite !process_history_unfold. cbv zeta.
  set (actions := merge_actions th lh am et de).
  set (entry := loop_entry E start_ts end_ts actions self).
  set (settings := get_settings (db self)).
  unfold bind.
  rewrite (process_actions_read_once_agree E X Hquiet actions
             (get_ignored_assets (db entry)) end_ts 0 0 settings entry eq_refl).
  rewrite (process_actions_read_once_agree E (no_other_tasks X)
             (fun d => eq_refl) actions
             (get_ignored_assets (db entry)) end_ts 0 0 settings entry eq_refl).
  destruct (process_actions_read_once_alone actions (get_ignored_assets (db entry))
              end_ts 0 0 settings entry (db entry)) as [d' Hloop].
  rewrite set_db_same in Hloop. rewrite Hloop.
  destruct (process_actions_read_once E (no_other_tasks X)
              (get_ignored_assets (db entry)) actions end_ts 0 0 settings entry)
    as [[[] | e] self1]; simpl.
  - change (finish_run E (no_other_tasks X)) with (finish_run E X).
    rewrite finish_run_set_db. simpl. split; [reflexivity |].
    exists d'. reflexivity.
  - split; [reflexivity | exists d'; reflexivity].
Qed.

(** ** Messages *)

Lemma process_action_messages action end_ts prev_time settings self :
  let r := process_action E X action end_ts prev_time settings self in
  exists added,
    msg_aggregator (snd r) = msg_aggregator self ++ added /\
    (List.length added <= 1)%nat /\
    (forall e, fst r = Raise e -> added = []).
Proof.
  destruct action; open_engine; split_cases;
    first
      [ exists []; split; [rewrite app_nil_r; reflexivity |];
        split; [simpl; lia | intros; reflexivity]
      | eexists [_]; split; [reflexivity |];
        split; [simpl; lia | intros ? Hd; discriminate Hd] ].
Qed.

(** X7: the messages for the user only grow, by at most one per action:
    after the loop they are the messages before it followed by no more new
    ones than there were actions to process. *)
Theorem process_actions_messages
    (actions : list TaxableAction) (end_ts prev_time : Timestamp) (count : Z)
    (settings : DBSettings) (self : Accountant B) :
  exists added,
    msg_aggregator
      (snd (process_actions E X actions end_ts prev_time count settings self))
    = msg_aggregator self ++ added
    /\ (List.length added <= List.length actions)%nat.
Proof.
  revert end_ts prev_time count self.
  induction actions as [| a rest IH]; intros end_ts prev_time count self.
  - exists []. simpl. rewrite app_nil_r. split; [reflexivity | lia].
  - simpl.
    destruct (process_action_messages a end_ts prev_time settings self)
      as (added1 & Hmsg & Hlen & Hraise).
    destruct (process_action E X a end_ts prev_time settings self)
      as [[[c p] | e] self1]; simpl in Hmsg, Hraise.
    + destruct c; simpl.
      * unfold bind, cooperative_yield.
        destruct (count mod 500 =? 0); unfold modify, ret;
          match goal with
          | |- context [process_actions E X rest ?e ?p ?c settings ?st] =>
              destruct (IH e p c st) as (added2 & Hrest & Hlen2)
          end;
          exists (added1 ++ added2); rewrite Hrest; simpl; rewrite Hmsg, app_assoc;
          (split; [reflexivity | rewrite length_app; lia]).
      * exists added1. split; [exact Hmsg | lia].
    + rewrite (Hraise e eq_refl) in Hmsg. rewrite app_nil_r in Hmsg.
      destruct (skip_message X a e) as [text |].
      * unfold bind, add_error, modify.
        match goal with
        | |- context [process_actions E X rest ?e ?p ?c settings ?st] =>
            destruct (IH e p c st) as (added2 & Hrest & Hlen2)
        end.
        exists (Error text :: added2). rewrite Hrest. simpl. rewrite Hmsg.
        rewrite <- app_assoc. split; [reflexivity | simpl; lia].
      * exists []. simpl. rewrite app_nil_r. split; [exact Hmsg | lia].
Qed.

(** ** Asset movements *)

Ltac into_dispatch H :=
  let H1 := fresh in let H2 := fresh in let a1 := fresh "asset1" in
  let a2 := fresh "asset2" in let Hr := fresh in let Hu := fresh in
  let Hi := fresh in
  destruct H as (H1 & H2 & a1 & a2 & Hr & Hu & Hi);
  unfold process_action, process_action_body;
  unfold bind at 1; unfold get at 1; cbv beta iota;
  apply Z.geb_le in H1; rewrite H1; simpl negb; cbv iota;
  match goal with
  | |- context [?a >? ?b] => destruct (Z.gtb_spec a b) as [? | _]; [lia |]
  end;
  unfold bind at 1; unfold modify at 1; cbv beta iota;
  rewrite Hr, Hu; simpl db; rewrite Hi.

Lemma add_asset_movement_skipped movement self :
  identifier (movement_asset movement) = "KFEE" \/
  account_for_assets_movements B E (events self) = false ->
  add_asset_movement_to_events E movement self = (Ret tt, self).
Proof.
  intros Hoff. unfold add_asset_movement_to_events, bind, get, ret. cbv beta iota.
  destruct (movement_timestamp movement <? start_ts self); [reflexivity |].
  destruct Hoff as [H | H]; rewrite H; [reflexivity |].
  rewrite orb_true_r. reflexivity.
Qed.

Lemma add_asset_movement_accounted movement self :
  start_ts self <= movement_timestamp movement ->
  identifier (movement_asset movement) <> "KFEE" ->
  account_for_assets_movements B E (events self) = true ->
  add_asset_movement_to_events E movement self =
  match get_rate_in_profit_currency B E (events self) (movement_fee_asset movement)
          (movement_timestamp movement) with
  | Ret rate =>
      (Ret tt,
       set_events
         (csv_add_asset_movement B E
            (mkMovementRow (movement_location movement) (movement_category movement)
               (movement_asset movement) (movement_fee movement) rate
               (movement_timestamp movement))
            (events self))
         (set_asset_movement_fees
            (asset_movement_fees self + movement_fee movement * rate)%F self))
  | Raise e => (Raise e, self)
  end.
Proof.
  intros Hwin Hkfee Hon.
  unfold add_asset_movement_to_events, bind, get, ret, call, modify, update_events.
  cbv beta iota.
  destruct (Z.ltb_spec (movement_timestamp movement) (start_ts self)); [lia |].
  apply String.eqb_neq in Hkfee. rewrite Hkfee, Hon. cbn [negb orb].
  destruct (get_rate_in_profit_currency B E (events self) (movement_fee_asset movement)
              (movement_timestamp movement)); reflexivity.
Qed.

(** X8: a movement of KFEE, and any movement while the ledger has the
    accounting of asset movements switched off, is never priced: whatever
    the state and the window, processing it leaves fees, gas costs and the
    ledger as they were, and if it raises then on the ordering assertion or
    out of asset resolution, not on a price. *)
Theorem unaccounted_movements_are_never_priced
    (movement : AssetMovement) (end_ts prev_time : Timestamp)
    (settings : DBSettings) (self : Accountant B) :
  identifier (movement_asset movement) = "KFEE" \/
  account_for_assets_movements B E (events self) = false ->
  let r := process_action E X (ActAssetMovement movement) end_ts prev_time settings
             self in
  asset_movement_fees (snd r) = asset_movement_fees self
  /\ eth_transactions_gas_costs (snd r) = eth_transactions_gas_costs self
  /\ events (snd r) = events self
  /\ (forall e, fst r = Raise e ->
        movement_timestamp movement < prev_time \/
        action_get_assets X (ActAssetMovement movement) = Raise e).
Proof.
  intros Hoff r. subst r.
  unfold process_action, process_action_body, bind, get, modify, raise, ret,
    add_warning, add_error.
  cbv beta iota.
  change (action_get_timestamp (ActAssetMovement movement))
    with (movement_timestamp movement).
  destruct (Z.geb_spec (movement_timestamp movement) prev_time) as [Hge | Hlt];
    cbn [negb]; cbv beta iota.
  2: { repeat split. intros e _. left. exact Hlt. }
  destruct (movement_timestamp movement >? end_ts); cbv beta iota.
  { repeat split. intros e He. discriminate He. }
  destruct (action_get_assets X (ActAssetMovement movement)) as [[a1 a2] | e0] eqn:Hres;
    cbv beta iota.
  - destruct (is_unknown_token a1 || opt_is_unknown_token a2); cbv beta iota;
      [repeat split; intros e He; discriminate He |].
    destruct (resolved_in a1 _ || opt_resolved_in a2 _); cbv beta iota;
      [repeat split; intros e He; discriminate He |].
    rewrite (add_asset_movement_skipped movement
               (set_currently_processing_timestamp (movement_timestamp movement) self)
               Hoff).
    repeat split. intros e He. discriminate He.
  - destruct e0; cbv beta iota; repeat split; intros e He;
      try discriminate He; right; inversion He; reflexivity.
Qed.

(** X9: a dispatched movement that is to be accounted (not earlier than
    [start_ts], not of KFEE, accounting of movements on) is priced at the
    rate of its fee asset at its own timestamp.  When the rate is found the
    fees grow by fee * rate and one row goes to the exporter; when the
    lookup raises, the error leaves [process_action] and nothing but the time
    being processed has changed. *)
Theorem accounted_movement_is_all_or_nothing
    (movement : AssetMovement) (end_ts prev_time : Timestamp)
    (settings : DBSettings) (self : Accountant B) :
  dispatched X (ActAssetMovement movement) end_ts prev_time self ->
  start_ts self <= movement_timestamp movement ->
  identifier (movement_asset movement) <> "KFEE" ->
  account_for_assets_movements B E (events self) = true ->
  let ts := movement_timestamp movement in
  let seen := set_currently_processing_timestamp ts self in
  match get_rate_in_profit_currency B E (events self) (movement_fee_asset movement) ts
  with
  | Ret rate =>
      process_action E X (ActAssetMovement movement) end_ts prev_time settings self =
      (Ret (true, ts),
       set_events
         (csv_add_asset_movement B E
            (mkMovementRow (movement_location movement) (movement_category movement)
               (movement_asset movement) (movement_fee movement) rate ts)
            (events self))
         (set_asset_movement_fees
            (asset_movement_fees self + movement_fee movement * rate)%F seen))
  | Raise e =>
      process_action E X (ActAssetMovement movement) end_ts prev_time settings self =
      (Raise e, seen)
  end.
Proof.
  intros Hd Hwin Hkfee Hon ts seen. subst ts seen.
  pose proof (add_asset_movement_accounted movement
                (set_currently_processing_timestamp (movement_timestamp movement) self)
                Hwin Hkfee Hon) as Hacc.
  cbn [events set_currently_processing_timestamp] in Hacc.
  destruct (get_rate_in_profit_currency B E (events self) (movement_fee_asset movement)
              (movement_timestamp movement)) as [rate | e];
    into_dispatch Hd; unfold bind; cbn [negb]; cbv beta iota;
    change (action_get_timestamp (ActAssetMovement movement))
      with (movement_timestamp movement);
    rewrite Hacc; reflexivity.
Qed.

(** ** Gas costs switched off *)

Lemma process_action_without_gas action end_ts prev_time settings self :
  s_include_gas_costs settings = false ->
  let self' := snd (process_action E X action end_ts prev_time settings self) in
  (eth_transactions_gas_costs self', last_gas_price self') =
  (eth_transactions_gas_costs self, last_gas_price self).
Proof.
  intros Hoff. destruct action; open_engine; rewrite ?Hoff; simpl;
    split_cases; reflexivity.
Qed.

(** X10: when the settings read at the start of the run have the gas costs
    off, no transaction is charged and none records its gas price: after the
    run the gas costs are zero and the carried gas price is the default,
    whatever the history and whatever is done to the settings meanwhile. *)
Theorem gas_costs_switched_off
    (start_ts end_ts : Timestamp) (th : list TradeHistoryEntry) (lh : list Loan)
    (am : list AssetMovement) (et : list EthereumTransaction) (de : list DefiEvent)
    (self : Accountant B) :
  s_include_gas_costs (get_settings (db self)) = false ->
  let self' := snd (process_history E X start_ts end_ts th lh am et de self) in
  eth_transactions_gas_costs self' = FVal_of_Z 0 /\ last_gas_price self' = 2000000000.
Proof.
  intros Hoff self'. subst self'. rewrite process_history_unfold. cbv zeta.
  set (actions := merge_actions th lh am et de).
  set (f := fun s : Accountant B => (eth_transactions_gas_costs s, last_gas_price s)).
  assert (Hentry : f (loop_entry E start_ts end_ts actions self)
                   = (FVal_of_Z 0, 2000000000)).
  { unfold f, loop_entry, start_run, _customize, bind, update_events, modify, get, ret,
      get_settings; simpl.
    destruct (s_include_crypto2crypto (db_settings (db self)));
      destruct (s_taxfree_after_period (db_settings (db self)));
      destruct (s_account_for_assets_movements (db_settings (db self)));
      reflexivity. }
  assert (Hloop : f (snd (process_actions E X actions end_ts 0 0 (get_settings (db self))
                            (loop_entry E start_ts end_ts actions self)))
                  = (FVal_of_Z 0, 2000000000)).
  { rewrite <- Hentry.
    apply (process_actions_frame f (get_settings (db self))); try reflexivity.
    intros a e p st. apply process_action_without_gas. exact Hoff. }
  unfold bind.
  destruct (process_actions E X actions end_ts 0 0 (get_settings (db self))
              (loop_entry E start_ts end_ts actions self)) as [[[] | e] self1];
    simpl in Hloop |- *.
  - rewrite (finish_run_frame eth_transactions_gas_costs); [| reflexivity].
    rewrite (finish_run_frame last_gas_price); [| reflexivity].
    unfold f in Hloop. inversion Hloop. split; reflexivity.
  - unfold f in Hloop. inversion Hloop. split; reflexivity.
Qed.

(** ** Costs are costs *)

Lemma FVal_of_Z_not_negative n : 0 <= n -> not_negative (FVal_of_Z n).
Proof. intros H. left. unfold FVal_of_Z. simpl. apply Z.ltb_ge. exact H. Qed.

Section NonNegativeRates.
(* sums, products and quotients of amounts that are not negative are not
   negative: rounding moves no result across zero *)
Hypothesis add_not_negative :
  forall a b, not_negative a -> not_negative b -> not_negative (a + b)%F.
Hypothesis mul_not_negative :
  forall a b, not_negative a -> not_negative b -> not_negative (a * b)%F.
Hypothesis truediv_not_negative :
  forall a b, not_negative a -> not_negative b -> not_negative (a / b)%F.
Hypothesis rates_not_negative :
  forall b asset ts rate,
    get_rate_in_profit_currency B E b asset ts = Ret rate -> not_negative rate.

Lemma gas_cost_not_negative gas_used gas_price rate :
  0 <= gas_used -> 0 <= gas_price -> not_negative rate ->
  not_negative (gas_cost gas_used gas_price rate).
Proof.
  intros Hu Hp Hr. unfold gas_cost.
  apply mul_not_negative; [| exact Hr].
  apply truediv_not_negative; apply FVal_of_Z_not_negative; [nia | lia].
Qed.

Lemma account_for_gas_costs_not_negative tx include self :
  0 <= tx_gas_used tx ->
  tx_gas_price tx = -1 \/ 0 <= tx_gas_price tx ->
  0 <= last_gas_price self ->
  not_negative (eth_transactions_gas_costs self) ->
  let self' := snd (account_for_gas_costs E tx include self) in
  not_negative (eth_transactions_gas_costs self') /\
  asset_movement_fees self' = asset_movement_fees self /\
  0 <= last_gas_price self'.
Proof.
  intros Hu Hp Hl Hg.
  unfold account_for_gas_costs, bind, get, modify, ret, call, update_events.
  destruct include; cbn [negb]; cbv beta iota;
    [| split; [exact Hg | split; [reflexivity | exact Hl]]].
  destruct (tx_timestamp tx <? start_ts self); cbv beta iota;
    [split; [exact Hg | split; [reflexivity | exact Hl]] |].
  destruct (Z.eqb_spec (tx_gas_price tx) (-1)) as [Hs | Hs]; cbv beta iota;
    cbn [events set_last_gas_price];
    destruct (get_rate_in_profit_currency B E (events self) A_ETH (tx_timestamp tx))
      as [rate | e] eqn:Hrate; cbn;
    (split; [| split; [reflexivity | lia]]);
    try exact Hg;
    apply add_not_negative; [exact Hg | | exact Hg |];
    apply gas_cost_not_negative; try lia;
    eapply rates_not_negative; exact Hrate.
Qed.

Lemma add_asset_movement_not_negative movement self :
  not_negative (movement_fee movement) ->
  not_negative (asset_movement_fees self) ->
  let self' := snd (add_asset_movement_to_events E movement self) in
  not_negative (asset_movement_fees self') /\
  eth_transactions_gas_costs self' = eth_transactions_gas_costs self /\
  last_gas_price self' = last_gas_price self.
Proof.
  intros Hf Ha.
  unfold add_asset_movement_to_events, bind, get, modify, ret, call, update_events.
  cbv beta iota.
  destruct (movement_timestamp movement <? start_ts self); cbv beta iota;
    [split; [exact Ha | split; reflexivity] |].
  destruct (_ || _); cbv beta iota; [split; [exact Ha | split; reflexivity] |].
  destruct (get_rate_in_profit_currency B E (events self) (movement_fee_asset movement)
              (movement_timestamp movement)) as [rate | e] eqn:Hrate; cbn;
    (split; [| split; reflexivity]); [| exact Ha].
  apply add_not_negative; [exact Ha |].
  apply mul_not_negative; [exact Hf |].
  eapply rates_not_negative. exact Hrate.
Qed.

Lemma process_action_costs_not_negative action end_ts prev_time settings self :
  plain_figures action ->
  0 <= last_gas_price self ->
  not_negative (eth_transactions_gas_costs self) ->
  not_negative (asset_movement_fees self) ->
  let self' := snd (process_action E X action end_ts prev_time settings self) in
  not_negative (eth_transactions_gas_costs self') /\
  not_negative (asset_movement_fees self') /\
  0 <= last_gas_price self'.
Proof.
  intros Hplain Hl Hg Hf.
  destruct action as [trade | loan | m | tx | margin | d];
    [ open_engine; split_cases; (split; [exact Hg | split; [exact Hf | exact Hl]])
    | open_engine; split_cases; (split; [exact Hg | split; [exact Hf | exact Hl]])
    | |
    | open_engine; split_cases; (split; [exact Hg | split; [exact Hf | exact Hl]])
    | open_engine; split_cases; (split; [exact Hg | split; [exact Hf | exact Hl]]) ].
  - (* asset movement *)
    pose proof (add_asset_movement_not_negative m
                  (set_currently_processing_timestamp (movement_timestamp m) self)
                  Hplain Hf) as Hm.
    cbv zeta in Hm. cbn [asset_movement_fees eth_transactions_gas_costs last_gas_price
                           set_currently_processing_timestamp] in Hm.
    unfold process_action, process_action_body, bind, get, modify, raise, ret,
      add_warning, add_error.
    cbv beta iota.
    change (action_get_timestamp (ActAssetMovement m)) with (movement_timestamp m).
    destruct (negb _); cbv beta iota;
      [split; [exact Hg | split; [exact Hf | exact Hl]] |].
    destruct (_ >? _); cbv beta iota;
      [split; [exact Hg | split; [exact Hf | exact Hl]] |].
    destruct (action_get_assets X (ActAssetMovement m)) as [[a1 a2] | e0];
      cbv beta iota.
    + destruct (is_unknown_token a1 || opt_is_unknown_token a2); cbv beta iota;
        [split; [exact Hg | split; [exact Hf | exact Hl]] |].
      destruct (resolved_in a1 _ || opt_resolved_in a2 _); cbv beta iota;
        [split; [exact Hg | split; [exact Hf | exact Hl]] |].
      destruct (add_asset_movement_to_events E m _) as [[[] | e] s1];
        cbn [snd] in Hm |- *; destruct Hm as (H1 & H2 & H3);
        (split; [rewrite H2; exact Hg | split; [exact H1 | rewrite H3; exact Hl]]).
    + destruct e0; cbv beta iota;
        (split; [exact Hg | split; [exact Hf | exact Hl]]).
  - (* ethereum transaction *)
    destruct Hplain as [Hu Hp].
    pose proof (account_for_gas_costs_not_negative tx (s_include_gas_costs settings)
                  (set_currently_processing_timestamp (tx_timestamp tx) self)
                  Hu Hp Hl Hg) as Hc.
    cbv zeta in Hc. cbn [asset_movement_fees eth_transactions_gas_costs last_gas_price
                           set_currently_processing_timestamp] in Hc.
    unfold process_action, process_action_body, bind, get, modify, raise, ret,
      add_warning, add_error.
    cbv beta iota.
    change (action_get_timestamp (ActEthereumTransaction tx)) with (tx_timestamp tx).
    destruct (negb _); cbv beta iota;
      [split; [exact Hg | split; [exact Hf | exact Hl]] |].
    destruct (_ >? _); cbv beta iota;
      [split; [exact Hg | split; [exact Hf | exact Hl]] |].
    destruct (action_get_assets X (ActEthereumTransaction tx)) as [[a1 a2] | e0];
      cbv beta iota.
    + destruct (is_unknown_token a1 || opt_is_unknown_token a2); cbv beta iota;
        [split; [exact Hg | split; [exact Hf | exact Hl]] |].
      destruct (resolved_in a1 _ || opt_resolved_in a2 _); cbv beta iota;
        [split; [exact Hg | split; [exact Hf | exact Hl]] |].
      destruct (account_for_gas_costs E tx _ _) as [[[] | e] s1];
        cbn [snd] in Hc |- *; destruct Hc as (H1 & H2 & H3);
        (split; [exact H1 | split; [rewrite H2; exact Hf | exact H3]]).
    + destruct e0; cbv beta iota;
        (split; [exact Hg | split; [exact Hf | exact Hl]]).
Qed.

Lemma process_actions_costs_not_negative actions settings :
  Forall plain_figures actions ->
  forall end_ts prev_time count self,
    0 <= last_gas_price self ->
    not_negative (eth_transactions_gas_costs self) ->
    not_negative (asset_movement_fees self) ->
    let self' :=
      snd (process_actions E X actions end_ts prev_time count settings self) in
    not_negative (eth_transactions_gas_costs self') /\
    not_negative (asset_movement_fees self').
Proof.
  intros Hall. induction Hall as [| a rest Ha Hrest IH];
    intros end_ts prev_time count self Hl Hg Hf.
  - simpl. split; assumption.
  - simpl.
    destruct (process_action_costs_not_negative a end_ts prev_time settings self
                Ha Hl Hg Hf) as (Hg1 & Hf1 & Hl1).
    destruct (process_action E X a end_ts prev_time settings self)
      as [[[c p] | e] self1]; cbn [snd] in Hg1, Hf1, Hl1.
    + destruct c; cbn [negb]; [| split; assumption].
      unfold bind, cooperative_yield.
      destruct (count mod 500 =? 0); unfold modify, ret; apply IH; assumption.
    + destruct (skip_message X a e); [| split; assumption].
      unfold bind, add_error, modify. apply IH; assumption.
Qed.

(** X11: in an arithmetic whose sums, products and quotients of amounts
    that are not negative are not negative, when no rate the ledger hands
    out is negative and the history has no negative gas used, real gas price
    or movement fee, neither the asset movement fees nor the gas costs are
    negative after a run, however it ends. *)
Theorem costs_are_never_negative
    (start_ts end_ts : Timestamp) (th : list TradeHistoryEntry) (lh : list Loan)
    (am : list AssetMovement) (et : list EthereumTransaction) (de : list DefiEvent)
    (self : Accountant B) :
  Forall plain_figures (all_actions th lh am et de) ->
  let self' := snd (process_history E X start_ts end_ts th lh am et de self) in
  not_negative (asset_movement_fees self') /\
  not_negative (eth_transactions_gas_costs self').
Proof.
  intros Hplain self'. subst self'. rewrite process_history_unfold. cbv zeta.
  set (actions := merge_actions th lh am et de).
  assert (Hall : Forall plain_figures actions).
  { eapply Permutation_Forall; [| exact Hplain].
    subst actions. rewrite merge_actions_sort. apply sort_actions_perm. }
  set (entry := loop_entry E start_ts end_ts actions self).
  assert (Hentry : asset_movement_fees entry = FVal_of_Z 0 /\
                   eth_transactions_gas_costs entry = FVal_of_Z 0 /\
                   last_gas_price entry = 2000000000).
  { subst entry.
    unfold loop_entry, start_run, _customize, bind, update_events, modify, get, ret,
      get_settings; simpl.
    destruct (s_include_crypto2crypto (db_settings (db self)));
      destruct (s_taxfree_after_period (db_settings (db self)));
      destruct (s_account_for_assets_movements (db_settings (db self)));
      repeat split; reflexivity. }
  destruct Hentry as (Hf0 & Hg0 & Hl0).
  assert (Hl : 0 <= last_gas_price entry) by (rewrite Hl0; lia).
  assert (Hg1 : not_negative (eth_transactions_gas_costs entry))
    by (rewrite Hg0; apply FVal_of_Z_not_negative; lia).
  assert (Hf1 : not_negative (asset_movement_fees entry))
    by (rewrite Hf0; apply FVal_of_Z_not_negative; lia).
  destruct (process_actions_costs_not_negative actions (get_settings (db self)) Hall
              end_ts 0 0 entry Hl Hg1 Hf1) as [Hg Hf].
  unfold bind.
  destruct (process_actions E X actions end_ts 0 0 (get_settings (db self)) entry)
    as [[[] | e] self1]; cbn [snd] in Hg, Hf |- *.
  - rewrite (finish_run_frame asset_movement_fees); [| reflexivity].
    rewrite (finish_run_frame eth_transactions_gas_costs); [| reflexivity].
    split; assumption.
  - split; assumption.
Qed.
End NonNegativeRates.

(** ** Unknown tokens *)

(** X12: an action inside the window one of whose assets resolves to an
    unknown ethereum token is passed over in silence: no message, no call to
    the ledger, nothing changed but the time being processed, whatever the
    ignore list holds, and the loop goes on with the next action. *)
Theorem unknown_token_is_passed_over
    (action : TaxableAction) (rest : list TaxableAction)
    (end_ts prev_time : Timestamp) (count : Z) (settings : DBSettings)
    (self : Accountant B) (asset1 : ResolvedAsset) (asset2 : option ResolvedAsset) :
  prev_time <= action_get_timestamp action ->
  action_get_timestamp action <= end_ts ->
  action_get_assets X action = Ret (asset1, asset2) ->
  is_unknown_token asset1 || opt_is_unknown_token asset2 = true ->
  let ts := action_get_timestamp action in
  let seen := set_currently_processing_timestamp ts self in
  process_action E X action end_ts prev_time settings self = (Ret (true, ts), seen)
  /\ process_actions E X (action :: rest) end_ts prev_time count settings self =
     (cooperative_yield X count ;;
      process_actions E X rest end_ts ts (count + 1) settings) seen.
Proof.
  intros Hprev Hend Hres Htok ts seen. subst ts seen.
  assert (Hstep :
    process_action E X action end_ts prev_time settings self =
    (Ret (true, action_get_timestamp action),
     set_currently_processing_timestamp (action_get_timestamp action) self)).
  { unfold process_action, process_action_body, bind, get, modify, ret.
    apply Z.geb_le in Hprev. rewrite Hprev. cbn [negb]. cbv beta iota.
    destruct (Z.gtb_spec (action_get_timestamp action) end_ts) as [? | _]; [lia |].
    rewrite Hres, Htok. reflexivity. }
  split; [exact Hstep |].
  simpl process_actions. rewrite Hstep. reflexivity.
Qed.

(** ** Trades *)

(** A trade whose valuation rate is [rate] (for a buy there is none to look
    up) and whose fee rate lookup gives [fee]. *)
Lemma valuation_lookup_first trade end_ts prev_time settings self e :
  dispatched X (ActTrade trade) end_ts prev_time self ->
  (exists asset,
      valuation_asset trade = Some asset /\
      get_rate_in_profit_currency B E (events self) asset (trade_timestamp trade)
      = Raise e) ->
  process_action E X (ActTrade trade) end_ts prev_time settings self =
  (Raise e, set_currently_processing_timestamp (trade_timestamp trade) self).
Proof.
  intros Hd (asset & Hva & Hrate). unfold valuation_asset in Hva.
  into_dispatch Hd.
  destruct (trade_type trade); inversion Hva; subst asset;
    unfold trade_add_to_sell_events, get_fee_in_profit_currency, on_events,
      bind, get, call, ret; cbn; rewrite Hrate; reflexivity.
Qed.

Lemma fee_lookup_second trade end_ts prev_time settings self e :
  dispatched X (ActTrade trade) end_ts prev_time self ->
  (forall asset,
      valuation_asset trade = Some asset ->
      exists rate,
        get_rate_in_profit_currency B E (events self) asset (trade_timestamp trade)
        = Ret rate) ->
  query_historical_price X (trade_fee_currency trade) (profit_currency self)
    (trade_timestamp trade) = Raise e ->
  process_action E X (ActTrade trade) end_ts prev_time settings self =
  (Raise e, set_currently_processing_timestamp (trade_timestamp trade) self).
Proof.
  intros Hd Hva Hfee. unfold valuation_asset in Hva.
  into_dispatch Hd.
  destruct (trade_type trade);
    try (destruct (Hva _ eq_refl) as [rate Hrate]);
    unfold trade_add_to_sell_events, get_fee_in_profit_currency, on_events,
      bind, get, call, ret; cbn; rewrite ?Hrate; cbn; rewrite Hfee; reflexivity.
Qed.

(** X13: a trade is valued before the ledger hears of it: when the lookup
    of its valuation rate (the quote asset's for a sell or a settlement
    sell, BTC's for a settlement buy) raises, or that lookup is fine or not
    needed and the lookup of the fee rate raises, the error leaves
    [process_action] and the ledger, the fees and the messages are as they
    were; only the time being processed has moved to the trade. *)
Theorem trade_price_failure_leaves_ledger_alone
    (trade : Trade) (end_ts prev_time : Timestamp) (settings : DBSettings)
    (self : Accountant B) (e : exn) :
  dispatched X (ActTrade trade) end_ts prev_time self ->
  (exists asset,
      valuation_asset trade = Some asset /\
      get_rate_in_profit_currency B E (events self) asset (trade_timestamp trade)
      = Raise e)
  \/ ((forall asset,
         valuation_asset trade = Some asset ->
         exists rate,
           get_rate_in_profit_currency B E (events self) asset (trade_timestamp trade)
           = Ret rate)
      /\ query_historical_price X (trade_fee_currency trade) (profit_currency self)
           (trade_timestamp trade) = Raise e) ->
  process_action E X (ActTrade trade) end_ts prev_time settings self =
  (Raise e, set_currently_processing_timestamp (trade_timestamp trade) self).
Proof.
  intros Hd [Hva | [Hva Hfee]].
  - apply valuation_lookup_first; assumption.
  - apply fee_lookup_second; assumption.
Qed.

(** X14: a sell, a settlement sell and a settlement buy whose two lookups
    succeed end in one call to the ledger, a plain sell together with the buy
    it implies, a settlement as a sell only.  In the sale handed over the
    gain is the valuation rate times the trade's rate, times the trade's
    amount, and the fee is the fee rate times the trade's fee.  For the two
    kinds of sell that is the rate in the profit currency times the amount
    sold, for a plain sell with the amount received worked out as amount
    times rate; a settlement receives nothing and is marked as a loan
    settlement, and a settlement buy sells BTC, trade rate times amount of it,
    at BTC's own rate. *)
Theorem sell_like_trade_figures
    (trade : Trade) (end_ts prev_time : Timestamp) (settings : DBSettings)
    (self : Accountant B) (asset : Asset) (rate fee_rate : FVal) :
  dispatched X (ActTrade trade) end_ts prev_time self ->
  valuation_asset trade = Some asset ->
  get_rate_in_profit_currency B E (events self) asset (trade_timestamp trade)
  = Ret rate ->
  query_historical_price X (trade_fee_currency trade) (profit_currency self)
    (trade_timestamp trade) = Ret fee_rate ->
  exists sale,
    let ledger_call :=
      match trade_type trade with
      | SELL => add_sell_and_corresponding_buy B E
      | _ => add_sell B E
      end in
    let sold := ledger_call sale (events self) in
    process_action E X (ActTrade trade) end_ts prev_time settings self =
    (match fst sold with
     | Ret _ => Ret (true, trade_timestamp trade)
     | Raise e => Raise e
     end,
     set_events (snd sold)
       (set_currently_processing_timestamp (trade_timestamp trade) self))
    /\ se_gain_in_profit_currency sale =
       (rate * trade_rate trade * trade_amount trade)%F
    /\ se_total_fee_in_profit_currency sale = (fee_rate * trade_fee trade)%F
    /\ se_timestamp sale = trade_timestamp trade
    /\ match trade_type trade with
       | SELL =>
           se_selling_asset sale = trade_base_asset trade /\
           se_gain_in_profit_currency sale =
           (se_rate_in_profit_currency sale * se_selling_amount sale)%F /\
           se_receiving_asset sale = Some (trade_quote_asset trade) /\
           se_receiving_amount sale =
           Some (trade_amount trade * trade_rate trade)%F
       | SETTLEMENT_SELL =>
           se_selling_asset sale = trade_base_asset trade /\
           se_gain_in_profit_currency sale =
           (se_rate_in_profit_currency sale * se_selling_amount sale)%F /\
           se_receiving_asset sale = None /\ se_receiving_amount sale = None /\
           se_loan_settlement sale = Some true
       | _ =>
           se_selling_asset sale = A_BTC /\
           se_rate_in_profit_currency sale = rate /\
           se_selling_amount sale = (trade_rate trade * trade_amount trade)%F /\
           se_receiving_asset sale = None /\ se_receiving_amount sale = None /\
           se_loan_settlement sale = Some true
       end.
Proof.
  intros Hd Hva Hrate Hfee. unfold valuation_asset in Hva.
  assert (Hrun : forall sale ledger_call,
    (match trade_type trade with
     | BUY => False
     | SELL =>
         ledger_call = add_sell_and_corresponding_buy B E /\
         sale = mkSellEvent (trade_location trade) (trade_base_asset trade)
                  (trade_amount trade) (Some (trade_quote_asset trade))
                  (Some (trade_amount trade * trade_rate trade)%F)
                  (rate * trade_rate trade * trade_amount trade)%F
                  (fee_rate * trade_fee trade)%F (trade_rate trade)
                  (rate * trade_rate trade)%F (trade_timestamp trade) None None
     | SETTLEMENT_SELL =>
         ledger_call = add_sell B E /\
         sale = mkSellEvent (trade_location trade) (trade_base_asset trade)
                  (trade_amount trade) None None
                  (rate * trade_rate trade * trade_amount trade)%F
                  (fee_rate * trade_fee trade)%F (trade_rate trade)
                  (rate * trade_rate trade)%F (trade_timestamp trade)
                  (Some true) (Some false)
     | SETTLEMENT_BUY =>
         ledger_call = add_sell B E /\
         sale = mkSellEvent (trade_location trade) A_BTC
                  (trade_rate trade * trade_amount trade)%F None None
                  (rate * trade_rate trade * trade_amount trade)%F
                  (fee_rate * trade_fee trade)%F (trade_rate trade)
                  rate (trade_timestamp trade) (Some true) None
     end) ->
    process_action E X (ActTrade trade) end_ts prev_time settings self =
    (match fst (ledger_call sale (events self)) with
     | Ret _ => Ret (true, trade_timestamp trade)
     | Raise e => Raise e
     end,
     set_events (snd (ledger_call sale (events self)))
       (set_currently_processing_timestamp (trade_timestamp trade) self))).
  { intros sale ledger_call Hsale.
    into_dispatch Hd.
    destruct (trade_type trade); inversion Hva; subst asset;
      destruct Hsale as [-> ->];
      unfold trade_add_to_sell_events, get_fee_in_profit_currency, on_events,
        bind, get, call, ret; cbn; rewrite Hrate; cbn; rewrite Hfee; cbn;
      match goal with
      | |- context [?op B E ?ev (events self)] =>
          destruct (op B E ev (events self)) as [[[] | e] books]
      end; reflexivity. }
  destruct (trade_type trade) eqn:Htype; inversion Hva; subst asset; clear Hva;
    eexists; cbv zeta;
    (split; [apply Hrun; split; reflexivity |]);
    cbn; repeat split; reflexivity.
Qed.

(** ** The time being processed *)


End MoreFacts.

(** ** The amount of an asset the ledger holds *)

Section AmountFacts.
Context {arith : FValOps} {B Lot : Type}.
Variable asset_buys : B -> Asset -> option (list Lot).
Variable lot_amount : Lot -> FVal.

End AmountFacts.

(** ** The default decimal context keeps amounts on their side of zero *)

Lemma _fix_sign s coeff exp : num_sign (Decimal28._fix s coeff exp) = s.
Proof.
  unfold Decimal28._fix. cbv zeta.
  repeat match goal with
         | |- context [if ?b then _ else _] => destruct b
         end; reflexivity.
Qed.

Lemma _fix_zero s exp : num_coefficient (Decimal28._fix s 0 exp) = 0%N.
Proof. reflexivity. Qed.

Lemma signed_not_negative v : not_negative v -> 0 <= Decimal28.signed v.
Proof.
  unfold Decimal28.signed. intros [Hs | Hc].
  - rewrite Hs. apply N2Z.is_nonneg.
  - rewrite Hc. destruct (num_sign v); simpl; lia.
Qed.

Lemma add_not_negative_in_context a b :
  not_negative a -> not_negative b -> not_negative (Decimal28.add a b).
Proof.
  intros Ha Hb. unfold Decimal28.add. cbv zeta.
  set (exp := Z.min (num_exponent a) (num_exponent b)).
  set (c := Decimal28.signed a * 10 ^ (num_exponent a - exp)
            + Decimal28.signed b * 10 ^ (num_exponent b - exp)).
  assert (Hc : 0 <= c).
  { subst c. apply signed_not_negative in Ha. apply signed_not_negative in Hb.
    pose proof (Z.pow_nonneg 10 (num_exponent a - exp)).
    pose proof (Z.pow_nonneg 10 (num_exponent b - exp)). nia. }
  destruct (Z.eqb_spec c 0) as [Hz | Hz].
  - right. rewrite Hz. apply _fix_zero.
  - left. rewrite _fix_sign. apply Z.ltb_ge. exact Hc.
Qed.

Lemma mul_not_negative_in_context a b :
  not_negative a -> not_negative b -> not_negative (Decimal28.mul a b).
Proof.
  unfold Decimal28.mul. intros [Ha | Ha] [Hb | Hb].
  - left. rewrite _fix_sign, Ha, Hb. reflexivity.
  - right. rewrite Hb, N.mul_0_r. apply _fix_zero.
  - right. rewrite Ha, N.mul_0_l. apply _fix_zero.
  - right. rewrite Ha, N.mul_0_l. apply _fix_zero.
Qed.

Lemma truediv_not_negative_in_context a b :
  not_negative a -> not_negative b -> not_negative (Decimal28.truediv a b).
Proof.
  intros Ha Hb. unfold Decimal28.truediv. cbv zeta.
  destruct (N.eqb_spec (num_coefficient b) 0) as [Hzb | Hzb]; [right; reflexivity |].
  destruct (N.eqb_spec (num_coefficient a) 0) as [Hza | Hza];
    [right; apply _fix_zero |].
  destruct Ha as [Ha | Ha]; [| contradiction].
  destruct Hb as [Hb | Hb]; [| contradiction].
  left. rewrite Ha, Hb.
  repeat match goal with
         | |- context [if ?b then _ else _] => destruct b
         | |- context [let '(_, _) := ?p in _] => destruct p
         end; apply _fix_sign.
Qed.

Lemma demo_rates_not_negative :
  forall (b : Demo.Books) asset ts rate,
    get_rate_in_profit_currency Demo.Books Demo.ops b asset ts = Ret rate ->
    not_negative rate.
Proof.
  intros b asset ts rate H. simpl in H. unfold Demo.price in H.
  repeat match type of H with
         | (if ?c then _ else _) = _ => destruct c
         end;
    inversion H; subst; left; reflexivity.
Qed.

(** * Further runs *)
Module MoreRuns.
Import Demo.
Import Cases.

Lemma process_actions_keeps_window_witness :
  let stream := [ActTrade early_buy; ActLoan (loan_at 30)] in
  let self := running 10 [] in
  let self' := snd (process_actions ops quiet stream 100 0 0 settings self) in
  (forall d, gevent_sleep quiet d = d)
  /\ start_ts self' = 10
  /\ profit_currency self' = EUR
  /\ db self' = db self.
Proof.
  intros stream self self'.
  assert (H : forall d, gevent_sleep quiet d = d) by (intros d; reflexivity).
  destruct (process_actions_keeps_window ops quiet stream 100 0 0 settings self)
    as (Hs & Hp & _ & Hdb).
  split; [exact H | split; [exact Hs | split; [exact Hp | exact (Hdb H)]]].
Defined.

Lemma started_processing_timestamp_is_earliest_witness :
  let self' := snd (process_history ops quiet 50 100 [HistTrade early_buy]
                      [loan_at 30] [] [late_tx] [] (fresh [])) in
  all_actions [HistTrade early_buy] [loan_at 30] [] [late_tx] [] <> []
  /\ (exists a,
        In a (all_actions [HistTrade early_buy] [loan_at 30] [] [late_tx] []) /\
        started_processing_timestamp self' = action_get_timestamp a)
  /\ started_processing_timestamp self' <= 5.
Proof.
  intros self'.
  assert (Hne : all_actions [HistTrade early_buy] [loan_at 30] [] [late_tx] [] <> [])
    by (simpl; discriminate).
  destruct (started_processing_timestamp_is_earliest ops quiet 50 100
              [HistTrade early_buy] [loan_at 30] [] [late_tx] [] (fresh []))
    as (_ & Hex & Hle).
  split; [exact Hne | split; [exact (Hex Hne) |]].
  apply (Hle (ActTrade early_buy)). left. reflexivity.
Defined.

Lemma process_history_starts_afresh_witness :
  db used = db (fresh [])
  /\ events used = events (fresh [])
  /\ msg_aggregator used = msg_aggregator (fresh [])
  /\ process_history ops quiet 10 100 [HistTrade early_buy] [] [paid_movement]
       [early_tx; late_tx] [] used =
     process_history ops quiet 10 100 [HistTrade early_buy] [] [paid_movement]
       [early_tx; late_tx] [] (fresh []).
Proof.
  assert (H1 : db used = db (fresh [])) by reflexivity.
  assert (H2 : events used = events (fresh [])) by reflexivity.
  assert (H3 : msg_aggregator used = msg_aggregator (fresh [])) by reflexivity.
  split; [exact H1 | split; [exact H2 | split; [exact H3 |]]].
  exact (process_history_starts_afresh ops quiet 10 100 [HistTrade early_buy] []
           [paid_movement] [early_tx; late_tx] [] used (fresh []) H1 H2 H3).
Defined.

Lemma process_history_of_nothing_witness :
  exists rep,
    fst (process_history ops quiet 0 100 [] [] [] [] [] used) = Ret rep
    /\ o_asset_movement_fees (overview rep) = "0"
    /\ o_ethereum_transaction_gas_costs (overview rep) = "0".
Proof.
  destruct (fst (process_history ops quiet 0 100 [] [] [] [] [] used))
    as [rep | e] eqn:H.
  - exists rep. split; [reflexivity |].
    exact (proj2 (proj2 (proj2 (process_history_of_nothing ops quiet 0 100 used)))
             rep H).
  - vm_compute in H. discriminate H.
Defined.

Lemma settings_read_once_witness :
  let run := process_history ops meddling 0 100 [] [] []
               [early_tx; late_tx] [] (fresh []) in
  let alone := process_history ops (no_other_tasks meddling) 0 100 [] [] []
                 [early_tx; late_tx] [] (fresh []) in
  (forall d, get_ignored_assets (gevent_sleep meddling d) = get_ignored_assets d)
  /\ fst run = fst alone
  /\ (exists d, snd run = set_db d (snd alone))
  /\ s_include_gas_costs (db_settings (db (snd run))) = false
  /\ s_include_gas_costs (db_settings (db (snd alone))) = true.
Proof.
  intros run alone.
  assert (H : forall d, get_ignored_assets (gevent_sleep meddling d)
                        = get_ignored_assets d) by (intros d; reflexivity).
  split; [exact H |].
  split; [exact (proj1 (settings_read_once ops meddling 0 100 [] [] []
                          [early_tx; late_tx] [] (fresh []) H)) |].
  split; [exact (proj2 (settings_read_once ops meddling 0 100 [] [] []
                          [early_tx; late_tx] [] (fresh []) H)) |].
  split; vm_compute; reflexivity.
Defined.

Lemma unaccounted_movements_are_never_priced_witness :
  let self := running 0 [] in
  let r := process_action ops quiet (ActAssetMovement kfee_movement) 100 0 settings
             self in
  (identifier (movement_asset kfee_movement) = "KFEE" \/
   b_account_for_assets_movements (events self) = false)
  /\ price (movement_fee_asset kfee_movement) 20 =
     Raise (NoPriceForGivenTimestamp "no price")
  /\ asset_movement_fees (snd r) = asset_movement_fees self
  /\ events (snd r) = events self.
Proof.
  intros self r.
  assert (H : identifier (movement_asset kfee_movement) = "KFEE" \/
              account_for_assets_movements Books ops (events self) = false)
    by (left; reflexivity).
  destruct (unaccounted_movements_are_never_priced ops quiet kfee_movement 100 0
              settings self H) as (Hf & _ & Hev & _).
  split; [exact H | split; [reflexivity | split; [exact Hf | exact Hev]]].
Defined.

Lemma accounted_movement_is_all_or_nothing_witness :
  let self := running 0 [] in
  let seen := set_currently_processing_timestamp 20 self in
  dispatched quiet (ActAssetMovement paid_movement) 100 0 self
  /\ start_ts self <= movement_timestamp paid_movement
  /\ identifier (movement_asset paid_movement) <> "KFEE"
  /\ b_account_for_assets_movements (events self) = true
  /\ process_action ops quiet (ActAssetMovement paid_movement) 100 0 settings self =
     (Ret (true, 20),
      set_events
        (csv_add_asset_movement Books ops
           (mkMovementRow "kraken" "withdrawal" XMR (mkFVal false 1 (-1))
              (FVal_of_Z 50) 20)
           (events self))
        (set_asset_movement_fees
           (asset_movement_fees self + mkFVal false 1 (-1) * FVal_of_Z 50)%F seen)).
Proof.
  intros self seen.
  assert (Hd : dispatched quiet (ActAssetMovement paid_movement) 100 0 self).
  { split; [simpl; lia | split; [simpl; lia |]].
    exists (KnownAsset XMR), None. repeat split; reflexivity. }
  assert (Hw : start_ts self <= movement_timestamp paid_movement) by (simpl; lia).
  assert (Hk : identifier (movement_asset paid_movement) <> "KFEE")
    by (simpl; discriminate).
  assert (Hon : account_for_assets_movements Books ops (events self) = true)
    by reflexivity.
  split; [exact Hd | split; [exact Hw | split; [exact Hk | split; [exact Hon |]]]].
  exact (accounted_movement_is_all_or_nothing ops quiet paid_movement 100 0 settings
           self Hd Hw Hk Hon).
Defined.

Lemma gas_costs_switched_off_witness :
  let self' := snd (process_history ops quiet 0 100 [] [] [] [early_tx; late_tx] []
                      fresh_gas_off) in
  s_include_gas_costs (get_settings (db fresh_gas_off)) = false
  /\ eth_transactions_gas_costs self' = FVal_of_Z 0
  /\ last_gas_price self' = 2000000000.
Proof.
  intros self'.
  assert (H : s_include_gas_costs (get_settings (db fresh_gas_off)) = false)
    by reflexivity.
  split; [exact H |].
  exact (gas_costs_switched_off ops quiet 0 100 [] [] [] [early_tx; late_tx] []
           fresh_gas_off H).
Defined.

Lemma costs_are_never_negative_witness :
  let self' := snd (process_history ops quiet 0 100 [HistTrade early_buy] []
                      [paid_movement] [early_tx; late_tx] [] (fresh [])) in
  Forall plain_figures
    (all_actions [HistTrade early_buy] [] [paid_movement] [early_tx; late_tx] [])
  /\ not_negative (asset_movement_fees self')
  /\ not_negative (eth_transactions_gas_costs self')
  /\ map render [asset_movement_fees self'; eth_transactions_gas_costs self'] =
     ["5.0"; "8.400E-10"].
Proof.
  intros self'.
  assert (H : Forall plain_figures
                (all_actions [HistTrade early_buy] [] [paid_movement]
                   [early_tx; late_tx] [])).
  { repeat constructor; simpl; try lia; try (left; reflexivity); right; lia. }
  split; [exact H |].
  destruct (costs_are_never_negative (arith := Decimal28.arithmetic) ops quiet
              add_not_negative_in_context
              mul_not_negative_in_context truediv_not_negative_in_context
              demo_rates_not_negative 0 100
              [HistTrade early_buy] [] [paid_movement] [early_tx; late_tx] []
              (fresh []) H) as [Hf Hg].
  split; [exact Hf | split; [exact Hg |]].
  vm_compute. reflexivity.
Defined.

Lemma unknown_token_is_passed_over_witness :
  let self := running 0 [] in
  0 <= action_get_timestamp (ActTrade token_trade)
  /\ action_get_timestamp (ActTrade token_trade) <= 100
  /\ get_assets (ActTrade token_trade) =
     Ret (UnknownEthereumToken "0x0", Some (KnownAsset XMR))
  /\ process_action ops quiet (ActTrade token_trade) 100 0 settings self =
     (Ret (true, 20), set_currently_processing_timestamp 20 self).
Proof.
  intros self.
  assert (H1 : 0 <= action_get_timestamp (ActTrade token_trade)) by (simpl; lia).
  assert (H2 : action_get_timestamp (ActTrade token_trade) <= 100) by (simpl; lia).
  assert (H3 : action_get_assets quiet (ActTrade token_trade) =
               Ret (UnknownEthereumToken "0x0", Some (KnownAsset XMR)))
    by reflexivity.
  split; [exact H1 | split; [exact H2 | split; [exact H3 |]]].
  exact (proj1 (unknown_token_is_passed_over ops quiet (ActTrade token_trade) []
                  100 0 0 settings self _ _ H1 H2 H3 eq_refl)).
Defined.

Lemma trade_price_failure_leaves_ledger_alone_witness :
  let self := running 0 [] in
  dispatched quiet (ActTrade unpriced_fee_buy) 100 0 self
  /\ valuation_asset unpriced_fee_buy = None
  /\ price (trade_fee_currency unpriced_fee_buy) 20 =
     Raise (NoPriceForGivenTimestamp "no price")
  /\ process_action ops quiet (ActTrade unpriced_fee_buy) 100 0 settings self =
     (Raise (NoPriceForGivenTimestamp "no price"),
      set_currently_processing_timestamp 20 self).
Proof.
  intros self.
  assert (Hd : dispatched quiet (ActTrade unpriced_fee_buy) 100 0 self).
  { split; [simpl; lia | split; [simpl; lia |]].
    exists (KnownAsset XMR), (Some (KnownAsset EUR)). repeat split; reflexivity. }
  assert (Hfee : query_historical_price quiet (trade_fee_currency unpriced_fee_buy)
                   (profit_currency self) (trade_timestamp unpriced_fee_buy)
                 = Raise (NoPriceForGivenTimestamp "no price")) by reflexivity.
  split; [exact Hd | split; [reflexivity | split; [exact Hfee |]]].
  apply (trade_price_failure_leaves_ledger_alone ops quiet unpriced_fee_buy 100 0
           settings self (NoPriceForGivenTimestamp "no price") Hd).
  right. split; [| exact Hfee].
  intros asset Hva. discriminate Hva.
Defined.

Lemma sell_like_trade_figures_witness :
  let self := running 0 [] in
  let r := process_action ops quiet (ActTrade plain_sell) 100 0 settings self in
  dispatched quiet (ActTrade plain_sell) 100 0 self
  /\ valuation_asset plain_sell = Some A_BTC
  /\ price A_BTC 20 = Ret (FVal_of_Z 5000)
  /\ exists sale,
       r = (Ret (true, 20),
            set_events (snd (add_sell_and_corresponding_buy Books ops sale
                               (events self)))
              (set_currently_processing_timestamp 20 self))
       /\ se_gain_in_profit_currency sale =
          (FVal_of_Z 5000 * mkFVal false 1 (-2) * FVal_of_Z 4)%F
       /\ se_receiving_asset sale = Some A_BTC
       /\ se_receiving_amount sale = Some (FVal_of_Z 4 * mkFVal false 1 (-2))%F.
Proof.
  intros self r.
  assert (Hd : dispatched quiet (ActTrade plain_sell) 100 0 self).
  { split; [simpl; lia | split; [simpl; lia |]].
    exists (KnownAsset XMR), (Some (KnownAsset A_BTC)). repeat split; reflexivity. }
  assert (Hva : valuation_asset plain_sell = Some A_BTC) by reflexivity.
  assert (Hrate : get_rate_in_profit_currency Books ops (events self) A_BTC
                    (trade_timestamp plain_sell) = Ret (FVal_of_Z 5000))
    by reflexivity.
  assert (Hfee : query_historical_price quiet (trade_fee_currency plain_sell)
                   (profit_currency self) (trade_timestamp plain_sell)
                 = Ret (FVal_of_Z 5000)) by reflexivity.
  split; [exact Hd | split; [exact Hva | split; [exact Hrate |]]].
  destruct (sell_like_trade_figures ops quiet plain_sell 100 0 settings self A_BTC
              (FVal_of_Z 5000) (FVal_of_Z 5000) Hd Hva Hrate Hfee)
    as (sale & Hrun & Hgain & _ & _ & Hsell).
  exists sale. split; [exact Hrun | split; [exact Hgain |]].
  exact (proj2 (proj2 Hsell)).
Defined.
End MoreRuns.
